(** * CP verification bot: a shallow embedding of the verification core

    Embedded sources:
    - [src/utils/time.js]                  (module [Time])
    - [src/services/codeforces.service.js] (module [Codeforces])
    - [src/services/codechef.service.js]   (module [CodeChef]; the text of
      this service follows the setup command in src/commands/setup.js)
    - [src/utils/randomProblem.js]         (module [RandomProblem])
    - [src/commands/verify.js], [src/commands/link.js] (module [Verify])

    Conventions.  A JavaScript [Date] is the integer number of milliseconds
    since the epoch ([Z]); JavaScript numbers that hold identifiers, ratings
    and timestamps are integers ([Z]), which is exact inside the safe-integer
    range.  The product [Math.random() * length] is computed in binary64, as
    the code computes it (module [Double]).  A [Date] setter works on the
    fields of the local time, so it takes the host's time zone
    ([Time.TimeZone]).  Strings are [string]; [toUpperCase] and [toLowerCase]
    act on the ASCII letters.  A promise that rejects and a [throw] are the
    [Throw] constructor of [Exc]. *)

From Stdlib Require Import ZArith List String Ascii Bool Lia.
From Stdlib Require Import DecimalString DecimalN DecimalPos SpecFloat.
Import ListNotations.

Local Open Scope string_scope.
Local Open Scope Z_scope.

(** ** JavaScript values and exceptions *)

Inductive Exc (A : Type) : Type :=
| Ok (a : A)
| Throw (msg : string).
Arguments Ok {A} a.
Arguments Throw {A} msg.

Definition ebind {A B} (r : Exc A) (k : A -> Exc B) : Exc B :=
  match r with
  | Ok a => k a
  | Throw e => Throw e
  end.

(** [try { r } catch (error) { h error.message }] *)
Definition try_catch {A} (r : Exc A) (h : string -> Exc A) : Exc A :=
  match r with
  | Ok a => Ok a
  | Throw e => h e
  end.

Module Js.

(** The double-quote character, for the messages that quote a verdict. *)
Definition dq : string := String (ascii_of_nat 34) EmptyString.

Definition is_lower (c : ascii) : bool :=
  ((97 <=? nat_of_ascii c) && (nat_of_ascii c <=? 122))%nat.

Definition is_upper (c : ascii) : bool :=
  ((65 <=? nat_of_ascii c) && (nat_of_ascii c <=? 90))%nat.

Definition is_digit (c : ascii) : bool :=
  ((48 <=? nat_of_ascii c) && (nat_of_ascii c <=? 57))%nat.

Definition is_letter (c : ascii) : bool := is_lower c || is_upper c.

Definition upper_char (c : ascii) : ascii :=
  if is_lower c then ascii_of_nat (nat_of_ascii c - 32) else c.

Definition lower_char (c : ascii) : ascii :=
  if is_upper c then ascii_of_nat (nat_of_ascii c + 32) else c.

Fixpoint map_string (f : ascii -> ascii) (s : string) : string :=
  match s with
  | EmptyString => EmptyString
  | String c s' => String (f c) (map_string f s')
  end.

(** [s.toUpperCase()] and [s.toLowerCase()] *)
Definition toUpperCase : string -> string := map_string upper_char.
Definition toLowerCase : string -> string := map_string lower_char.

(** [hay.includes(needle)] *)
Fixpoint includes (hay needle : string) : bool :=
  if prefix needle hay then true
  else match hay with
       | EmptyString => false
       | String _ hay' => includes hay' needle
       end.

(** Truthiness of a string and of a number. *)
Definition truthy_string (s : string) : bool :=
  match s with EmptyString => false | _ => true end.

Definition truthy_num (n : Z) : bool := negb (n =? 0).

(** [String(n)] for a non-negative integer. *)
Definition string_of_N (n : N) : string :=
  NilEmpty.string_of_uint (N.to_uint n).

(** Template rendering of an integer: [`${n}`]. *)
Definition string_of_Z (n : Z) : string :=
  if n <? 0 then "-" ++ string_of_N (Z.to_N (- n)) else string_of_N (Z.to_N n).

(** [String(v)] of a possibly undefined string. *)
Definition render (v : option string) : string :=
  match v with Some s => s | None => "undefined" end.

(** [a === b] where [a] may be [undefined] and [b] is a number. *)
Definition strict_eq_num (a : option Z) (b : Z) : bool :=
  match a with Some x => x =? b | None => false end.

End Js.

(** ** JavaScript numbers in binary64 *)

Module Double.

Definition prec : Z := 53.
Definition emax : Z := 1024.

(** [x * y]: the product rounded to the nearest double, ties to even. *)
Definition mul (x y : spec_float) : spec_float := SFmul prec emax x y.

(** The double of an array length. *)
Definition ofNat (n : nat) : spec_float :=
  binary_normalize prec emax (Z.of_nat n) 0 false.

(** [Math.floor(x)] of a finite [x], as an integer; [None] for [NaN] and the
    infinities. *)
Definition floor (x : spec_float) : option Z :=
  match x with
  | S754_zero _ => Some 0
  | S754_finite s m e => Some (Z.shiftl (cond_Zopp s (Zpos m)) e)
  | _ => None
  end.

(** What [Math.random()] may return: a double that is at least 0 and less
    than 1. *)
Definition isRandom (x : spec_float) : bool :=
  match x with
  | S754_zero false => true
  | S754_finite false m e => bounded prec emax m e && (e <? 0) && (Zpos m <? 2 ^ (- e))
  | _ => false
  end.

End Double.

(** ** src/utils/time.js *)

Module Time.

Record Remaining := {
  minutes : Z;
  seconds : Z;
  formatted : string
}.

(** [isExpired(expiresAt)], with [now] the value of [new Date()]. *)
Definition isExpired (now expiresAt : Z) : bool := expiresAt <? now.

(** [getRemainingTime(expiresAt)], with [now] the value of [new Date()]. *)
Definition getRemainingTime (now expiresAt : Z) : Remaining :=
  let diff := expiresAt - now in
  if diff <=? 0 then
    {| minutes := 0; seconds := 0; formatted := "Expired" |}
  else
    let minutes := diff / 60000 in
    let seconds := (diff mod 60000) / 1000 in
    {| minutes := minutes;
       seconds := seconds;
       formatted := Js.string_of_Z minutes ++ "m " ++ Js.string_of_Z seconds ++ "s" |}.

(** The remaining time in whole seconds. *)
Definition remainingSeconds (r : Remaining) : Z := 60 * minutes r + seconds r.

(** The time zone of the host, as [Date] consults it: the offset of local
    time from UTC in milliseconds at an instant, and the offset by which a
    local time is read back (for a local time that occurs twice or never, the
    offset before the change). *)
Record TimeZone := {
  offsetAt : Z -> Z;
  offsetOfLocal : Z -> Z
}.

Definition UTC : TimeZone :=
  {| offsetAt := fun _ => 0; offsetOfLocal := fun _ => 0 |}.

(** [getExpirationTime(minutes)], with [now] the value of [new Date()].
    [setMinutes(getMinutes() + minutes)] rebuilds the date from the fields of
    the local time of [now] with the minutes added, which is that local time
    plus [minutes] minutes, and reads it back as a local time. *)
Definition getExpirationTime (tz : TimeZone) (now minutes : Z) : Z :=
  let expiration := now + offsetAt tz now + minutes * 60000 in
  expiration - offsetOfLocal tz expiration.

(** [Math.floor(new Date(startedAt).getTime() / 1000)] *)
Definition startTimestamp (startedAt : Z) : Z := startedAt / 1000.

(** [isSubmissionAfterStart(submissionTime, startedAt)]: the submission
    time is in seconds, the start a date. *)
Definition isSubmissionAfterStart (submissionTime startedAt : Z) : bool :=
  startTimestamp startedAt <=? submissionTime.

End Time.

(** ** src/services/codeforces.service.js *)

Module Codeforces.

(** One element of the array built by [getRecentSubmissions]. *)
Record Submission := {
  id : Z;
  contestId : option Z;          (* absent for problems outside a contest *)
  problemIndex : string;
  problemName : string;
  verdict : option string;       (* absent while the submission is judged *)
  creationTimeSeconds : Z;
  programmingLanguage : string
}.

Record VerificationResult := {
  verified : bool;
  submission : option Submission;
  message : string
}.

Definition COMPILATION_ERROR : string := "COMPILATION_ERROR".

Definition isProblemMatch (cid : Z) (idx : string) (sub : Submission) : bool :=
  Js.strict_eq_num (contestId sub) cid
  && String.eqb (Js.toUpperCase (problemIndex sub)) (Js.toUpperCase idx).

Definition isCompilationError (sub : Submission) : bool :=
  match verdict sub with
  | Some v => String.eqb v COMPILATION_ERROR
  | None => false
  end.

Definition isAfterStart (startedAt : Z) (sub : Submission) : bool :=
  Time.isSubmissionAfterStart (creationTimeSeconds sub) startedAt.

(** The predicate of the first [submissions.find]. *)
Definition qualifies (cid : Z) (idx : string) (startedAt : Z) (sub : Submission) : bool :=
  isProblemMatch cid idx sub && isCompilationError sub && isAfterStart startedAt sub.

(** The predicate of the second [submissions.find]. *)
Definition onProblemAfterStart (cid : Z) (idx : string) (startedAt : Z)
           (sub : Submission) : bool :=
  isProblemMatch cid idx sub && isAfterStart startedAt sub.

Definition foundMessage : string := "Compilation Error submission found!".

Definition mismatchMessage (sub : Submission) : string :=
  "Found submission but verdict was " ++ Js.dq ++ Js.render (verdict sub) ++ Js.dq
    ++ " instead of " ++ Js.dq ++ COMPILATION_ERROR ++ Js.dq.

Definition notFoundMessage : string := "No submission found to the specified problem".

Section Matcher.

(** The outcome of [getRecentSubmissions(username, count)]: the mapped
    array of the [/user.status] answer, or the error it rethrows. *)
Variable getRecentSubmissions : string -> Z -> Exc (list Submission).

Definition checkCompilationErrorSubmission
           (username : string) (cid : Z) (idx : string) (startedAt : Z)
  : Exc VerificationResult :=
  ebind (getRecentSubmissions username 20) (fun submissions =>
    match find (qualifies cid idx startedAt) submissions with
    | Some matchingSubmission =>
        Ok {| verified := true;
              submission := Some matchingSubmission;
              message := foundMessage |}
    | None =>
        match find (onProblemAfterStart cid idx startedAt) submissions with
        | Some anyProblemSubmission =>
            Ok {| verified := false;
                  submission := Some anyProblemSubmission;
                  message := mismatchMessage anyProblemSubmission |}
        | None =>
            Ok {| verified := false;
                  submission := None;
                  message := notFoundMessage |}
        end
    end).

End Matcher.

End Codeforces.


(** ** src/services/codechef.service.js *)

Module CodeChef.

(** One element of the array returned by [getRecentSubmissions]: every
    field may be missing in the scraped data.  [date] is the instant the
    [date] (or [time]) field denotes, in milliseconds. *)
Record Submission := {
  id : option Z;
  problemCode : option string;
  result : option string;
  date : option Z;
  language : option string
}.

Record VerificationResult := {
  verified : bool;
  submission : option Submission;
  message : string
}.

(** [response.data] as axios delivers it with its default settings: the
    body text, or, when the body is not empty and is valid JSON, the value it
    parses to.  [Text] is a string (the body itself, or the string a JSON
    string denotes); of an array the elements that are strings matter, of
    any other value whether it is truthy. *)
Inductive Body :=
| Text (s : string)
| JsonArray (elements : list (option string))
| JsonOther (truthy : bool).

Record Response := {
  status : Z;
  data : Body
}.

(** Truthiness of [response.data]. *)
Definition truthy_body (b : Body) : bool :=
  match b with
  | Text s => Js.truthy_string s
  | JsonArray _ => true
  | JsonOther truthy => truthy
  end.

(** [response.data.includes(needle)]: a method of strings and of arrays.
    An object, a number and [true] have none, and the call throws a
    [TypeError]; the guard on truthiness keeps [null], [false] and 0 away. *)
Definition body_includes (b : Body) (needle : string) : Exc bool :=
  match b with
  | Text s => Ok (Js.includes s needle)
  | JsonArray elements =>
      Ok (existsb (fun element => match element with
                                  | Some s => String.eqb s needle
                                  | None => false
                                  end) elements)
  | JsonOther _ => Throw "response.data.includes is not a function"
  end.

(** [axios.get(url, { validateStatus })]: the promise rejects when the
    transport fails and when [validateStatus] refuses the status. *)
Definition axios_get (validateStatus : Z -> bool) (r : Exc Response) : Exc Response :=
  ebind r (fun response =>
    if validateStatus (status response) then Ok response
    else Throw ("Request failed with status code " ++ Js.string_of_Z (status response))).

(** [a && (b || c || d)] on the four calls of [includes], in the order the
    code evaluates them. *)
Definition hasCompilationError (username : string) (response : Response) : Exc bool :=
  ebind (body_includes (data response) username) (fun named =>
    if negb named then Ok false
    else
      ebind (body_includes (data response) "compilation error") (fun lower =>
        if lower then Ok true
        else
          ebind (body_includes (data response) "Compilation Error") (fun title =>
            if title then Ok true
            else body_includes (data response) ">CE<"))).

Definition isProblemMatch (code : string) (sub : Submission) : bool :=
  match problemCode sub with
  | Some c => Js.truthy_string c && String.eqb (Js.toUpperCase c) (Js.toUpperCase code)
  | None => false
  end.

Definition isCompilationError (sub : Submission) : bool :=
  match result sub with
  | Some r =>
      Js.truthy_string r
      && (Js.includes (Js.toLowerCase r) "compilation error"
          || String.eqb (Js.toLowerCase r) "ce"
          || String.eqb r "compilation error")
  | None => false
  end.

Definition foundMessage : string := "Compilation Error submission found!".

Definition mismatchMessage (sub : Submission) : string :=
  "Found submission but verdict was " ++ Js.dq ++ Js.render (result sub) ++ Js.dq
    ++ " instead of " ++ Js.dq ++ "Compilation Error" ++ Js.dq.

Definition notFoundMessage : string :=
  "No submission found to the specified problem. Please make sure you submitted to the correct problem.".

Section Matcher.

(** The answer to the request for the status page of a problem filtered on
    a handle ([status=13]). *)
Variable getStatusPage : string -> string -> Exc Response.

(** The array [getRecentSubmissions(username, count)] resolves to; its own
    [catch] turns every failure into the empty array. *)
Variable getRecentSubmissions : string -> Z -> list Submission.

(** [checkCompilationErrorSubmission(username, problemCode, startedAt)].
    The body never reads [startedAt]. *)
Definition checkCompilationErrorSubmission
           (username code : string) (startedAt : Z) : Exc VerificationResult :=
  try_catch
    (ebind (axios_get (fun st => st <? 500) (getStatusPage code username)) (fun response =>
     ebind (if (status response =? 200) && truthy_body (data response)
            then hasCompilationError username response
            else Ok false) (fun found =>
       if found
       then
         Ok {| verified := true;
               submission := Some {| id := None; problemCode := Some code;
                                     result := Some "compilation error";
                                     date := None; language := None |};
               message := foundMessage |}
       else
         let submissions := getRecentSubmissions username 30 in
         match find (fun sub => isProblemMatch code sub && isCompilationError sub)
                    submissions with
         | Some matchingSubmission =>
             Ok {| verified := true;
                   submission := Some matchingSubmission;
                   message := foundMessage |}
         | None =>
             match find (isProblemMatch code) submissions with
             | Some anySubmission =>
                 Ok {| verified := false;
                       submission := Some anySubmission;
                       message := mismatchMessage anySubmission |}
             | None =>
                 Ok {| verified := false;
                       submission := None;
                       message := notFoundMessage |}
             end
         end)))
    (fun e => Throw ("Failed to check CodeChef submissions: " ++ e)).

End Matcher.

End CodeChef.

(** ** The minimum-spacing gate of both services: [respectRateLimit] *)

Module RateLimit.

(** What the event loop holds for one service module: the module variable
    [lastRequestTime], the calls suspended in their [setTimeout] (each with
    the instant before which its timer cannot fire), and the instants at which
    calls went through the gate, newest first. *)
Record Loop := {
  lastRequestTime : Z;
  sleeping : list Z;
  released : list Z
}.

Definition initial : Loop :=
  {| lastRequestTime := 0; sleeping := []; released := [] |}.

(** The two things that happen to the gate.  [CallStart now now'] is a call
    of [respectRateLimit] that reads [Date.now()] as [now] and, when it does
    not have to wait, reads it again as [now'] for [lastRequestTime].
    [TimerFires t] resumes the suspended call whose timer is due first, if
    it is due at [t]; the resumed call reads [Date.now()] as [t]. *)
Inductive Event :=
| CallStart (now now' : Z)
| TimerFires (t : Z).

(** The earliest instant in a list of timer deadlines. *)
Fixpoint earliest (l : list Z) : option Z :=
  match l with
  | [] => None
  | due :: l' =>
      match earliest l' with
      | None => Some due
      | Some m => Some (if due <=? m then due else m)
      end
  end.

(** Removes the first occurrence of [due]. *)
Fixpoint remove_first (due : Z) (l : list Z) : list Z :=
  match l with
  | [] => []
  | x :: l' => if x =? due then l' else x :: remove_first due l'
  end.

Section Gate.

Variable REQUEST_DELAY : Z.

(** The synchronous part of [respectRateLimit], up to its [await]: the
    delay passed to [setTimeout], or no wait at all. *)
Definition waitNeeded (now last : Z) : option Z :=
  let timeSinceLastRequest := now - last in
  if timeSinceLastRequest <? REQUEST_DELAY
  then Some (REQUEST_DELAY - timeSinceLastRequest)
  else None.

(** A whole call of [respectRateLimit] with nothing else running.  [now] is
    the first reading of [Date.now()]; [setTimeout now delay] is the reading
    after the awaited timer of [delay] milliseconds armed at [now]; [now'] is
    the second reading when there is no wait.  The result is the value
    stored in [lastRequestTime], the instant the request is let through. *)
Definition respectRateLimit (setTimeout : Z -> Z -> Z) (now now' last : Z) : Z :=
  match waitNeeded now last with
  | Some delay => setTimeout now delay
  | None => now'
  end.

Definition step (l : Loop) (e : Event) : Loop :=
  match e with
  | CallStart now now' =>
      match waitNeeded now (lastRequestTime l) with
      | Some delay =>
          {| lastRequestTime := lastRequestTime l;
             sleeping := sleeping l ++ [now + delay];
             released := released l |}
      | None =>
          {| lastRequestTime := now';
             sleeping := sleeping l;
             released := now' :: released l |}
      end
  | TimerFires t =>
      match earliest (sleeping l) with
      | Some due =>
          if due <=? t then
            {| lastRequestTime := t;
               sleeping := remove_first due (sleeping l);
               released := t :: released l |}
          else l
      | None => l
      end
  end.

Definition run (l : Loop) (es : list Event) : Loop := fold_left step es l.

(** The events of one call that runs with nothing else in between. *)
Definition callEvents (setTimeout : Z -> Z -> Z) (now now' last : Z) : list Event :=
  match waitNeeded now last with
  | Some delay => [CallStart now now'; TimerFires (setTimeout now delay)]
  | None => [CallStart now now']
  end.

(** Every request was let through at least [REQUEST_DELAY] after the one
    before it ([released] lists the newest first). *)
Fixpoint spaced (released : list Z) : bool :=
  match released with
  | [] => true
  | t :: earlier =>
      match earlier with
      | [] => true
      | t0 :: _ => (REQUEST_DELAY <=? t - t0) && spaced earlier
      end
  end.

End Gate.

(** [const REQUEST_DELAY] of codeforces.service.js and codechef.service.js *)
Definition CODEFORCES_REQUEST_DELAY : Z := 250.
Definition CODECHEF_REQUEST_DELAY : Z := 500.

End RateLimit.

(** ** src/utils/randomProblem.js *)

Module RandomProblem.

Definition CF_MIN_RATING : Z := 800.
Definition CF_MAX_RATING : Z := 1500.
Definition CF_CACHE_DURATION : Z := 3600000.

(** An element of [result.problems] in the [/problemset.problems] answer. *)
Record Problem := {
  contestId : Z;
  index : string;
  name : string;
  rating : option Z
}.

(** [response.data] of the problem-set request. *)
Record ApiResponse := {
  status : string;
  problems : list Problem
}.

(** The module variables, and the number of requests sent so far. *)
Record State := {
  cfProblemsCache : option (list Problem);
  cfCacheTimestamp : option Z;
  requests : nat
}.

Definition initial : State :=
  {| cfProblemsCache := None; cfCacheTimestamp := None; requests := 0 |}.

(** The callback of [problems.filter]. *)
Definition inBand (problem : Problem) : bool :=
  match rating problem with
  | Some r => Js.truthy_num r && (CF_MIN_RATING <=? r) && (r <=? CF_MAX_RATING)
  | None => false
  end.

(** The guard of the first [if]: both module variables truthy and the
    cache younger than [CF_CACHE_DURATION]. *)
Definition cacheFresh (now : Z) (st : State) : bool :=
  match cfProblemsCache st, cfCacheTimestamp st with
  | Some _, Some ts => Js.truthy_num ts && (now - ts <? CF_CACHE_DURATION)
  | _, _ => false
  end.

(** [fetchCodeforcesProblems()].  [now] is [Date.now()] at the guard,
    [response] what [axios.get] settles to if it is called, [now'] is
    [Date.now()] when the cache is written. *)
Definition fetchCodeforcesProblems (now : Z) (response : Exc ApiResponse) (now' : Z)
           (st : State) : Exc (list Problem) * State :=
  if cacheFresh now st then
    (match cfProblemsCache st with Some c => Ok c | None => Ok [] end, st)
  else
    let sent := {| cfProblemsCache := cfProblemsCache st;
                   cfCacheTimestamp := cfCacheTimestamp st;
                   requests := S (requests st) |} in
    let attempt :=
      ebind response (fun data =>
        if negb (String.eqb (status data) "OK")
        then Throw "Codeforces API returned non-OK status"
        else Ok (filter inBand (problems data))) in
    match attempt with
    | Ok fetched =>
        (Ok fetched,
         {| cfProblemsCache := Some fetched;
            cfCacheTimestamp := Some now';
            requests := requests sent |})
    | Throw e =>
        match cfProblemsCache st with
        | Some stale => (Ok stale, sent)
        | None => (Throw e, sent)
        end
    end.

(** The object [getRandomCodeforcesProblem] resolves to. *)
Record Picked := {
  p_id : string;
  p_contestId : Z;
  p_index : string;
  p_name : string;
  p_rating : option Z;
  p_url : string
}.

(** [`${problem.contestId}${problem.index}`] *)
Definition problemId (problem : Problem) : string :=
  Js.string_of_Z (contestId problem) ++ index problem.

Definition describe (problem : Problem) : Picked :=
  {| p_id := problemId problem;
     p_contestId := contestId problem;
     p_index := index problem;
     p_name := name problem;
     p_rating := rating problem;
     p_url := "https://codeforces.com/problemset/problem/"
                ++ Js.string_of_Z (contestId problem) ++ "/" ++ index problem |}.

(** [Math.floor(Math.random() * problems.length)], [random] being the
    double [Math.random()] returned; [None] when the result is not a number. *)
Definition randomIndex (random : spec_float) (length : nat) : option Z :=
  Double.floor (Double.mul random (Double.ofNat length)).

(** [problems[randomIndex]], [None] standing for [undefined]. *)
Definition element {A} (problems : list A) (randomIndex : option Z) : option A :=
  match randomIndex with
  | Some i => if 0 <=? i then nth_error problems (Z.to_nat i) else None
  | None => None
  end.

(** [getRandomCodeforcesProblem()] *)
Definition getRandomCodeforcesProblem (now : Z) (response : Exc ApiResponse) (now' : Z)
           (random : spec_float) (st : State) : Exc Picked * State :=
  match fetchCodeforcesProblems now response now' st with
  | (Throw e, st') => (Throw e, st')
  | (Ok problems, st') =>
      match problems with
      | [] => (Throw "No Codeforces problems available", st')
      | _ =>
          match element problems (randomIndex random (List.length problems)) with
          | Some problem => (Ok (describe problem), st')
          | None =>
              (Throw "Cannot read properties of undefined (reading 'contestId')", st')
          end
      end
  end.

End RandomProblem.


(** ** src/commands/verify.js and src/commands/link.js *)

Module Verify.

(** A row of [pending_verifications]. *)
Record PendingVerification := {
  id : Z;
  discord_user_id : string;
  guild_id : string;
  platform : string;
  username : string;
  problem_id : string;
  problem_url : string;
  problem_name : string;
  started_at : Z;
  expires_at : Z
}.

(** A row of [linked_accounts]. *)
Record LinkedAccount := {
  la_discord_user_id : string;
  la_guild_id : string;
  la_platform : string;
  la_username : string;
  la_rank : option string
}.

(** The object [assignVerificationRoles] resolves to. *)
Record RoleResults := {
  verifiedRole : bool;
  rankRole : bool
}.

(** Modelled from the spec: [assignVerificationRoles] of utils/roleManager.js,
    which is not among the sources: "assignRoles(memberRef, guildId, platform,
    rank) -> {verifiedRoleAssigned, rankRoleAssigned}", whose "failure is
    logged, not propagated".  The callback settles to the two flags, a role
    that could not be assigned being a false flag; [granted] says which of the
    two roles the chat platform lets the bot assign. *)
Definition assignRoles (granted : string -> string -> option string -> bool * bool)
           (g p : string) (r : option string) : Exc RoleResults :=
  Ok {| verifiedRole := fst (granted g p r); rankRole := snd (granted g p r) |}.

(** The two tables the commands read and write. *)
Record Store := {
  pending_verifications : list PendingVerification;
  linked_accounts : list LinkedAccount;
  next_id : Z
}.

(** The argument of [createPendingVerification] in link.js. *)
Record NewPending := {
  n_discord_user_id : string;
  n_guild_id : string;
  n_platform : string;
  n_username : string;
  n_problem_id : string;
  n_problem_url : string;
  n_problem_name : string;
  n_expires_at : Z
}.

Definition sessionKey (v : PendingVerification) : string * string * string :=
  (discord_user_id v, guild_id v, platform v).

Definition hasKey (u g p : string) (v : PendingVerification) : bool :=
  String.eqb (discord_user_id v) u && String.eqb (guild_id v) g && String.eqb (platform v) p.

(** Modelled from the spec: the rows of [getPendingVerifications(userId,
    guildId)] of services/supabase.client.js, which is not among the
    sources ("find all sessions for (userId, guildId)"). *)
Definition pendingOf (u g : string) (st : Store) : list PendingVerification :=
  filter (fun v => String.eqb (discord_user_id v) u && String.eqb (guild_id v) g)
         (pending_verifications st).

(** Modelled from the spec: the effect of [deletePendingVerification(id)]
    of services/supabase.client.js on the table. *)
Definition removePending (i : Z) (st : Store) : Store :=
  {| pending_verifications := filter (fun v => negb (id v =? i)) (pending_verifications st);
     linked_accounts := linked_accounts st;
     next_id := next_id st |}.

(** Modelled from the spec: the effect of [createLinkedAccount(row)] of
    services/supabase.client.js, a write keyed by (userId, guildId,
    platform). *)
Definition putLinked (acc : LinkedAccount) (st : Store) : Store :=
  {| pending_verifications := pending_verifications st;
     linked_accounts :=
       acc :: filter (fun a => negb (String.eqb (la_discord_user_id a) (la_discord_user_id acc)
                                     && String.eqb (la_guild_id a) (la_guild_id acc)
                                     && String.eqb (la_platform a) (la_platform acc)))
                     (linked_accounts st);
     next_id := next_id st |}.

(** Modelled from the spec: the effect of [createPendingVerification(row)]
    of services/supabase.client.js: the session is persisted "superseding
    any prior session for the same key", the key being (userId, guildId,
    platform); the store numbers the row and stamps [started_at]. *)
Definition putPending (now : Z) (n : NewPending) (st : Store) : Store :=
  {| pending_verifications :=
       filter (fun v => negb (hasKey (n_discord_user_id n) (n_guild_id n) (n_platform n) v))
              (pending_verifications st)
       ++ [ {| id := next_id st;
               discord_user_id := n_discord_user_id n;
               guild_id := n_guild_id n;
               platform := n_platform n;
               username := n_username n;
               problem_id := n_problem_id n;
               problem_url := n_problem_url n;
               problem_name := n_problem_name n;
               started_at := now;
               expires_at := n_expires_at n |} ];
     linked_accounts := linked_accounts st;
     next_id := next_id st + 1 |}.

(** Modelled from the spec: [cleanupExpiredVerifications()] of
    services/supabase.client.js, the periodic sweep that deletes every session
    whose [expires_at] is in the past. *)
Definition sweepExpired (now : Z) (st : Store) : Store :=
  {| pending_verifications :=
       filter (fun v => negb (expires_at v <? now)) (pending_verifications st);
     linked_accounts := linked_accounts st;
     next_id := next_id st |}.

(** Modelled from the spec: [isAccountLinkedByOther(guildId, platform,
    username, userId)] of services/supabase.client.js: a link of that
    (platform, username) to a different user in the guild. *)
Definition linkedByOther (g p name u : string) (st : Store) : bool :=
  existsb (fun a => String.eqb (la_guild_id a) g && String.eqb (la_platform a) p
                    && String.eqb (la_username a) name
                    && negb (String.eqb (la_discord_user_id a) u))
          (linked_accounts st).

(** The calls a command makes to its collaborators, in the order made. *)
Inductive Event :=
| DbGetPending (u g : string)
| DbDeletePending (i : Z)
| DbCreateLinked (acc : LinkedAccount)
| DbCreatePending (n : NewPending)
| DbIsLinkedByOther (g p name u : string)
| JudgeCheck (p name : string)
| JudgeRank (name : string)
| JudgeValidate (p name : string)
| JudgeUserInfo (p name : string)
| PickProblem (p : string)
| AssignRoles (g p : string) (r : option string).

(** [userInfo] as link.js reads it. *)
Record UserInfo := {
  handle : string;
  ui_rank : string;
  ui_rating : Z
}.

(** Everything outside the commands: what the judges answer, whether a
    store call fails (and with which message), what the role callback settles
    to, how long each awaited call takes, the configured window, and the time
    zone of the host. *)
Record Env := {
  cf_getRecentSubmissions : string -> Z -> Exc (list Codeforces.Submission);
  cf_getUserRank : string -> Exc string;
  cf_validateUser : string -> Exc bool;
  cf_getUserInfo : string -> Exc UserInfo;
  cf_randomProblem : Exc RandomProblem.Picked;
  cc_getStatusPage : string -> string -> Exc CodeChef.Response;
  cc_getRecentSubmissions : string -> Z -> list CodeChef.Submission;
  db_failure : Event -> option string;
  assignVerificationRoles : string -> string -> option string -> Exc RoleResults;
  latency : Event -> N;
  VERIFICATION_TIMEOUT : Z;
  timeZone : Time.TimeZone
}.

Record World := {
  now : Z;
  store : Store;
  log : list Event
}.

(** A command step: it may throw, and it changes the world either way. *)
Definition M (A : Type) : Type := World -> Exc A * World.

Definition ret {A} (a : A) : M A := fun w => (Ok a, w).

Definition mbind {A B} (m : M A) (k : A -> M B) : M B :=
  fun w => match m w with
           | (Ok a, w') => k a w'
           | (Throw e, w') => (Throw e, w')
           end.

Definition tryCatch {A} (m : M A) (h : string -> M A) : M A :=
  fun w => match m w with
           | (Ok a, w') => (Ok a, w')
           | (Throw e, w') => h e w'
           end.

Notation "x <- m ;; k" := (mbind m (fun x => k))
  (at level 61, m at next level, right associativity).
Notation "' pat <- m ;; k" := (mbind m (fun x => match x with pat => k end))
  (at level 61, pat pattern, m at next level, right associativity).

(** [new Date()] *)
Definition newDate : M Z := fun w => (Ok (now w), w).

Definition lift {A} (r : Exc A) : M A := fun w => (r, w).

(** An awaited call: it is recorded, and time passes while it runs. *)
Definition await_ (env : Env) (ev : Event) : M unit :=
  fun w => (Ok tt, {| now := now w + Z.of_N (latency env ev);
                      store := store w;
                      log := log w ++ [ev] |}).

Definition call {A} (env : Env) (ev : Event) (r : Exc A) : M A :=
  _ <- await_ env ev ;; lift r.

(** A store call: recorded, then either it fails or the table changes. *)
Definition dbWrite (env : Env) (ev : Event) (f : Store -> Store) : M unit :=
  _ <- await_ env ev ;;
  fun w => match db_failure env ev with
           | Some e => (Throw e, w)
           | None => (Ok tt, {| now := now w; store := f (store w); log := log w |})
           end.

Definition dbRead {A} (env : Env) (ev : Event) (f : Store -> A) : M A :=
  _ <- await_ env ev ;;
  fun w => match db_failure env ev with
           | Some e => (Throw e, w)
           | None => (Ok (f (store w)), w)
           end.

Definition getPendingVerifications (env : Env) (u g : string) : M (list PendingVerification) :=
  dbRead env (DbGetPending u g) (pendingOf u g).

Definition deletePendingVerification (env : Env) (i : Z) : M unit :=
  dbWrite env (DbDeletePending i) (removePending i).

Definition createLinkedAccount (env : Env) (acc : LinkedAccount) : M unit :=
  dbWrite env (DbCreateLinked acc) (putLinked acc).

Definition createPendingVerification (env : Env) (n : NewPending) : M unit :=
  _ <- await_ env (DbCreatePending n) ;;
  fun w => match db_failure env (DbCreatePending n) with
           | Some e => (Throw e, w)
           | None => (Ok tt, {| now := now w; store := putPending (now w) n (store w);
                                log := log w |})
           end.

Definition isAccountLinkedByOther (env : Env) (g p name u : string) : M bool :=
  dbRead env (DbIsLinkedByOther g p name u) (linkedByOther g p name u).

(** *** parseCodeforcesProblemId *)

Fixpoint span_digits (s : string) : string * string :=
  match s with
  | EmptyString => (EmptyString, EmptyString)
  | String c s' =>
      if Js.is_digit c
      then let (ds, rest) := span_digits s' in (String c ds, rest)
      else (EmptyString, s)
  end.

Fixpoint all_digits (s : string) : bool :=
  match s with
  | EmptyString => true
  | String c s' => Js.is_digit c && all_digits s'
  end.

(** The two groups of [problemId.match(re)], where [re] reads: start of
    input, one or more digits (group 1), then one ASCII letter followed by
    any number of digits (group 2), end of input. *)
Definition matchProblemId (problemId : string) : option (string * string) :=
  match span_digits problemId with
  | (EmptyString, _) => None
  | (ds, String c tail) =>
      if Js.is_letter c && all_digits tail then Some (ds, String c tail) else None
  | (_, EmptyString) => None
  end.

(** [parseInt] of a string of decimal digits. *)
Definition parseInt (ds : string) : Z :=
  match NilEmpty.uint_of_string ds with
  | Some d => Z.of_N (N.of_uint d)
  | None => 0
  end.

Definition parseCodeforcesProblemId (problemId : string) : Exc (Z * string) :=
  match matchProblemId problemId with
  | None => Throw ("Invalid problem ID format: " ++ problemId)
  | Some (g1, g2) => Ok (parseInt g1, Js.toUpperCase g2)
  end.

(** *** execute *)

(** What [execute] reads of a service's verification result. *)
Record Verdict := {
  verified : bool;
  v_message : string
}.

Definition ofCodeforces (r : Codeforces.VerificationResult) : Verdict :=
  {| verified := Codeforces.verified r; v_message := Codeforces.message r |}.

Definition ofCodeChef (r : CodeChef.VerificationResult) : Verdict :=
  {| verified := CodeChef.verified r; v_message := CodeChef.message r |}.

(** An element of [results]. *)
Record Outcome := {
  o_platform : string;
  o_username : string;
  success : bool;
  message : string;
  rank : option string;
  rolesAssigned : option RoleResults;
  problemUrl : option string;
  problemName : option string;
  timeRemaining : option string
}.

Definition expiredMessage : string :=
  "Verification expired. Please start a new verification with `/link`.".

Definition failure (pending : PendingVerification) (msg : string) : Outcome :=
  {| o_platform := platform pending;
     o_username := username pending;
     success := false;
     message := msg;
     rank := None; rolesAssigned := None;
     problemUrl := None; problemName := None; timeRemaining := None |}.

(** The body of the inner [try]: [verificationResult] and [userRank]. *)
Definition checkSubmission (env : Env) (pending : PendingVerification)
  : M (option Verdict * option string) :=
  if String.eqb (platform pending) "codeforces" then
    '(contestId, index) <- lift (parseCodeforcesProblemId (problem_id pending)) ;;
    r <- call env (JudgeCheck "codeforces" (username pending))
              (Codeforces.checkCompilationErrorSubmission
                 (cf_getRecentSubmissions env)
                 (username pending) contestId index (started_at pending)) ;;
    if Codeforces.verified r then
      tryCatch
        (userRank <- call env (JudgeRank (username pending))
                          (cf_getUserRank env (username pending)) ;;
         ret (Some (ofCodeforces r), Some userRank))
        (fun _ => ret (Some (ofCodeforces r), None))
    else ret (Some (ofCodeforces r), None)
  else if String.eqb (platform pending) "codechef" then
    r <- call env (JudgeCheck "codechef" (username pending))
              (CodeChef.checkCompilationErrorSubmission
                 (cc_getStatusPage env) (cc_getRecentSubmissions env)
                 (username pending) (problem_id pending) (started_at pending)) ;;
    ret (Some (ofCodeChef r), None)
  else ret (None, None).

Definition isVerified (v : option Verdict) : bool :=
  match v with Some r => verified r | None => false end.

(** [verificationResult?.message || "No valid ..."] *)
Definition reason (v : option Verdict) : string :=
  match v with
  | Some r => if Js.truthy_string (v_message r) then v_message r
              else "No valid Compilation Error submission found."
  | None => "No valid Compilation Error submission found."
  end.

(** One turn of the [for] loop: the object it pushes on [results].  A
    throw here is one that leaves the loop. *)
Definition processPending (env : Env) (userId guildId : string)
           (pending : PendingVerification) : M Outcome :=
  today <- newDate ;;
  if Time.isExpired today (expires_at pending) then
    _ <- deletePendingVerification env (id pending) ;;
    ret (failure pending expiredMessage)
  else
    checked <- tryCatch (x <- checkSubmission env pending ;; ret (inl x))
                        (fun e => ret (inr e)) ;;
    match checked with
    | inr e => ret (failure pending ("Failed to check submissions: " ++ e))
    | inl (verificationResult, userRank) =>
        if isVerified verificationResult then
          tryCatch
            (_ <- createLinkedAccount env
                    {| la_discord_user_id := userId;
                       la_guild_id := guildId;
                       la_platform := platform pending;
                       la_username := username pending;
                       la_rank := userRank |} ;;
             _ <- deletePendingVerification env (id pending) ;;
             roleResults <- call env (AssignRoles guildId (platform pending) userRank)
                                 (assignVerificationRoles env guildId (platform pending)
                                                          userRank) ;;
             ret {| o_platform := platform pending;
                    o_username := username pending;
                    success := true;
                    message := "Account verified successfully!";
                    rank := userRank;
                    rolesAssigned := Some roleResults;
                    problemUrl := None; problemName := None; timeRemaining := None |})
            (fun e => ret (failure pending
                             ("Verification successful but failed to save: " ++ e)))
        else
          today' <- newDate ;;
          let remaining := Time.getRemainingTime today' (expires_at pending) in
          ret {| o_platform := platform pending;
                 o_username := username pending;
                 success := false;
                 message := reason verificationResult;
                 rank := None; rolesAssigned := None;
                 problemUrl := Some (problem_url pending);
                 problemName := Some (problem_name pending);
                 timeRemaining := Some (Time.formatted remaining) |}
    end.

Fixpoint forEach (f : PendingVerification -> M Outcome) (l : list PendingVerification)
  : M (list Outcome) :=
  match l with
  | [] => ret []
  | pending :: rest =>
      r <- f pending ;;
      rs <- forEach f rest ;;
      ret (r :: rs)
  end.

(** What the command answers with. *)
Inductive Reply :=
| NoPending
| Results (results : list Outcome)
| ErrorReply (msg : string).

(** [if (platformFilter) pendingVerifications = pendingVerifications.filter(...)] *)
Definition filterByPlatform (platformFilter : option string)
           (fetched : list PendingVerification) : list PendingVerification :=
  match platformFilter with
  | Some f => if Js.truthy_string f
              then filter (fun v => String.eqb (platform v) f) fetched
              else fetched
  | None => fetched
  end.

Definition execute (env : Env) (userId guildId : string) (platformFilter : option string)
  : M Reply :=
  tryCatch
    (fetched <- getPendingVerifications env userId guildId ;;
     let pendingVerifications := filterByPlatform platformFilter fetched in
     match pendingVerifications with
     | [] => ret NoPending
     | _ => results <- forEach (processPending env userId guildId) pendingVerifications ;;
            ret (Results results)
     end)
    (fun e => ret (ErrorReply e)).

(** *** handleLinkCodeforces *)

Inductive LinkReply :=
| UserNotFound
| LinkedElsewhere
| Challenge (problem : RandomProblem.Picked) (expiresAt : Z).

Definition handleLinkCodeforces (env : Env) (name userId guildId : string) : M LinkReply :=
  userExists <- call env (JudgeValidate "codeforces" name) (cf_validateUser env name) ;;
  if negb userExists then ret UserNotFound
  else
    isLinkedByOther <- isAccountLinkedByOther env guildId "codeforces" name userId ;;
    if isLinkedByOther then ret LinkedElsewhere
    else
      userInfo <- tryCatch (call env (JudgeUserInfo "codeforces" name) (cf_getUserInfo env name))
                           (fun _ => ret {| handle := name; ui_rank := "unknown";
                                            ui_rating := 0 |}) ;;
      problem <- call env (PickProblem "codeforces") (cf_randomProblem env) ;;
      today <- newDate ;;
      let expiresAt :=
        Time.getExpirationTime (timeZone env) today (VERIFICATION_TIMEOUT env) in
      _ <- createPendingVerification env
             {| n_discord_user_id := userId;
                n_guild_id := guildId;
                n_platform := "codeforces";
                n_username := handle userInfo;
                n_problem_id := RandomProblem.p_id problem;
                n_problem_url := RandomProblem.p_url problem;
                n_problem_name := RandomProblem.p_name problem;
                n_expires_at := expiresAt |} ;;
      ret (Challenge problem expiresAt).

(** At most one pending session per (userId, guildId, platform). *)
Definition oneSessionPerKey (st : Store) : Prop :=
  NoDup (map sessionKey (pending_verifications st)).

End Verify.


(** ** src/utils/time.js: Unix time *)

Module UnixTime.

(** [fromUnixTimestamp(unixTimestamp)]: the date of a time in seconds. *)
Definition fromUnixTimestamp (unixTimestamp : Z) : Z := unixTimestamp * 1000.

(** [getCurrentUnixTimestamp()], with [now] the value of [Date.now()]. *)
Definition getCurrentUnixTimestamp (now : Z) : Z := now / 1000.

End UnixTime.

(** ** src/services/codeforces.service.js: the requests *)

Module CodeforcesApi.

(** What [axios.get] rejects with, as [makeRequest] reads it: the message,
    the [code], and, when the server answered, [response.data?.comment]. *)
Record AxiosError := {
  message : string;
  code : option string;
  response : option (option string)
}.

(** [response.data] of an answer axios accepts. *)
Record Envelope (R : Type) := {
  status : string;
  result : option R;
  comment : option string
}.
Arguments status {R} _.
Arguments result {R} _.
Arguments comment {R} _.

(** [v || d] on a possibly undefined string. *)
Definition orElse (v : option string) (d : string) : string :=
  match v with
  | Some s => if Js.truthy_string s then s else d
  | None => d
  end.

(** [v || d] on a possibly undefined number. *)
Definition numOr (v : option Z) (d : Z) : Z :=
  match v with
  | Some n => if Js.truthy_num n then n else d
  | None => d
  end.

(** [makeRequest(endpoint, params)], on what [axios.get] settles to.  The
    error thrown inside the [try] for an answer that is not OK has neither
    [response] nor [code], so the [catch] rethrows it as it is. *)
Definition makeRequest {R} (answer : AxiosError + Envelope R) : Exc (option R) :=
  match answer with
  | inr data =>
      if negb (String.eqb (status data) "OK")
      then Throw (orElse (comment data) "Codeforces API error")
      else Ok (result data)
  | inl error =>
      match response error with
      | Some c => Throw ("Codeforces API error: " ++ orElse c (message error))
      | None =>
          match code error with
          | Some k => if String.eqb k "ECONNABORTED"
                      then Throw "Codeforces API request timed out"
                      else Throw (message error)
          | None => Throw (message error)
          end
      end
  end.

(** An element of the [/user.info] result. *)
Record RawUser := {
  handle : string;
  rank : option string;
  rating : option Z;
  maxRank : option string;
  maxRating : option Z;
  avatar : option string;
  titlePhoto : option string
}.

(** The object [getUserInfo] resolves to. *)
Record UserInfo := {
  ui_handle : string;
  ui_rank : string;
  ui_rating : Z;
  ui_maxRank : string;
  ui_maxRating : Z;
  ui_avatar : option string;
  ui_titlePhoto : option string
}.

(** An element of the [/user.status] result. *)
Record RawSubmission := {
  rs_id : Z;
  rs_contestId : option Z;
  rs_index : string;
  rs_name : string;
  rs_verdict : option string;
  rs_creationTimeSeconds : Z;
  rs_programmingLanguage : string
}.

(** The callback of [submissions.map] in [getRecentSubmissions]. *)
Definition toSubmission (sub : RawSubmission) : Codeforces.Submission :=
  {| Codeforces.id := rs_id sub;
     Codeforces.contestId := rs_contestId sub;
     Codeforces.problemIndex := rs_index sub;
     Codeforces.problemName := rs_name sub;
     Codeforces.verdict := rs_verdict sub;
     Codeforces.creationTimeSeconds := rs_creationTimeSeconds sub;
     Codeforces.programmingLanguage := rs_programmingLanguage sub |}.

Definition userNotFound (username : string) : string :=
  "User " ++ Js.dq ++ username ++ Js.dq ++ " not found".

Definition codeforcesUserNotFound (username : string) : string :=
  "Codeforces user " ++ Js.dq ++ username ++ Js.dq ++ " not found".

Section Requests.

(** What the request to [/user.info] for a handle settles to. *)
Variable userInfoRequest : string -> AxiosError + Envelope (list RawUser).

(** What the request to [/user.status] for a handle and a count settles to. *)
Variable userStatusRequest : string -> Z -> AxiosError + Envelope (list RawSubmission).

Definition validateUser (username : string) : Exc bool :=
  match makeRequest (userInfoRequest username) with
  | Ok _ => Ok true
  | Throw m => if Js.includes m "not found" then Ok false else Throw m
  end.

Definition getUserInfo (username : string) : Exc UserInfo :=
  try_catch
    (ebind (makeRequest (userInfoRequest username)) (fun users =>
       match users with
       | None => Throw (userNotFound username)
       | Some [] => Throw (userNotFound username)
       | Some (user :: _) =>
           Ok {| ui_handle := handle user;
                 ui_rank := orElse (rank user) "unrated";
                 ui_rating := numOr (rating user) 0;
                 ui_maxRank := orElse (maxRank user) "unrated";
                 ui_maxRating := numOr (maxRating user) 0;
                 ui_avatar := avatar user;
                 ui_titlePhoto := titlePhoto user |}
       end))
    (fun m => if Js.includes m "not found"
              then Throw (codeforcesUserNotFound username)
              else Throw m).

Definition getUserRank (username : string) : Exc string :=
  ebind (getUserInfo username) (fun userInfo => Ok (ui_rank userInfo)).

Definition getRecentSubmissions (username : string) (count : Z)
  : Exc (list Codeforces.Submission) :=
  ebind (makeRequest (userStatusRequest username count)) (fun submissions =>
    match submissions with
    | None => Throw "Cannot read properties of undefined (reading 'map')"
    | Some subs => Ok (map toSubmission subs)
    end).

End Requests.

(** [getProblemUrl(contestId, index)] *)
Definition getProblemUrl (contestId : Z) (index : string) : string :=
  "https://codeforces.com/problemset/problem/" ++ Js.string_of_Z contestId ++ "/" ++ index.

End CodeforcesApi.

(** ** src/services/codechef.service.js: the requests *)

Module CodeChefApi.

Definition validateFailed : string :=
  "Failed to validate CodeChef user. Please try again later.".

Definition userNotFound (username : string) : string :=
  "CodeChef user " ++ Js.dq ++ username ++ Js.dq ++ " not found".

(** [getStarsFromRating(rating)] *)
Definition getStarsFromRating (rating : Z) : Z :=
  if 2500 <=? rating then 7
  else if 2200 <=? rating then 6
  else if 2000 <=? rating then 5
  else if 1800 <=? rating then 4
  else if 1600 <=? rating then 3
  else if 1400 <=? rating then 2
  else 1.

(** [response.data] of the ratings endpoint: every field may be missing. *)
Record RatingData := {
  rating : option Z;
  currentRating : option Z;
  stars : option Z;
  highestRating : option Z
}.

Record RatingsResponse := {
  r_status : Z;
  r_data : RatingData
}.

(** The object [getUserInfo] resolves to. *)
Record UserInfo := {
  ui_username : string;
  ui_rating : Z;
  ui_stars : Z;
  ui_highestRating : Z
}.

(** An element of the array of the submissions endpoint. *)
Record RawSubmission := {
  raw_id : option Z;
  raw_problemCode : option string;
  raw_problem_code : option string;
  raw_result : option string;
  raw_verdict : option string;
  raw_date : option Z;
  raw_time : option Z;
  raw_language : option string
}.

(** [response.data] of the submissions endpoint: an array, or anything
    else. *)
Inductive ApiData :=
| DataArray (items : list RawSubmission)
| DataOther.

(** [a || b] on possibly undefined strings and numbers. *)
Definition strOr (a b : option string) : option string :=
  match a with
  | Some s => if Js.truthy_string s then Some s else b
  | None => b
  end.

Definition zOr (a b : option Z) : option Z :=
  match a with
  | Some n => if Js.truthy_num n then Some n else b
  | None => b
  end.

(** The callback of [response.data.map]. *)
Definition normalise (sub : RawSubmission) : CodeChef.Submission :=
  {| CodeChef.id := raw_id sub;
     CodeChef.problemCode := strOr (raw_problemCode sub) (raw_problem_code sub);
     CodeChef.result := strOr (raw_result sub) (raw_verdict sub);
     CodeChef.date := zOr (raw_date sub) (raw_time sub);
     CodeChef.language := raw_language sub |}.

Section Requests.

(** What the request for the profile page of a user settles to. *)
Variable profilePage : string -> Exc CodeChef.Response.

(** What the request to the ratings endpoint settles to. *)
Variable ratingsRequest : string -> Exc RatingsResponse.

(** What the request to the submissions endpoint settles to; axios rejects
    a status outside 2xx. *)
Variable submissionsRequest : string -> Z -> Exc ApiData.

(** [altResponse.data.content] of the recent-activity endpoint, when the
    request succeeds. *)
Variable recentRequest : string -> Exc (option string).

(** [parseSubmissionsFromHtml(html)], the scan of the page by a regular
    expression. *)
Variable parseSubmissionsFromHtml : string -> list CodeChef.Submission.

Definition validateUser (username : string) : Exc bool :=
  try_catch
    (ebind (CodeChef.axios_get (fun st => st <? 500) (profilePage username))
           (fun response => Ok (CodeChef.status response =? 200)))
    (fun _ => Throw validateFailed).

Definition getUserInfo (username : string) : Exc UserInfo :=
  try_catch
    (ebind (ebind (ratingsRequest username) (fun response =>
                     if r_status response <? 500 then Ok response
                     else Throw ("Request failed with status code "
                                   ++ Js.string_of_Z (r_status response))))
           (fun response =>
              if r_status response =? 404 then Throw (userNotFound username)
              else
                let data := r_data response in
                Ok {| ui_username := username;
                      ui_rating :=
                        CodeforcesApi.numOr (zOr (rating data) (currentRating data)) 0;
                      ui_stars :=
                        match zOr (stars data) None with
                        | Some s => s
                        | None => getStarsFromRating (CodeforcesApi.numOr (rating data) 0)
                        end;
                      ui_highestRating :=
                        CodeforcesApi.numOr (zOr (highestRating data) (rating data)) 0 |}))
    (fun m =>
       if Js.includes m "not found" then Throw m
       else
         ebind (validateUser username) (fun userExists =>
           if negb userExists then Throw (userNotFound username)
           else Ok {| ui_username := username; ui_rating := 0; ui_stars := 0;
                      ui_highestRating := 0 |})).

Definition getRecentSubmissions (username : string) (count : Z)
  : list CodeChef.Submission :=
  match submissionsRequest username count with
  | Throw _ => []
  | Ok (DataArray items) => map normalise items
  | Ok DataOther =>
      match recentRequest username with
      | Throw _ => []
      | Ok (Some content) =>
          if Js.truthy_string content then parseSubmissionsFromHtml content else []
      | Ok None => []
      end
  end.

End Requests.

(** [getProblemUrl(problemCode)] *)
Definition getProblemUrl (problemCode : string) : string :=
  "https://www.codechef.com" ++ "/problems/" ++ problemCode.

End CodeChefApi.

(** ** src/utils/randomProblem.js: the rest of the catalog *)

Module Catalog.

(** The curated list of [getRandomCodeChefProblem]: id and name. *)
Definition codechefProblems : list (string * string) :=
  [ ("TEST", "Life, the Universe, and Everything");
    ("INTEST", "Enormous Input Test");
    ("HS08TEST", "ATM");
    ("FLOW001", "Add Two Numbers");
    ("FLOW002", "Sum of Digits");
    ("FLOW003", "FLOW003");
    ("FLOW004", "First and Last Digit");
    ("FLOW005", "Smallest Number in the List");
    ("FLOW006", "Reversed Number");
    ("FLOW007", "Reverse The Number");
    ("FLOW008", "FLOW008");
    ("START01", "Start Practice");
    ("LADDU", "Chef and Laddus");
    ("CARVANS", "Carvans");
    ("LTIME", "Lucky Time");
    ("CHEFSTUD", "Chef and his Students");
    ("CNOTE", "Chef and Notebook");
    ("CHOPRT", "Chopsticks");
    ("DIFFSUM", "Difference Sum");
    ("REMISS", "Remove Mission") ].

(** The object [getRandomCodeChefProblem] resolves to. *)
Record Picked := {
  id : string;
  name : string;
  url : string
}.

(** [getRandomCodeChefProblem()], [random] being the double
    [Math.random()] returned. *)
Definition getRandomCodeChefProblem (random : spec_float) : Exc Picked :=
  let randomIndex := RandomProblem.randomIndex random (List.length codechefProblems) in
  match RandomProblem.element codechefProblems randomIndex with
  | Some (i, n) =>
      Ok {| id := i; name := n; url := "https://www.codechef.com/problems/" ++ i |}
  | None => Throw "Cannot read properties of undefined (reading 'id')"
  end.

(** [validateCodeforcesProblem(contestId, index)]: the [catch] answers
    [false]. *)
Definition validateCodeforcesProblem (now : Z) (response : Exc RandomProblem.ApiResponse)
           (now' : Z) (contestId : Z) (index : string) (st : RandomProblem.State)
  : bool * RandomProblem.State :=
  match RandomProblem.fetchCodeforcesProblems now response now' st with
  | (Ok problems, st') =>
      (existsb (fun p => (RandomProblem.contestId p =? contestId)
                         && String.eqb (RandomProblem.index p) index) problems, st')
  | (Throw _, st') => (false, st')
  end.

End Catalog.

(** ** src/commands/link.js: handleLinkCodechef *)

Module Link.

(** What the CodeChef link handler needs beyond [Verify.Env]: the answers
    of the CodeChef service and the draw of the catalog. *)
Record CodeChefEnv := {
  cc_validateUser : string -> Exc bool;
  cc_getUserInfo : string -> Exc CodeChefApi.UserInfo;
  cc_random : spec_float
}.

Inductive CodeChefReply :=
| CcUserNotFound
| CcLinkedElsewhere
| CcChallenge (problem : Catalog.Picked) (expiresAt : Z).

Import Verify.

(** [handleLinkCodechef], up to the reply.  The object the [catch] of step 3
    puts in [userInfo] has no [highestRating]; the field is 0 here, and only
    the embed reads [userInfo]. *)
Definition handleLinkCodechef (env : Env) (cc : CodeChefEnv) (name userId guildId : string)
  : M CodeChefReply :=
  userExists <- call env (JudgeValidate "codechef" name) (cc_validateUser cc name) ;;
  if negb userExists then ret CcUserNotFound
  else
    isLinkedByOther <- isAccountLinkedByOther env guildId "codechef" name userId ;;
    if isLinkedByOther then ret CcLinkedElsewhere
    else
      userInfo <- tryCatch (call env (JudgeUserInfo "codechef" name) (cc_getUserInfo cc name))
                           (fun _ => ret {| CodeChefApi.ui_username := name;
                                            CodeChefApi.ui_rating := 0;
                                            CodeChefApi.ui_stars := 0;
                                            CodeChefApi.ui_highestRating := 0 |}) ;;
      problem <- lift (Catalog.getRandomCodeChefProblem (cc_random cc)) ;;
      today <- newDate ;;
      let expiresAt :=
        Time.getExpirationTime (timeZone env) today (VERIFICATION_TIMEOUT env) in
      _ <- createPendingVerification env
             {| n_discord_user_id := userId;
                n_guild_id := guildId;
                n_platform := "codechef";
                n_username := name;
                n_problem_id := Catalog.id problem;
                n_problem_url := Catalog.url problem;
                n_problem_name := Catalog.name problem;
                n_expires_at := expiresAt |} ;;
      ret (CcChallenge problem expiresAt).

End Link.

(** ** src/commands/setup.js: the display of a rank *)

Module Setup.

(** [s.split(" ")] *)
Fixpoint split_space (s : string) : list string :=
  match s with
  | EmptyString => [EmptyString]
  | String c s' =>
      if Ascii.eqb c " "%char then EmptyString :: split_space s'
      else match split_space s' with
           | w :: ws => String c w :: ws
           | [] => [String c EmptyString]
           end
  end.

(** [words.join(" ")] *)
Fixpoint join_space (words : list string) : string :=
  match words with
  | [] => EmptyString
  | [w] => w
  | w :: ws => w ++ String " "%char (join_space ws)
  end.

(** [word.charAt(0).toUpperCase() + word.slice(1)] *)
Definition capitalize (word : string) : string :=
  match word with
  | EmptyString => EmptyString
  | String c rest => String (Js.upper_char c) rest
  end.

(** [displayRank]: each word of the rank with its first letter in upper case. *)
Definition displayRank (rank : string) : string :=
  join_space (map capitalize (split_space rank)).

End Setup.

(** ** src/deploy-commands.js: where the commands are deployed *)

Module Deploy.

(** [args.indexOf(x)], [None] standing for -1. *)
Fixpoint indexOf (x : string) (args : list string) : option nat :=
  match args with
  | [] => None
  | a :: rest =>
      if String.eqb a x then Some O
      else match indexOf x rest with
           | Some i => Some (S i)
           | None => None
           end
  end.

(** [guildId]: the argument after the first ["--guild"], [None] standing
    for [null] and for [undefined]. *)
Definition guildId (args : list string) : option string :=
  match indexOf "--guild" args with
  | Some guildIndex => nth_error args (guildIndex + 1)
  | None => None
  end.

Inductive Target :=
| Guild (g : string)
| Global.

(** The branch [if (guildId)] of [deployCommands]. *)
Definition target (args : list string) : Target :=
  match guildId args with
  | Some g => if Js.truthy_string g then Guild g else Global
  | None => Global
  end.

End Deploy.

(** * Vocabulary of the statements *)

(** The submission is on the problem of the session: same contest id,
    same index up to the case of its letters. *)
Definition refersTo (cid : Z) (idx : string) (s : Codeforces.Submission) : Prop :=
  Codeforces.contestId s = Some cid
  /\ Js.toUpperCase (Codeforces.problemIndex s) = Js.toUpperCase idx.

(** The submission second is not before the second [startedAt] falls in:
    [startedAt] in milliseconds, divided by 1000 and rounded down, is at most
    the second of the submission. *)
Definition atOrAfterStart (startedAt : Z) (s : Codeforces.Submission) : Prop :=
  startedAt / 1000 <= Codeforces.creationTimeSeconds s.

(** The instant of the submission, its second taken in milliseconds, is at
    or after [startedAt]. *)
Definition atOrAfterInstant (startedAt : Z) (s : Codeforces.Submission) : Prop :=
  startedAt <= Codeforces.creationTimeSeconds s * 1000.

(** A session on problem 1000A started at [scenarioStart], and what the
    judge lists for its user. *)
Definition scenarioStart : Z := 1700000000000.

Definition scenarioSubmission (index : string) (v : string) (at_ : Z) : Codeforces.Submission :=
  {| Codeforces.id := 1;
     Codeforces.contestId := Some 1000;
     Codeforces.problemIndex := index;
     Codeforces.problemName := "Theatre Square";
     Codeforces.verdict := Some v;
     Codeforces.creationTimeSeconds := at_;
     Codeforces.programmingLanguage := "GNU C++17" |}.

Definition scenarioFetch (subs : list Codeforces.Submission)
  : string -> Z -> Exc (list Codeforces.Submission) :=
  fun _ _ => Ok subs.

(** A compilation error on problem TEST sent long before the session. *)
Definition oldSubmission : CodeChef.Submission :=
  {| CodeChef.id := Some 7;
     CodeChef.problemCode := Some "TEST";
     CodeChef.result := Some "compilation error";
     CodeChef.date := Some 1600000000000;
     CodeChef.language := Some "C++" |}.

Definition emptyStatusPage : string -> string -> Exc CodeChef.Response :=
  fun _ _ => Ok {| CodeChef.status := 200; CodeChef.data := CodeChef.Text EmptyString |}.

(** The world after an awaited call, and after a write to the store. *)
Definition after (env : Verify.Env) (ev : Verify.Event) (w : Verify.World) : Verify.World :=
  {| Verify.now := Verify.now w + Z.of_N (Verify.latency env ev);
     Verify.store := Verify.store w;
     Verify.log := Verify.log w ++ [ev] |}.

Definition withStore (f : Verify.Store -> Verify.Store) (w : Verify.World) : Verify.World :=
  {| Verify.now := Verify.now w;
     Verify.store := f (Verify.store w);
     Verify.log := Verify.log w |}.

(** The linked account the success branch writes. *)
Definition linkOf (userId guildId : string) (pending : Verify.PendingVerification)
           (userRank : option string) : Verify.LinkedAccount :=
  {| Verify.la_discord_user_id := userId;
     Verify.la_guild_id := guildId;
     Verify.la_platform := Verify.platform pending;
     Verify.la_username := Verify.username pending;
     Verify.la_rank := userRank |}.

(** The object pushed when the check finds no qualifying submission. *)
Definition notComplete (pending : Verify.PendingVerification)
           (v : option Verify.Verdict) (today : Z) : Verify.Outcome :=
  {| Verify.o_platform := Verify.platform pending;
     Verify.o_username := Verify.username pending;
     Verify.success := false;
     Verify.message := Verify.reason v;
     Verify.rank := None; Verify.rolesAssigned := None;
     Verify.problemUrl := Some (Verify.problem_url pending);
     Verify.problemName := Some (Verify.problem_name pending);
     Verify.timeRemaining :=
       Some (Time.formatted (Time.getRemainingTime today (Verify.expires_at pending))) |}.



(** The row [putPending] appends. *)
Definition newRow (today : Z) (n : Verify.NewPending) (st : Verify.Store)
  : Verify.PendingVerification :=
  {| Verify.id := Verify.next_id st;
     Verify.discord_user_id := Verify.n_discord_user_id n;
     Verify.guild_id := Verify.n_guild_id n;
     Verify.platform := Verify.n_platform n;
     Verify.username := Verify.n_username n;
     Verify.problem_id := Verify.n_problem_id n;
     Verify.problem_url := Verify.n_problem_url n;
     Verify.problem_name := Verify.n_problem_name n;
     Verify.started_at := today;
     Verify.expires_at := Verify.n_expires_at n |}.

(** [text] shows the time left from [today] until [expiresAt], [left]
    being that time in whole seconds: "Expired" and 0 when none is left, else
    the minutes and seconds of the time left, rounded down to the second. *)
Definition showsTimeLeft (today expiresAt : Z) (text : string) (left : Z) : Prop :=
  (expiresAt <= today /\ text = "Expired" /\ left = 0)
  \/ (today < expiresAt
      /\ left * 1000 <= expiresAt - today < left * 1000 + 1000
      /\ exists m s, 0 <= m /\ 0 <= s <= 59 /\ left = 60 * m + s
                     /\ text = Js.string_of_Z m ++ "m " ++ Js.string_of_Z s ++ "s").

(** Central European time around the end of daylight saving time in 2023:
    at 01:00 UTC on 29 October the offset goes from two hours to one hour,
    and the local times from 02:00 to 03:00 occur twice. *)
Definition europeAutumn2023 : Time.TimeZone :=
  {| Time.offsetAt := fun t => if t <? 1698541200000 then 7200000 else 3600000;
     Time.offsetOfLocal :=
       fun local => if local <? 1698548400000 then 7200000 else 3600000 |}.

(** What [Math.floor] makes of a double that is not negative and whose
    exponent is not positive: the mantissa divided by the power of two, rounded
    down. *)
Definition floorIs (x : spec_float) (i : Z) : Prop :=
  (x = S754_zero false /\ i = 0)
  \/ exists m e, x = S754_finite false m e /\ e <= 0 /\ i = Zpos m / 2 ^ (- e).

(** The rating of the problem is known and lies between [low] and [high]. *)
Definition withinBand (low high : Z) (problem : RandomProblem.Problem) : bool :=
  match RandomProblem.rating problem with
  | Some r => (low <=? r) && (r <=? high)
  | None => false
  end.

(** [picked] is the object built from [problem]. *)
Definition builtFrom (problem : RandomProblem.Problem) (picked : RandomProblem.Picked)
  : Prop :=
  RandomProblem.p_contestId picked = RandomProblem.contestId problem
  /\ RandomProblem.p_index picked = RandomProblem.index problem
  /\ RandomProblem.p_name picked = RandomProblem.name problem
  /\ RandomProblem.p_rating picked = RandomProblem.rating problem
  /\ RandomProblem.p_id picked
     = Js.string_of_Z (RandomProblem.contestId problem) ++ RandomProblem.index problem
  /\ RandomProblem.p_url picked
     = "https://codeforces.com/problemset/problem/"
         ++ Js.string_of_Z (RandomProblem.contestId problem) ++ "/"
         ++ RandomProblem.index problem.

(** The problem has a rating, and it is within 800..1500. *)
Definition ratedInBand (problem : RandomProblem.Problem) : Prop :=
  exists r, RandomProblem.rating problem = Some r /\ 800 <= r <= 1500.

(** Every cached problem is inside the band. *)
Definition cacheInBand (st : RandomProblem.State) : Prop :=
  forall c, RandomProblem.cfProblemsCache st = Some c -> Forall ratedInBand c.

(** Three calls to the Codeforces gate: the first goes through at once,
    the next two arrive while nothing has been recorded since, and both are
    resumed by their timers at the same instant. *)
Definition overlappingCalls : list RateLimit.Event :=
  [ RateLimit.CallStart 1000 1000;
    RateLimit.CallStart 1100 1100;
    RateLimit.CallStart 1200 1200;
    RateLimit.TimerFires 1250;
    RateLimit.TimerFires 1250 ].

Definition demoPending : Verify.PendingVerification :=
  {| Verify.id := 1;
     Verify.discord_user_id := "42";
     Verify.guild_id := "7";
     Verify.platform := "codeforces";
     Verify.username := "tourist";
     Verify.problem_id := "1000A";
     Verify.problem_url := "https://codeforces.com/problemset/problem/1000/A";
     Verify.problem_name := "Codehorses T-shirts";
     Verify.started_at := scenarioStart;
     Verify.expires_at := scenarioStart + 600000 |}.

Definition demoProblem : RandomProblem.Problem :=
  {| RandomProblem.contestId := 1000;
     RandomProblem.index := "A";
     RandomProblem.name := "Codehorses T-shirts";
     RandomProblem.rating := Some 1200 |}.

(** An environment in which the judge lists [subs], the store fails on the
    calls [failing] names, and no role can be assigned. *)
Definition demoEnv (subs : list Codeforces.Submission)
           (failing : Verify.Event -> option string) : Verify.Env :=
  {| Verify.cf_getRecentSubmissions := scenarioFetch subs;
     Verify.cf_getUserRank := fun _ => Ok "expert";
     Verify.cf_validateUser := fun _ => Ok true;
     Verify.cf_getUserInfo :=
       fun name => Ok {| Verify.handle := name; Verify.ui_rank := "expert";
                         Verify.ui_rating := 1700 |};
     Verify.cf_randomProblem := Ok (RandomProblem.describe demoProblem);
     Verify.cc_getStatusPage := emptyStatusPage;
     Verify.cc_getRecentSubmissions := fun _ _ => [];
     Verify.db_failure := failing;
     Verify.assignVerificationRoles := Verify.assignRoles (fun _ _ _ => (false, false));
     Verify.latency := fun _ => 20%N;
     Verify.VERIFICATION_TIMEOUT := 10;
     Verify.timeZone := Time.UTC |}.

Definition demoWorld (today : Z) : Verify.World :=
  {| Verify.now := today;
     Verify.store := {| Verify.pending_verifications := [demoPending];
                        Verify.linked_accounts := [];
                        Verify.next_id := 2 |};
     Verify.log := [] |}.

Definition noFailure : Verify.Event -> option string := fun _ => None.

Definition createLinkedFails : Verify.Event -> option string :=
  fun ev => match ev with
            | Verify.DbCreateLinked _ => Some "connection refused"
            | _ => None
            end.

(** The CodeChef submission is on the problem: it has a non-empty code equal
    to the problem code up to the case of its letters. *)
Definition onCode (code : string) (s : CodeChef.Submission) : Prop :=
  exists c, CodeChef.problemCode s = Some c /\ c <> EmptyString
            /\ Js.toUpperCase c = Js.toUpperCase code.

(** The result of the CodeChef submission reads as a compilation error: in
    lower case it contains "compilation error" or is "ce". *)
Definition compilationVerdict (s : CodeChef.Submission) : Prop :=
  exists r, CodeChef.result s = Some r
            /\ (Js.includes (Js.toLowerCase r) "compilation error" = true
                \/ Js.toLowerCase r = "ce").

(** What [includes] finds in the body of the status page: a piece of a
    text, an element of an array. *)
Definition mentions (body : CodeChef.Body) (needle : string) : Prop :=
  match body with
  | CodeChef.Text s => Js.includes s needle = true
  | CodeChef.JsonArray elements => In (Some needle) elements
  | CodeChef.JsonOther _ => False
  end.

(** The first path of the CodeChef matcher: the status page answers 200
    with a body, a text that is not empty or an array, that names the user
    and a compilation error. *)
Definition pageNamesError (username : string) (response : CodeChef.Response) : Prop :=
  CodeChef.status response = 200
  /\ CodeChef.data response <> CodeChef.Text EmptyString
  /\ mentions (CodeChef.data response) username
  /\ (mentions (CodeChef.data response) "compilation error"
      \/ mentions (CodeChef.data response) "Compilation Error"
      \/ mentions (CodeChef.data response) ">CE<").

(** The page answers 200 with a body that is valid JSON but neither a
    string nor an array, and truthy: an object, a number other than 0, [true]. *)
Definition pageWithoutIncludes (response : CodeChef.Response) : Prop :=
  CodeChef.status response = 200
  /\ CodeChef.data response = CodeChef.JsonOther true.

(** A run of calls of [fetchCodeforcesProblems], each with its clock
    readings and the answer its request would get: the results, in order. *)
Fixpoint fetchAll (calls : list (Z * Exc RandomProblem.ApiResponse * Z))
         (st : RandomProblem.State) : list (Exc (list RandomProblem.Problem)) :=
  match calls with
  | [] => []
  | (today, response, today') :: rest =>
      let (r, st') := RandomProblem.fetchCodeforcesProblems today response today' st in
      r :: fetchAll rest st'
  end.

(** A submission as the CodeChef submissions endpoint may list it, with the
    problem code and the verdict under their second names. *)
Definition aliasSubmission : CodeChefApi.RawSubmission :=
  {| CodeChefApi.raw_id := Some 9;
     CodeChefApi.raw_problemCode := None;
     CodeChefApi.raw_problem_code := Some "test";
     CodeChefApi.raw_result := None;
     CodeChefApi.raw_verdict := Some "CE";
     CodeChefApi.raw_date := None;
     CodeChefApi.raw_time := Some 1700000005000;
     CodeChefApi.raw_language := Some "C++" |}.

(** A store that refuses every call, and one that refuses deletions. *)
Definition storeDown : Verify.Event -> option string :=
  fun _ => Some "connection refused".

Definition deleteFails : Verify.Event -> option string :=
  fun ev => match ev with
            | Verify.DbDeletePending _ => Some "connection refused"
            | _ => None
            end.

(** The environment with the Codeforces requests timing out: the one for the
    rank, and the one for the submissions. *)
Definition timedOut : string := "Codeforces API request timed out".

Definition withoutRank (env : Verify.Env) : Verify.Env :=
  {| Verify.cf_getRecentSubmissions := Verify.cf_getRecentSubmissions env;
     Verify.cf_getUserRank := fun _ => Throw timedOut;
     Verify.cf_validateUser := Verify.cf_validateUser env;
     Verify.cf_getUserInfo := Verify.cf_getUserInfo env;
     Verify.cf_randomProblem := Verify.cf_randomProblem env;
     Verify.cc_getStatusPage := Verify.cc_getStatusPage env;
     Verify.cc_getRecentSubmissions := Verify.cc_getRecentSubmissions env;
     Verify.db_failure := Verify.db_failure env;
     Verify.assignVerificationRoles := Verify.assignVerificationRoles env;
     Verify.latency := Verify.latency env;
     Verify.VERIFICATION_TIMEOUT := Verify.VERIFICATION_TIMEOUT env;
     Verify.timeZone := Verify.timeZone env |}.


Definition withoutSubmissions (env : Verify.Env) : Verify.Env :=
  {| Verify.cf_getRecentSubmissions := fun _ _ => Throw timedOut;
     Verify.cf_getUserRank := Verify.cf_getUserRank env;
     Verify.cf_validateUser := Verify.cf_validateUser env;
     Verify.cf_getUserInfo := Verify.cf_getUserInfo env;
     Verify.cf_randomProblem := Verify.cf_randomProblem env;
     Verify.cc_getStatusPage := Verify.cc_getStatusPage env;
     Verify.cc_getRecentSubmissions := Verify.cc_getRecentSubmissions env;
     Verify.db_failure := Verify.db_failure env;
     Verify.assignVerificationRoles := Verify.assignVerificationRoles env;
     Verify.latency := Verify.latency env;
     Verify.VERIFICATION_TIMEOUT := Verify.VERIFICATION_TIMEOUT env;
     Verify.timeZone := Verify.timeZone env |}.

(** Sessions beside [demoPending]: one of another user, and one of the same
    user on a platform no judge is known for. *)
Definition neighbourPending : Verify.PendingVerification :=
  {| Verify.id := 2;
     Verify.discord_user_id := "43";
     Verify.guild_id := "7";
     Verify.platform := "codeforces";
     Verify.username := "petr";
     Verify.problem_id := "1000A";
     Verify.problem_url := "https://codeforces.com/problemset/problem/1000/A";
     Verify.problem_name := "Codehorses T-shirts";
     Verify.started_at := scenarioStart;
     Verify.expires_at := scenarioStart + 600000 |}.

Definition strayPending : Verify.PendingVerification :=
  {| Verify.id := 3;
     Verify.discord_user_id := "42";
     Verify.guild_id := "7";
     Verify.platform := "atcoder";
     Verify.username := "tourist";
     Verify.problem_id := "abc001_a";
     Verify.problem_url := "https://atcoder.jp/contests/abc001/tasks/abc001_a";
     Verify.problem_name := "A";
     Verify.started_at := scenarioStart;
     Verify.expires_at := scenarioStart + 600000 |}.

Definition sharedWorld (today : Z) : Verify.World :=
  {| Verify.now := today;
     Verify.store := {| Verify.pending_verifications := [demoPending; neighbourPending];
                        Verify.linked_accounts := [];
                        Verify.next_id := 3 |};
     Verify.log := [] |}.

(** The double 1/2. *)
Definition half : spec_float := S754_finite false 4503599627370496 (-53).

(** The CodeChef side of a link: the user exists, and the draw is 1/2. *)
Definition demoCodeChef : Link.CodeChefEnv :=
  {| Link.cc_validateUser := fun _ => Ok true;
     Link.cc_getUserInfo :=
       fun name => Ok {| CodeChefApi.ui_username := name;
                         CodeChefApi.ui_rating := 1500;
                         CodeChefApi.ui_stars := 2;
                         CodeChefApi.ui_highestRating := 1600 |};
     Link.cc_random := half |}.

(** The raw submission is on the problem, and was made at or after the
    second the session started in. *)
Definition rawOnProblem (cid : Z) (idx : string) (startedAt : Z)
           (raw : CodeforcesApi.RawSubmission) : Prop :=
  CodeforcesApi.rs_contestId raw = Some cid
  /\ Js.toUpperCase (CodeforcesApi.rs_index raw) = Js.toUpperCase idx
  /\ Time.startTimestamp startedAt <= CodeforcesApi.rs_creationTimeSeconds raw.

(** A word of a rank: no space inside. *)
Fixpoint no_space (w : string) : bool :=
  match w with
  | EmptyString => true
  | String c w' => negb (Ascii.eqb c " ") && no_space w'
  end.

(** * Properties *)

(** ** Strings *)

Lemma prefix_app (a b : string) : prefix a (a ++ b) = true.
Proof.
  induction a as [|c a IH]; simpl.
  - now destruct b.
  - destruct (ascii_dec c c) as [_|n]; [exact IH | congruence].
Qed.

Lemma includes_unfold (hay needle : string) :
  Js.includes hay needle
  = if prefix needle hay then true
    else match hay with
         | EmptyString => false
         | String _ hay' => Js.includes hay' needle
         end.
Proof. destruct hay; reflexivity. Qed.

Lemma includes_here (a b : string) : Js.includes (a ++ b) a = true.
Proof. rewrite includes_unfold. now rewrite prefix_app. Qed.

Lemma includes_skip (pre hay needle : string) :
  Js.includes hay needle = true -> Js.includes (pre ++ hay) needle = true.
Proof.
  intros H. induction pre as [|c pre IH]; [exact H|].
  rewrite includes_unfold.
  destruct (prefix needle (String c pre ++ hay)); [reflexivity | exact IH].
Qed.

(** ** The Codeforces matcher *)

Section CodeforcesMatcher.

Import Codeforces.

Variables (cid : Z) (idx : string) (startedAt : Z).

Lemma isProblemMatch_spec (s : Submission) :
  isProblemMatch cid idx s = true <-> refersTo cid idx s.
Proof.
  unfold isProblemMatch, refersTo, Js.strict_eq_num.
  rewrite andb_true_iff, String.eqb_eq.
  destruct (contestId s) as [c|]; [rewrite Z.eqb_eq|]; split; intros [H1 H2];
    split; congruence.
Qed.

Lemma isCompilationError_spec (s : Submission) :
  isCompilationError s = true <-> verdict s = Some COMPILATION_ERROR.
Proof.
  unfold isCompilationError.
  destruct (verdict s) as [v|]; [rewrite String.eqb_eq|]; split; congruence.
Qed.

Lemma isAfterStart_spec (s : Submission) :
  isAfterStart startedAt s = true <-> atOrAfterStart startedAt s.
Proof.
  unfold isAfterStart, Time.isSubmissionAfterStart, atOrAfterStart.
  apply Z.leb_le.
Qed.

Lemma qualifies_spec (s : Submission) :
  qualifies cid idx startedAt s = true
  <-> refersTo cid idx s /\ verdict s = Some COMPILATION_ERROR /\ atOrAfterStart startedAt s.
Proof.
  unfold qualifies.
  rewrite !andb_true_iff, isProblemMatch_spec, isCompilationError_spec, isAfterStart_spec.
  tauto.
Qed.

Lemma onProblemAfterStart_spec (s : Submission) :
  onProblemAfterStart cid idx startedAt s = true <-> refersTo cid idx s /\ atOrAfterStart startedAt s.
Proof.
  unfold onProblemAfterStart.
  now rewrite andb_true_iff, isProblemMatch_spec, isAfterStart_spec.
Qed.

Lemma mismatchMessage_quotes_verdict (s : Submission) :
  Js.includes (mismatchMessage s) (Js.render (verdict s)) = true.
Proof.
  unfold mismatchMessage.
  apply includes_skip, includes_skip, includes_here.
Qed.

(** The three outcomes of the matcher on a fetched array. *)
Lemma checkCompilationErrorSubmission_cases
      (fetch : string -> Z -> Exc (list Submission)) (username : string)
      (subs : list Submission) :
  fetch username 20 = Ok subs ->
  (exists s, find (qualifies cid idx startedAt) subs = Some s
             /\ checkCompilationErrorSubmission fetch username cid idx startedAt
                = Ok {| verified := true; submission := Some s; message := foundMessage |})
  \/ (find (qualifies cid idx startedAt) subs = None
      /\ exists s, find (onProblemAfterStart cid idx startedAt) subs = Some s
                   /\ checkCompilationErrorSubmission fetch username cid idx startedAt
                      = Ok {| verified := false; submission := Some s;
                              message := mismatchMessage s |})
  \/ (find (qualifies cid idx startedAt) subs = None
      /\ find (onProblemAfterStart cid idx startedAt) subs = None
      /\ checkCompilationErrorSubmission fetch username cid idx startedAt
         = Ok {| verified := false; submission := None; message := notFoundMessage |}).
Proof.
  intros Hf. unfold checkCompilationErrorSubmission. rewrite Hf. simpl.
  destruct (find (qualifies cid idx startedAt) subs) as [s|] eqn:Eq.
  - left. now exists s.
  - right. destruct (find (onProblemAfterStart cid idx startedAt) subs) as [s|] eqn:Ea.
    + left. split; [reflexivity|]. now exists s.
    + right. now repeat split.
Qed.

End CodeforcesMatcher.

(** C2. Outcome precedence of the Codeforces matcher.  On the fetched
    submissions the matcher answers; it answers verified exactly when some
    submission has the contest id, a case-insensitively equal index, the
    verdict COMPILATION_ERROR and a second that is not before the second the
    start falls in (the start in milliseconds divided by 1000 and rounded
    down); otherwise, when some submission is on the problem from that second
    on, it answers with that kind of submission (its verdict is another one)
    and a message that quotes its verdict; otherwise it answers that no
    submission was found. *)
Theorem codeforces_outcome_precedence :
  forall (fetch : string -> Z -> Exc (list Codeforces.Submission))
         (username : string) (cid : Z) (idx : string) (startedAt : Z)
         (subs : list Codeforces.Submission),
    fetch username 20 = Ok subs ->
    exists r,
      Codeforces.checkCompilationErrorSubmission fetch username cid idx startedAt = Ok r
      /\ (Codeforces.verified r = true
          <-> exists s, In s subs /\ refersTo cid idx s
                        /\ Codeforces.verdict s = Some "COMPILATION_ERROR"
                        /\ atOrAfterStart startedAt s)
      /\ (Codeforces.verified r = false ->
          (exists s, In s subs /\ refersTo cid idx s /\ atOrAfterStart startedAt s) ->
          exists s, In s subs /\ refersTo cid idx s /\ atOrAfterStart startedAt s
                    /\ Codeforces.verdict s <> Some "COMPILATION_ERROR"
                    /\ Codeforces.submission r = Some s
                    /\ Codeforces.message r
                       = "Found submission but verdict was " ++ Js.dq
                           ++ Js.render (Codeforces.verdict s) ++ Js.dq
                           ++ " instead of " ++ Js.dq ++ "COMPILATION_ERROR" ++ Js.dq
                    /\ Js.includes (Codeforces.message r)
                                   (Js.render (Codeforces.verdict s)) = true)
      /\ (Codeforces.verified r = false ->
          (forall s, In s subs -> ~ (refersTo cid idx s /\ atOrAfterStart startedAt s)) ->
          Codeforces.submission r = None
          /\ Codeforces.message r = "No submission found to the specified problem").
Proof.
  intros fetch username cid idx startedAt subs Hf.
  destruct (checkCompilationErrorSubmission_cases cid idx startedAt fetch username subs Hf)
    as [(s & Hs & ->) | [(Hq & s & Hs & ->) | (Hq & Ha & ->)]];
    eexists; (split; [reflexivity|]);
    cbn [Codeforces.verified Codeforces.submission Codeforces.message].
  - apply find_some in Hs as [Hin Hs]. apply qualifies_spec in Hs.
    split; [|split]; try discriminate.
    split; [|reflexivity]. intros _. exists s. tauto.
  - apply find_some in Hs as [Hin Hs]. apply onProblemAfterStart_spec in Hs.
    assert (Hno : forall x, In x subs ->
                    ~ (refersTo cid idx x
                       /\ Codeforces.verdict x = Some Codeforces.COMPILATION_ERROR
                       /\ atOrAfterStart startedAt x)).
    { intros x Hx Hc. apply qualifies_spec in Hc.
      pose proof (find_none _ _ Hq x Hx). congruence. }
    split; [|split].
    + split; [discriminate|]. intros (x & Hx & Hr & Hv & Ht). exfalso.
      apply (Hno x Hx). tauto.
    + intros _ _. exists s. destruct Hs as [Hr Ht].
      split; [exact Hin|]. split; [exact Hr|]. split; [exact Ht|].
      split; [intros Hv; apply (Hno s Hin); tauto|].
      split; [reflexivity|]. split; [reflexivity|].
      apply mismatchMessage_quotes_verdict.
    + intros _ Hnone. exfalso. apply (Hnone s Hin). exact Hs.
  - split; [|split].
    + split; [discriminate|]. intros (x & Hx & Hr & Hv & Ht). exfalso.
      pose proof (find_none _ _ Hq x Hx) as Hn.
      assert (Codeforces.qualifies cid idx startedAt x = true) by (apply qualifies_spec; tauto).
      congruence.
    + intros _ (x & Hx & Hc). exfalso.
      pose proof (find_none _ _ Ha x Hx) as Hn.
      apply onProblemAfterStart_spec in Hc. congruence.
    + intros _ _. split; reflexivity.
Qed.

Lemma codeforces_outcome_precedence_witness :
  exists r,
    Codeforces.checkCompilationErrorSubmission
      (scenarioFetch [scenarioSubmission "a" "COMPILATION_ERROR" 1700000005])
      "tourist" 1000 "A" scenarioStart = Ok r
    /\ Codeforces.verified r = true.
Proof.
  destruct (codeforces_outcome_precedence
              (scenarioFetch [scenarioSubmission "a" "COMPILATION_ERROR" 1700000005])
              "tourist" 1000 "A" scenarioStart
              [scenarioSubmission "a" "COMPILATION_ERROR" 1700000005] eq_refl)
    as (r & Hr & Hv & _).
  exists r. split; [exact Hr|]. apply Hv.
  exists (scenarioSubmission "a" "COMPILATION_ERROR" 1700000005).
  split; [left; reflexivity|].
  split; [split; reflexivity|].
  split; [reflexivity|].
  unfold atOrAfterStart. vm_compute. discriminate.
Defined.

(** With the start in the last millisecond of a second, a compilation
    error stamped with that second is verified although no fetched submission
    has its instant at or after the start. *)
Lemma codeforces_same_second_before_start :
  Codeforces.checkCompilationErrorSubmission
    (scenarioFetch [scenarioSubmission "A" "COMPILATION_ERROR" 1700000000])
    "tourist" 1000 "A" 1700000000999
  = Ok {| Codeforces.verified := true;
          Codeforces.submission :=
            Some (scenarioSubmission "A" "COMPILATION_ERROR" 1700000000);
          Codeforces.message := "Compilation Error submission found!" |}
  /\ (forall s, In s [scenarioSubmission "A" "COMPILATION_ERROR" 1700000000] ->
                 ~ atOrAfterInstant 1700000000999 s).
Proof.
  split; [reflexivity|].
  intros s [<-|[]]. unfold atOrAfterInstant. cbn. lia.
Qed.

Example scenario_wrong_answer :
  Codeforces.checkCompilationErrorSubmission
    (scenarioFetch [scenarioSubmission "A" "WRONG_ANSWER" 1700000005])
    "tourist" 1000 "A" scenarioStart
  = Ok {| Codeforces.verified := false;
          Codeforces.submission := Some (scenarioSubmission "A" "WRONG_ANSWER" 1700000005);
          Codeforces.message :=
            "Found submission but verdict was " ++ Js.dq ++ "WRONG_ANSWER" ++ Js.dq
              ++ " instead of " ++ Js.dq ++ "COMPILATION_ERROR" ++ Js.dq |}.
Proof. reflexivity. Qed.

Example scenario_before_start :
  Codeforces.checkCompilationErrorSubmission
    (scenarioFetch [scenarioSubmission "A" "COMPILATION_ERROR" 1699999995])
    "tourist" 1000 "A" scenarioStart
  = Ok {| Codeforces.verified := false;
          Codeforces.submission := None;
          Codeforces.message := "No submission found to the specified problem" |}.
Proof. reflexivity. Qed.

(** A failure to fetch the submissions is rethrown as it is. *)
Lemma codeforces_fetch_failure_rethrown :
  forall (fetch : string -> Z -> Exc (list Codeforces.Submission))
         (username : string) (cid : Z) (idx : string) (startedAt : Z) (e : string),
    fetch username 20 = Throw e ->
    Codeforces.checkCompilationErrorSubmission fetch username cid idx startedAt = Throw e.
Proof.
  intros fetch username cid idx startedAt e Hf.
  unfold Codeforces.checkCompilationErrorSubmission. now rewrite Hf.
Qed.

Example scenario_codechef_nothing_returned :
  CodeChef.checkCompilationErrorSubmission
    emptyStatusPage (fun _ _ => []) "alice" "TEST" scenarioStart
  = Ok {| CodeChef.verified := false;
          CodeChef.submission := None;
          CodeChef.message :=
            "No submission found to the specified problem. Please make sure you submitted to the correct problem." |}.
Proof. reflexivity. Qed.

(** ** Replay protection *)

(** On Codeforces a verified answer always carries a submission of the
    fetched array whose second is not before the start: submissions from
    before the start never verify, whatever their problem and verdict. *)
Lemma codeforces_replay_protection :
  forall (fetch : string -> Z -> Exc (list Codeforces.Submission))
         (username : string) (cid : Z) (idx : string) (startedAt : Z)
         (subs : list Codeforces.Submission) (r : Codeforces.VerificationResult),
    fetch username 20 = Ok subs ->
    (forall s, In s subs ->
               Codeforces.creationTimeSeconds s < Time.startTimestamp startedAt) ->
    Codeforces.checkCompilationErrorSubmission fetch username cid idx startedAt = Ok r ->
    Codeforces.verified r = false.
Proof.
  intros fetch username cid idx startedAt subs r Hf Hold Hr.
  destruct (checkCompilationErrorSubmission_cases cid idx startedAt fetch username subs Hf)
    as [(s & Hs & E) | [(_ & s & _ & E) | (_ & _ & E)]];
    rewrite E in Hr; injection Hr as <-; try reflexivity.
  apply find_some in Hs as [Hin Hq]. apply qualifies_spec in Hq as (_ & _ & Ht).
  specialize (Hold s Hin). unfold atOrAfterStart in Ht.
  unfold Time.startTimestamp in Hold. lia.
Qed.

(** A submission second [t] is before [Time.startTimestamp startedAt]
    exactly when the whole second ends no later than the start. *)
Lemma before_start_second (t startedAt : Z) :
  t < Time.startTimestamp startedAt <-> (t + 1) * 1000 <= startedAt.
Proof.
  unfold Time.startTimestamp. split; intros H.
  - pose proof (Z.mul_div_le startedAt 1000). nia.
  - assert (t + 1 <= startedAt / 1000) by (apply Z.div_le_lower_bound; lia). lia.
Qed.

(** The CodeChef matcher does not depend on [startedAt]. *)
Lemma codechef_ignores_start :
  forall page recent (username code : string) (startedAt startedAt' : Z),
    CodeChef.checkCompilationErrorSubmission page recent username code startedAt
    = CodeChef.checkCompilationErrorSubmission page recent username code startedAt'.
Proof. reflexivity. Qed.

(** The status page needs only to name the user and a compilation error,
    of whatever date, for the first path to verify. *)
Example scenario_codechef_status_page :
  forall startedAt : Z,
    CodeChef.checkCompilationErrorSubmission
      (fun _ _ => Ok {| CodeChef.status := 200;
                        CodeChef.data :=
                          CodeChef.Text "<td>alice</td><td>Compilation Error</td>" |})
      (fun _ _ => []) "alice" "TEST" startedAt
    = Ok {| CodeChef.verified := true;
            CodeChef.submission :=
              Some {| CodeChef.id := None; CodeChef.problemCode := Some "TEST";
                      CodeChef.result := Some "compilation error";
                      CodeChef.date := None; CodeChef.language := None |};
            CodeChef.message := "Compilation Error submission found!" |}.
Proof. intros startedAt. reflexivity. Qed.

(** C1. On the CodeChef backend a submission from before the start of the
    session is answered as verified: the matcher of codechef.service.js
    never compares a submission time with [startedAt]. *)
Theorem codechef_replay_is_verified :
  CodeChef.date oldSubmission = Some 1600000000000
  /\ 1600000000000 < scenarioStart
  /\ CodeChef.checkCompilationErrorSubmission
       emptyStatusPage (fun _ _ => [oldSubmission]) "alice" "TEST" scenarioStart
     = Ok {| CodeChef.verified := true;
             CodeChef.submission := Some oldSubmission;
             CodeChef.message := "Compilation Error submission found!" |}.
Proof. split; [reflexivity|]. split; [reflexivity|]. reflexivity. Qed.

(** ** The verify command *)

Ltac unfold_m :=
  unfold Verify.deletePendingVerification, Verify.createLinkedAccount,
    Verify.getPendingVerifications, Verify.isAccountLinkedByOther,
    Verify.createPendingVerification, Verify.dbWrite, Verify.dbRead, Verify.call,
    Verify.await_, Verify.lift, Verify.tryCatch, Verify.mbind, Verify.newDate, Verify.ret.

Ltac unfold_m_in H :=
  unfold Verify.deletePendingVerification, Verify.createLinkedAccount,
    Verify.getPendingVerifications, Verify.isAccountLinkedByOther,
    Verify.createPendingVerification, Verify.dbWrite, Verify.dbRead, Verify.call,
    Verify.await_, Verify.lift, Verify.tryCatch, Verify.mbind, Verify.newDate, Verify.ret
    in H.

Lemma removePending_gone (i : Z) (st : Verify.Store) :
  forall v, In v (Verify.pending_verifications (Verify.removePending i st)) ->
            Verify.id v <> i.
Proof.
  intros v Hin. unfold Verify.removePending in Hin; simpl in Hin.
  apply filter_In in Hin as [_ Hne].
  apply negb_true_iff, Z.eqb_neq in Hne. exact Hne.
Qed.

Lemma removePending_keeps (i : Z) (st : Verify.Store) :
  forall v, In v (Verify.pending_verifications st) -> Verify.id v <> i ->
            In v (Verify.pending_verifications (Verify.removePending i st)).
Proof.
  intros v Hin Hne. unfold Verify.removePending; simpl.
  apply filter_In. split; [exact Hin|].
  now apply negb_true_iff, Z.eqb_neq.
Qed.

(** One turn on a session whose [expires_at] is strictly before the time
    of the turn, the store answering the delete. *)
Lemma processPending_expired :
  forall (env : Verify.Env) (userId guildId : string)
         (pending : Verify.PendingVerification) (w : Verify.World),
    Verify.expires_at pending < Verify.now w ->
    Verify.db_failure env (Verify.DbDeletePending (Verify.id pending)) = None ->
    Verify.processPending env userId guildId pending w
    = (Ok (Verify.failure pending Verify.expiredMessage),
       withStore (Verify.removePending (Verify.id pending))
                 (after env (Verify.DbDeletePending (Verify.id pending)) w)).
Proof.
  intros env userId guildId pending w Hexp Hdb.
  unfold Verify.processPending. unfold_m.
  cbn [fst snd Verify.now Verify.store Verify.log].
  unfold Time.isExpired. apply Z.ltb_lt in Hexp. rewrite Hexp.
  cbn [Verify.now Verify.store Verify.log]. rewrite Hdb. reflexivity.
Qed.

(** Checking the submissions never touches the store, and time only moves
    forward while the judge is asked. *)
Lemma checkSubmission_frame :
  forall (env : Verify.Env) (pending : Verify.PendingVerification)
         (w w' : Verify.World) r,
    Verify.checkSubmission env pending w = (r, w') ->
    Verify.store w' = Verify.store w /\ Verify.now w <= Verify.now w'.
Proof.
  intros env pending w w' r H.
  unfold Verify.checkSubmission in H.
  destruct (String.eqb (Verify.platform pending) "codeforces").
  - unfold_m_in H.
    destruct (Verify.parseCodeforcesProblemId (Verify.problem_id pending)) as [[c i]|e];
      cbn [fst snd] in H.
    + destruct (Codeforces.checkCompilationErrorSubmission _ _ _ _ _) as [v|e];
        cbn [fst snd] in H.
      * destruct (Codeforces.verified v); cbn [fst snd] in H.
        -- destruct (Verify.cf_getUserRank env (Verify.username pending));
             injection H as _ <-; cbn [Verify.store Verify.now]; split; try reflexivity; lia.
        -- injection H as _ <-; cbn [Verify.store Verify.now]; split; try reflexivity; lia.
      * injection H as _ <-; cbn [Verify.store Verify.now]; split; try reflexivity; lia.
    + injection H as _ <-. split; try reflexivity; lia.
  - destruct (String.eqb (Verify.platform pending) "codechef").
    + unfold_m_in H.
      destruct (CodeChef.checkCompilationErrorSubmission _ _ _ _ _) as [v|e];
        injection H as _ <-; cbn [Verify.store Verify.now]; split; try reflexivity; lia.
    + unfold_m_in H. injection H as _ <-. split; try reflexivity; lia.
Qed.

Section ProcessPending.

Variables (env : Verify.Env) (userId guildId : string).
Variables (pending : Verify.PendingVerification) (w w1 : Verify.World).

Hypothesis unexpired : Verify.now w <= Verify.expires_at pending.

Lemma processPending_check_failed (e : string) :
  Verify.checkSubmission env pending w = (Throw e, w1) ->
  Verify.processPending env userId guildId pending w
  = (Ok (Verify.failure pending ("Failed to check submissions: " ++ e)), w1).
Proof.
  intros Hc. unfold Verify.processPending, Verify.mbind at 1, Verify.newDate.
  unfold Time.isExpired. apply Z.ltb_ge in unexpired. rewrite unexpired.
  unfold Verify.mbind, Verify.tryCatch, Verify.ret. rewrite Hc. reflexivity.
Qed.

Lemma processPending_not_verified (v : option Verify.Verdict) (userRank : option string) :
  Verify.checkSubmission env pending w = (Ok (v, userRank), w1) ->
  Verify.isVerified v = false ->
  Verify.processPending env userId guildId pending w
  = (Ok (notComplete pending v (Verify.now w1)), w1).
Proof.
  intros Hc Hv. unfold Verify.processPending, Verify.mbind at 1, Verify.newDate.
  unfold Time.isExpired. apply Z.ltb_ge in unexpired. rewrite unexpired.
  unfold Verify.mbind, Verify.tryCatch, Verify.ret. rewrite Hc. rewrite Hv. reflexivity.
Qed.

Lemma processPending_verified (v : option Verify.Verdict) (userRank : option string) :
  Verify.checkSubmission env pending w = (Ok (v, userRank), w1) ->
  Verify.isVerified v = true ->
  Verify.processPending env userId guildId pending w
  = let acc := linkOf userId guildId pending userRank in
    let created := after env (Verify.DbCreateLinked acc) w1 in
    match Verify.db_failure env (Verify.DbCreateLinked acc) with
    | Some e =>
        (Ok (Verify.failure pending ("Verification successful but failed to save: " ++ e)),
         created)
    | None =>
        let saved := withStore (Verify.putLinked acc) created in
        let deleting := after env (Verify.DbDeletePending (Verify.id pending)) saved in
        match Verify.db_failure env (Verify.DbDeletePending (Verify.id pending)) with
        | Some e =>
            (Ok (Verify.failure pending
                   ("Verification successful but failed to save: " ++ e)), deleting)
        | None =>
            let deleted := withStore (Verify.removePending (Verify.id pending)) deleting in
            let assigned :=
              after env (Verify.AssignRoles guildId (Verify.platform pending) userRank)
                    deleted in
            match Verify.assignVerificationRoles env guildId (Verify.platform pending)
                                                 userRank with
            | Throw e =>
                (Ok (Verify.failure pending
                       ("Verification successful but failed to save: " ++ e)), assigned)
            | Ok roleResults =>
                (Ok {| Verify.o_platform := Verify.platform pending;
                       Verify.o_username := Verify.username pending;
                       Verify.success := true;
                       Verify.message := "Account verified successfully!";
                       Verify.rank := userRank;
                       Verify.rolesAssigned := Some roleResults;
                       Verify.problemUrl := None; Verify.problemName := None;
                       Verify.timeRemaining := None |}, assigned)
            end
        end
    end.
Proof.
  intros Hc Hv. unfold Verify.processPending, Verify.mbind at 1, Verify.newDate.
  unfold Time.isExpired. apply Z.ltb_ge in unexpired. rewrite unexpired.
  unfold Verify.mbind at 1, Verify.tryCatch at 1, Verify.mbind at 1.
  rewrite Hc. unfold Verify.ret at 1. cbv beta iota. rewrite Hv.
  unfold_m. cbn [fst snd Verify.now Verify.store Verify.log].
  fold (linkOf userId guildId pending userRank).
  destruct (Verify.db_failure env (Verify.DbCreateLinked _)); [reflexivity|].
  cbn [fst snd Verify.now Verify.store Verify.log].
  destruct (Verify.db_failure env (Verify.DbDeletePending _)); [reflexivity|].
  cbn [fst snd Verify.now Verify.store Verify.log].
  destruct (Verify.assignVerificationRoles env _ _ _); reflexivity.
Qed.

End ProcessPending.

Lemma putLinked_In (acc : Verify.LinkedAccount) (st : Verify.Store) :
  In acc (Verify.linked_accounts (Verify.putLinked acc st)).
Proof. left. reflexivity. Qed.





(** Were the role callback to throw, the [catch] around the three steps
    would report the turn as not saved, although the linked account is in the
    store and the session is gone. *)
Lemma verify_role_callback_throws :
  forall (env : Verify.Env) (userId guildId : string)
         (pending : Verify.PendingVerification) (w w1 : Verify.World)
         (v : option Verify.Verdict) (userRank : option string) (e : string),
    Verify.now w <= Verify.expires_at pending ->
    Verify.checkSubmission env pending w = (Ok (v, userRank), w1) ->
    Verify.isVerified v = true ->
    Verify.db_failure env (Verify.DbCreateLinked (linkOf userId guildId pending userRank))
    = None ->
    Verify.db_failure env (Verify.DbDeletePending (Verify.id pending)) = None ->
    Verify.assignVerificationRoles env guildId (Verify.platform pending) userRank = Throw e ->
    exists w',
      Verify.processPending env userId guildId pending w
      = (Ok (Verify.failure pending ("Verification successful but failed to save: " ++ e)),
         w')
      /\ In (linkOf userId guildId pending userRank)
            (Verify.linked_accounts (Verify.store w'))
      /\ (forall p, In p (Verify.pending_verifications (Verify.store w')) ->
                    Verify.id p <> Verify.id pending).
Proof.
  intros env userId guildId pending w w1 v userRank e Hle Hc Hv Hcreate Hdelete Hroles.
  rewrite (processPending_verified env userId guildId pending w w1 Hle v userRank Hc Hv).
  cbv zeta. rewrite Hcreate, Hdelete, Hroles.
  eexists. split; [reflexivity|].
  unfold after, withStore; cbn [Verify.store Verify.now Verify.log].
  split.
  - unfold Verify.removePending; cbn [Verify.linked_accounts]. apply putLinked_In.
  - apply removePending_gone.
Qed.

(** C5. When the check verifies but writing the linked account fails, the
    turn pushes an unsuccessful outcome whose message says that the
    verification succeeded but could not be saved; no other unsuccessful
    outcome starts that way; and the store is as before, so the session is
    still there for another verify. *)
Theorem verify_save_failure_is_distinct :
  forall (env : Verify.Env) (userId guildId : string)
         (pending : Verify.PendingVerification) (w w1 : Verify.World)
         (v : option Verify.Verdict) (userRank : option string) (e : string),
    Verify.now w <= Verify.expires_at pending ->
    Verify.checkSubmission env pending w = (Ok (v, userRank), w1) ->
    Verify.isVerified v = true ->
    Verify.db_failure env (Verify.DbCreateLinked (linkOf userId guildId pending userRank))
    = Some e ->
    exists out w',
      Verify.processPending env userId guildId pending w = (Ok out, w')
      /\ Verify.success out = false
      /\ Verify.message out = "Verification successful but failed to save: " ++ e
      /\ Verify.store w' = Verify.store w
      /\ prefix "Verification successful but failed to save: " Verify.expiredMessage = false
      /\ (forall e', prefix "Verification successful but failed to save: "
                            ("Failed to check submissions: " ++ e') = false)
      /\ (forall s, prefix "Verification successful but failed to save: "
                           (Codeforces.mismatchMessage s) = false)
      /\ prefix "Verification successful but failed to save: "
                Codeforces.notFoundMessage = false
      /\ (forall s, prefix "Verification successful but failed to save: "
                           (CodeChef.mismatchMessage s) = false)
      /\ prefix "Verification successful but failed to save: "
                CodeChef.notFoundMessage = false.
Proof.
  intros env userId guildId pending w w1 v userRank e Hle Hc Hv Hcreate.
  rewrite (processPending_verified env userId guildId pending w w1 Hle v userRank Hc Hv).
  cbv zeta. rewrite Hcreate.
  eexists. eexists. split; [reflexivity|].
  cbn [Verify.success Verify.message Verify.failure].
  split; [reflexivity|]. split; [reflexivity|].
  split; [exact (proj1 (checkSubmission_frame env pending w w1 _ Hc))|].
  repeat split; reflexivity.
Qed.

(** ** Remaining time *)

Lemma remainingSeconds_value (today expiresAt : Z) :
  Time.remainingSeconds (Time.getRemainingTime today expiresAt)
  = Z.max 0 ((expiresAt - today) / 1000).
Proof.
  unfold Time.getRemainingTime, Time.remainingSeconds.
  destruct (Z.leb_spec (expiresAt - today) 0) as [Hle|Hgt]; cbn [Time.minutes Time.seconds].
  - assert ((expiresAt - today) / 1000 <= 0).
    { apply Z.div_le_upper_bound; lia. }
    lia.
  - set (d := expiresAt - today) in *.
    assert (Hd : d / 1000 = 60 * (d / 60000) + (d mod 60000) / 1000).
    { rewrite (Z.div_mod d 60000) at 1 by lia.
      replace (60000 * (d / 60000) + d mod 60000)
        with (60 * (d / 60000) * 1000 + d mod 60000) by lia.
      rewrite Z.div_add_l by lia. reflexivity. }
    assert (0 <= d / 1000) by (apply Z.div_pos; lia).
    lia.
Qed.

Lemma remainingSeconds_antitone (today today' expiresAt : Z) :
  today <= today' ->
  Time.remainingSeconds (Time.getRemainingTime today' expiresAt)
  <= Time.remainingSeconds (Time.getRemainingTime today expiresAt).
Proof.
  intros Hle. rewrite !remainingSeconds_value.
  assert ((expiresAt - today') / 1000 <= (expiresAt - today) / 1000)
    by (apply Z.div_le_mono; lia).
  lia.
Qed.

(** What [getRemainingTime] shows is the time left. *)
Lemma getRemainingTime_shows (today expiresAt : Z) :
  showsTimeLeft today expiresAt
    (Time.formatted (Time.getRemainingTime today expiresAt))
    (Time.remainingSeconds (Time.getRemainingTime today expiresAt)).
Proof.
  unfold showsTimeLeft. rewrite remainingSeconds_value.
  unfold Time.getRemainingTime.
  destruct (Z.leb_spec (expiresAt - today) 0) as [Hle|Hgt]; cbn [Time.formatted].
  - left. split; [lia|]. split; [reflexivity|].
    assert ((expiresAt - today) / 1000 <= 0) by (apply Z.div_le_upper_bound; lia). lia.
  - right. split; [lia|].
    set (d := expiresAt - today) in *.
    assert (H0 : 0 <= d / 1000) by (apply Z.div_pos; lia).
    rewrite Z.max_r by lia.
    pose proof (Z.mul_div_le d 1000 ltac:(lia)).
    pose proof (Z.mod_pos_bound d 1000 ltac:(lia)).
    pose proof (Z.div_mod d 1000 ltac:(lia)).
    split; [lia|].
    exists (d / 60000), (d mod 60000 / 1000).
    pose proof (Z.mod_pos_bound d 60000 ltac:(lia)).
    split; [apply Z.div_pos; lia|].
    split.
    { split; [apply Z.div_pos; lia|].
      assert (d mod 60000 / 1000 < 60) by (apply Z.div_lt_upper_bound; lia). lia. }
    split; [|reflexivity].
    rewrite (Z.div_mod d 60000) at 1 by lia.
    replace (60000 * (d / 60000) + d mod 60000)
      with (60 * (d / 60000) * 1000 + d mod 60000) by lia.
    now rewrite Z.div_add_l by lia.
Qed.

(** C6. On an unexpired session, when the check answers without a
    qualifying submission, the turn leaves the store as it was (the session is
    neither deleted nor changed), and pushes an unsuccessful outcome with the
    reason and the remaining time: the minutes and seconds left until the
    expiry of the session at the reading of the clock, rounded down to the
    second, or "Expired" when the expiry was reached while the judge was
    asked.  On a later call with the same kind of answer the remaining time,
    in whole seconds, is not larger. *)
Theorem verify_not_yet_leaves_session :
  forall (env : Verify.Env) (userId guildId : string)
         (pending : Verify.PendingVerification) (w w1 : Verify.World)
         (v : option Verify.Verdict) (userRank : option string),
    Verify.now w <= Verify.expires_at pending ->
    Verify.checkSubmission env pending w = (Ok (v, userRank), w1) ->
    Verify.isVerified v = false ->
    exists out,
      Verify.processPending env userId guildId pending w = (Ok out, w1)
      /\ Verify.store w1 = Verify.store w
      /\ Verify.success out = false
      /\ Verify.message out = Verify.reason v
      /\ (forall r, v = Some r -> Js.truthy_string (Verify.v_message r) = true ->
                    Verify.message out = Verify.v_message r)
      /\ Verify.timeRemaining out
         = Some (Time.formatted
                   (Time.getRemainingTime (Verify.now w1) (Verify.expires_at pending)))
      /\ exists text left,
          Verify.timeRemaining out = Some text
          /\ Verify.now w <= Verify.now w1
          /\ showsTimeLeft (Verify.now w1) (Verify.expires_at pending) text left
          /\ forall (w2 w3 : Verify.World) (v' : option Verify.Verdict)
                    (userRank' : option string),
              Verify.now w1 <= Verify.now w2 ->
              Verify.now w2 <= Verify.expires_at pending ->
              Verify.checkSubmission env pending w2 = (Ok (v', userRank'), w3) ->
              Verify.isVerified v' = false ->
              exists out' text' left',
                Verify.processPending env userId guildId pending w2 = (Ok out', w3)
                /\ Verify.store w3 = Verify.store w2
                /\ Verify.timeRemaining out' = Some text'
                /\ showsTimeLeft (Verify.now w3) (Verify.expires_at pending) text' left'
                /\ left' <= left
                /\ Verify.timeRemaining out'
                   = Some (Time.formatted
                             (Time.getRemainingTime (Verify.now w3)
                                                    (Verify.expires_at pending)))
                /\ Time.remainingSeconds
                     (Time.getRemainingTime (Verify.now w3) (Verify.expires_at pending))
                   <= Time.remainingSeconds
                        (Time.getRemainingTime (Verify.now w1)
                                               (Verify.expires_at pending)).
Proof.
  intros env userId guildId pending w w1 v userRank Hle Hc Hv.
  exists (notComplete pending v (Verify.now w1)).
  split; [exact (processPending_not_verified env userId guildId pending w w1 Hle v userRank Hc Hv)|].
  destruct (checkSubmission_frame env pending w w1 _ Hc) as [Hst Hnow].
  split; [exact Hst|].
  split; [reflexivity|]. split; [reflexivity|].
  split.
  { intros r -> Ht. cbn [Verify.message notComplete Verify.reason]. now rewrite Ht. }
  split; [reflexivity|].
  exists (Time.formatted (Time.getRemainingTime (Verify.now w1) (Verify.expires_at pending))),
         (Time.remainingSeconds
            (Time.getRemainingTime (Verify.now w1) (Verify.expires_at pending))).
  split; [reflexivity|]. split; [exact Hnow|]. split; [apply getRemainingTime_shows|].
  intros w2 w3 v' userRank' H12 Hle2 Hc2 Hv2.
  exists (notComplete pending v' (Verify.now w3)),
         (Time.formatted (Time.getRemainingTime (Verify.now w3) (Verify.expires_at pending))),
         (Time.remainingSeconds
            (Time.getRemainingTime (Verify.now w3) (Verify.expires_at pending))).
  split; [exact (processPending_not_verified env userId guildId pending w2 w3 Hle2 v' userRank' Hc2 Hv2)|].
  destruct (checkSubmission_frame env pending w2 w3 _ Hc2) as [Hs Hn].
  split; [exact Hs|]. split; [reflexivity|]. split; [apply getRemainingTime_shows|].
  assert (Hmono : Time.remainingSeconds
                    (Time.getRemainingTime (Verify.now w3) (Verify.expires_at pending))
                  <= Time.remainingSeconds
                       (Time.getRemainingTime (Verify.now w1) (Verify.expires_at pending)))
    by (apply remainingSeconds_antitone; lia).
  split; [exact Hmono|]. split; [reflexivity | exact Hmono].
Qed.

(** ** The problem id of a Codeforces session *)






Lemma string_of_uint_digits (d : Decimal.uint) :
  Verify.all_digits (NilEmpty.string_of_uint d) = true.
Proof. induction d; simpl; auto. Qed.

Lemma string_of_N_digits (n : N) : Verify.all_digits (Js.string_of_N n) = true.
Proof. apply string_of_uint_digits. Qed.

Lemma string_of_N_nonempty (n : N) : Js.string_of_N n <> EmptyString.
Proof.
  unfold Js.string_of_N. destruct n as [|p]; [discriminate|].
  simpl. pose proof (DecimalPos.Unsigned.to_uint_nonnil p) as Hp.
  destruct (Pos.to_uint p); [congruence | discriminate ..].
Qed.



Example parse_1800A1 : Verify.parseCodeforcesProblemId "1800A1" = Ok (1800, "A1").
Proof. reflexivity. Qed.

Example parse_lower_case : Verify.parseCodeforcesProblemId "1a" = Ok (1, "A").
Proof. reflexivity. Qed.

Example parse_no_contest : Verify.parseCodeforcesProblemId "A1"
                           = Throw "Invalid problem ID format: A1".
Proof. reflexivity. Qed.


(** ** One pending session per user, guild and platform *)

Lemma hasKey_spec (u g p : string) (v : Verify.PendingVerification) :
  Verify.hasKey u g p v = true <-> Verify.sessionKey v = (u, g, p).
Proof.
  unfold Verify.hasKey, Verify.sessionKey.
  rewrite !andb_true_iff, !String.eqb_eq. split.
  - intros [[-> ->] ->]. reflexivity.
  - intros [= -> -> ->]. auto.
Qed.

(** Dropping rows keeps the session keys distinct. *)
Lemma kept_rows_distinct (keep : Verify.PendingVerification -> bool)
      (rows : list Verify.PendingVerification) :
  NoDup (map Verify.sessionKey rows) ->
  NoDup (map Verify.sessionKey (filter keep rows)).
Proof.
  induction rows as [|row rows IH]; simpl; intros H; [constructor|].
  inversion H as [|? ? Hnotin Hnd]; subst.
  destruct (keep row); simpl; [|auto].
  constructor; [|auto].
  intros Hin. apply Hnotin. apply in_map_iff in Hin as (x & Hx & Hin).
  apply filter_In in Hin as [Hin _]. apply in_map_iff. now exists x.
Qed.

Lemma NoDup_snoc {A} (l : list A) (a : A) : NoDup l -> ~ In a l -> NoDup (l ++ [a]).
Proof.
  induction l as [|x l IH]; simpl; intros Hnd Hnotin.
  - constructor; [easy | constructor].
  - inversion Hnd as [|? ? Hx Hl]; subst. constructor.
    + rewrite in_app_iff. simpl. intuition congruence.
    + apply IH; tauto.
Qed.

Lemma filter_none {A} (p : A -> bool) (l : list A) :
  (forall x, In x l -> p x = false) -> filter p l = [].
Proof.
  induction l as [|a l IH]; simpl; intros H; [reflexivity|].
  rewrite (H a) by now left. apply IH. intros x Hx. apply H. now right.
Qed.

Lemma removePending_unique (i : Z) (st : Verify.Store) :
  Verify.oneSessionPerKey st -> Verify.oneSessionPerKey (Verify.removePending i st).
Proof. apply kept_rows_distinct. Qed.

Lemma sweepExpired_unique (today : Z) (st : Verify.Store) :
  Verify.oneSessionPerKey st -> Verify.oneSessionPerKey (Verify.sweepExpired today st).
Proof. apply kept_rows_distinct. Qed.

Lemma putLinked_unique (acc : Verify.LinkedAccount) (st : Verify.Store) :
  Verify.oneSessionPerKey st -> Verify.oneSessionPerKey (Verify.putLinked acc st).
Proof. exact (fun H => H). Qed.

Lemma putPending_unique (today : Z) (n : Verify.NewPending) (st : Verify.Store) :
  Verify.oneSessionPerKey st -> Verify.oneSessionPerKey (Verify.putPending today n st).
Proof.
  unfold Verify.oneSessionPerKey, Verify.putPending; cbn [Verify.pending_verifications].
  intros H. rewrite map_app. apply NoDup_snoc.
  - now apply kept_rows_distinct.
  - intros Hin. apply in_map_iff in Hin as (x & Hx & Hin).
    apply filter_In in Hin as [_ Hneg].
    apply negb_true_iff in Hneg.
    assert (Verify.hasKey (Verify.n_discord_user_id n) (Verify.n_guild_id n)
                          (Verify.n_platform n) x = true) by (apply hasKey_spec; exact Hx).
    congruence.
Qed.

Lemma putPending_supersedes (today : Z) (n : Verify.NewPending) (st : Verify.Store) :
  filter (Verify.hasKey (Verify.n_discord_user_id n) (Verify.n_guild_id n)
                        (Verify.n_platform n))
         (Verify.pending_verifications (Verify.putPending today n st))
  = [newRow today n st].
Proof.
  unfold Verify.putPending; cbn [Verify.pending_verifications].
  rewrite filter_app. rewrite filter_none.
  - simpl. unfold Verify.hasKey; cbn. now rewrite !String.eqb_refl.
  - intros x Hx. apply filter_In in Hx as [_ Hneg]. now apply negb_true_iff.
Qed.

(** Starting a Codeforces link keeps at most one pending session per
    (userId, guildId, platform); and when it issues a challenge, the only
    pending session of that user, guild and platform is the new one, with the
    fresh id, the new problem and the new expiry. *)
Lemma handleLinkCodeforces_challenge :
  forall (env : Verify.Env) (name userId guildId : string) (w w' : Verify.World)
         (r : Exc Verify.LinkReply),
    Verify.handleLinkCodeforces env name userId guildId w = (r, w') ->
    (Verify.oneSessionPerKey (Verify.store w) -> Verify.oneSessionPerKey (Verify.store w'))
    /\ forall problem expiresAt,
        r = Ok (Verify.Challenge problem expiresAt) ->
        exists s,
          filter (Verify.hasKey userId guildId "codeforces")
                 (Verify.pending_verifications (Verify.store w')) = [s]
          /\ Verify.id s = Verify.next_id (Verify.store w)
          /\ Verify.problem_id s = RandomProblem.p_id problem
          /\ Verify.expires_at s = expiresAt
          /\ Verify.next_id (Verify.store w') = Verify.next_id (Verify.store w) + 1.
Proof.
  intros env name userId guildId w w' r H.
  unfold Verify.handleLinkCodeforces in H. unfold_m_in H.
  cbn [fst snd Verify.now Verify.store Verify.log] in H.
  destruct (Verify.cf_validateUser env name) as [[|]|e];
    cbn [negb fst snd Verify.now Verify.store Verify.log] in H.
  2,3: injection H as <- <-; split; [auto | discriminate].
  destruct (Verify.db_failure env (Verify.DbIsLinkedByOther _ _ _ _));
    cbn [fst snd Verify.now Verify.store Verify.log] in H.
  1: injection H as <- <-; split; [auto | discriminate].
  destruct (Verify.linkedByOther _ _ _ _ _);
    cbn [fst snd Verify.now Verify.store Verify.log] in H.
  1: injection H as <- <-; split; [auto | discriminate].
  set (userInfo := match Verify.cf_getUserInfo env name with
                   | Ok u => u
                   | Throw _ => {| Verify.handle := name; Verify.ui_rank := "unknown";
                                   Verify.ui_rating := 0 |}
                   end).
  destruct (Verify.cf_getUserInfo env name) as [u|e];
    cbn [fst snd Verify.now Verify.store Verify.log] in H;
    (destruct (Verify.cf_randomProblem env) as [problem|e'];
     cbn [fst snd Verify.now Verify.store Verify.log] in H;
     [|injection H as <- <-; split; [auto | discriminate]]);
    (destruct (Verify.db_failure env (Verify.DbCreatePending _));
     cbn [fst snd Verify.now Verify.store Verify.log] in H;
     [injection H as <- <-; split; [auto | discriminate]|]);
    injection H as <- <-; cbn [Verify.store];
    (split; [apply putPending_unique|]);
    intros problem' expiresAt' [= <- <-];
    match goal with
    | |- context [Verify.putPending ?t ?n ?st] =>
        exists (newRow t n st); split; [exact (putPending_supersedes t n st)|]
    end;
    cbn [newRow Verify.id Verify.problem_id Verify.expires_at Verify.n_problem_id
         Verify.n_expires_at Verify.putPending Verify.next_id];
    repeat split; reflexivity.
Qed.

(** C7. Of two links started one after the other for the same user, guild
    and platform, only the second session is pending afterwards: the first is
    no longer in the table, the table holds exactly one session for that key
    (the one with the second problem and expiry), and a table with at most one
    session per key stays so. *)
Theorem link_supersedes_prior_session :
  forall (env env' : Verify.Env) (name name' userId guildId : string)
         (w w1 w2 : Verify.World)
         (problem1 problem2 : RandomProblem.Picked) (expiresAt1 expiresAt2 : Z),
    Verify.handleLinkCodeforces env name userId guildId w
    = (Ok (Verify.Challenge problem1 expiresAt1), w1) ->
    Verify.handleLinkCodeforces env' name' userId guildId w1
    = (Ok (Verify.Challenge problem2 expiresAt2), w2) ->
    exists s1 s2,
      filter (Verify.hasKey userId guildId "codeforces")
             (Verify.pending_verifications (Verify.store w1)) = [s1]
      /\ filter (Verify.hasKey userId guildId "codeforces")
                (Verify.pending_verifications (Verify.store w2)) = [s2]
      /\ Verify.problem_id s2 = RandomProblem.p_id problem2
      /\ Verify.expires_at s2 = expiresAt2
      /\ ~ In s1 (Verify.pending_verifications (Verify.store w2))
      /\ (Verify.oneSessionPerKey (Verify.store w) ->
          Verify.oneSessionPerKey (Verify.store w2)).
Proof.
  intros env env' name name' userId guildId w w1 w2 problem1 problem2 e1 e2 H1 H2.
  destruct (handleLinkCodeforces_challenge env name userId guildId w w1 _ H1) as [Hu1 Hc1].
  destruct (handleLinkCodeforces_challenge env' name' userId guildId w1 w2 _ H2) as [Hu2 Hc2].
  destruct (Hc1 problem1 e1 eq_refl) as (s1 & Hf1 & Hid1 & _ & _ & Hn1).
  destruct (Hc2 problem2 e2 eq_refl) as (s2 & Hf2 & Hid2 & Hp2 & He2 & _).
  exists s1, s2. repeat split; auto.
  intros Hin.
  assert (Hk : Verify.hasKey userId guildId "codeforces" s1 = true).
  { assert (Hs1 : In s1 (filter (Verify.hasKey userId guildId "codeforces")
                                (Verify.pending_verifications (Verify.store w1))))
      by (rewrite Hf1; now left).
    now apply filter_In in Hs1. }
  assert (Hs : In s1 (filter (Verify.hasKey userId guildId "codeforces")
                             (Verify.pending_verifications (Verify.store w2))))
    by (apply filter_In; split; assumption).
  rewrite Hf2 in Hs. destruct Hs as [<-|[]]. lia.
Qed.

(** ** Products in binary64 *)

Lemma digits2_bounds (p : positive) :
  2 ^ (Zpos (digits2_pos p) - 1) <= Zpos p < 2 ^ Zpos (digits2_pos p).
Proof.
  induction p as [p IH|p IH|]; cbn [digits2_pos]; [| |cbn; lia];
    rewrite Pos2Z.inj_succ;
    replace (Z.succ (Zpos (digits2_pos p)) - 1) with (Z.succ (Zpos (digits2_pos p) - 1)) by lia;
    rewrite !Z.pow_succ_r by lia; lia.
Qed.

Lemma pow2_lt_inv (a b : Z) : 0 <= b -> 2 ^ a < 2 ^ b -> a < b.
Proof.
  intros Hb H. destruct (Z.lt_ge_cases a b) as [|Hge]; [assumption|].
  pose proof (Z.pow_le_mono_r 2 b a ltac:(lia) Hge). lia.
Qed.

Lemma digits2_unique (p : positive) (k : Z) :
  2 ^ (k - 1) <= Zpos p < 2 ^ k -> Zpos (digits2_pos p) = k.
Proof.
  intros [Hlo Hhi]. pose proof (digits2_bounds p) as [Dlo Dhi].
  assert (0 < k).
  { destruct (Z.lt_ge_cases 0 k); [assumption|].
    assert (2 ^ k <= 1).
    { destruct (Z.eq_dec k 0) as [->|]; [cbn; lia|]. rewrite Z.pow_neg_r by lia. lia. }
    lia. }
  assert (k - 1 < Zpos (digits2_pos p)) by (apply pow2_lt_inv; lia).
  assert (Zpos (digits2_pos p) - 1 < k) by (apply pow2_lt_inv; lia).
  lia.
Qed.

Lemma iter_pos_nat {A} (f : A -> A) (p : positive) (x : A) :
  iter_pos f p x = Nat.iter (Pos.to_nat p) f x.
Proof.
  revert x. induction p as [p IH|p IH|]; intros x; cbn [iter_pos].
  - rewrite !IH, Pos2Nat.inj_xI. cbn [Nat.mul]. rewrite Nat.add_0_r.
    rewrite <- Nat.iter_add. now rewrite Nat.iter_succ_r.
  - rewrite !IH, Pos2Nat.inj_xO. cbn [Nat.mul]. rewrite Nat.add_0_r.
    now rewrite <- Nat.iter_add.
  - reflexivity.
Qed.

Lemma shr_1_spec (mrs : shr_record) :
  0 <= shr_m mrs ->
  shr_m (shr_1 mrs) = shr_m mrs / 2 /\ shr_r (shr_1 mrs) = Z.odd (shr_m mrs).
Proof.
  destruct mrs as [m r s]. cbn [shr_m]. intros Hm.
  destruct m as [|[p|p|]|p]; try lia; cbn [shr_1 shr_m shr_r]; split; try reflexivity.
  - rewrite <- Z.div2_div. reflexivity.
  - rewrite <- Z.div2_div. reflexivity.
Qed.

Lemma shr_iter_m (k : nat) (mrs : shr_record) :
  0 <= shr_m mrs ->
  shr_m (Nat.iter k shr_1 mrs) = shr_m mrs / 2 ^ Z.of_nat k.
Proof.
  intros Hm. induction k as [|k IH].
  - cbn. now rewrite Z.div_1_r.
  - change (Nat.iter (S k) shr_1 mrs) with (shr_1 (Nat.iter k shr_1 mrs)).
    assert (H0 : 0 <= shr_m (Nat.iter k shr_1 mrs))
      by (rewrite IH; apply Z.div_pos; [lia | apply Z.pow_pos_nonneg; lia]).
    rewrite (proj1 (shr_1_spec _ H0)), IH, Nat2Z.inj_succ, Z.pow_succ_r by lia.
    rewrite Z.div_div by (try apply Z.pow_pos_nonneg; lia).
    now rewrite Z.mul_comm.
Qed.

Lemma shr_iter_r (k : nat) (mrs : shr_record) :
  0 <= shr_m mrs ->
  shr_r (Nat.iter (S k) shr_1 mrs) = Z.odd (shr_m mrs / 2 ^ Z.of_nat k).
Proof.
  intros Hm. change (Nat.iter (S k) shr_1 mrs) with (shr_1 (Nat.iter k shr_1 mrs)).
  assert (H0 : 0 <= shr_m (Nat.iter k shr_1 mrs))
    by (rewrite shr_iter_m by assumption; apply Z.div_pos;
        [lia | apply Z.pow_pos_nonneg; lia]).
  now rewrite (proj2 (shr_1_spec _ H0)), shr_iter_m.
Qed.

(** What [shr] leaves of a non-negative mantissa. *)
Lemma shr_spec (mrs : shr_record) (e n : Z) :
  0 <= shr_m mrs ->
  (n <= 0 /\ shr mrs e n = (mrs, e))
  \/ (0 < n /\ exists mrs',
         shr mrs e n = (mrs', e + n)
         /\ shr_m mrs' = shr_m mrs / 2 ^ n
         /\ shr_r mrs' = Z.odd (shr_m mrs / 2 ^ (n - 1))).
Proof.
  intros Hm. destruct n as [|p|p]; [left; split; [lia|reflexivity]| |left; split; [lia|reflexivity]].
  right. split; [lia|]. cbn [shr]. eexists. split; [reflexivity|].
  rewrite iter_pos_nat.
  destruct (Pos.to_nat p) as [|k] eqn:Hk; [pose proof (Pos2Nat.is_pos p); lia|].
  assert (Hp : Zpos p = Z.of_nat (S k)) by (rewrite <- Hk; now rewrite positive_nat_Z).
  split.
  - rewrite shr_iter_m by assumption. now rewrite Hp.
  - rewrite shr_iter_r by assumption. rewrite Hp. f_equal. f_equal. f_equal. lia.
Qed.

Lemma round_nearest_even_spec (mrs : shr_record) :
  let m2 := round_nearest_even (shr_m mrs) (loc_of_shr_record mrs) in
  shr_m mrs <= m2 <= shr_m mrs + 1 /\ (m2 = shr_m mrs + 1 -> shr_r mrs = true).
Proof.
  destruct mrs as [m [|] [|]]; cbn; try destruct (Z.even m); split; lia || (intros; reflexivity) || (intros; lia).
Qed.

Lemma fexp_eq (e : Z) : fexp Double.prec Double.emax e = Z.max (e - 53) (-1074).
Proof. reflexivity. Qed.

Lemma binary_round_aux_exact (s : bool) (m : positive) (e : Z) :
  Zpos (digits2_pos m) = 53 -> -1074 <= e <= 971 ->
  binary_round_aux Double.prec Double.emax s (Zpos m) e loc_Exact = S754_finite s m e.
Proof.
  intros Hd He. unfold binary_round_aux, shr_fexp. cbn [Zdigits2].
  rewrite Hd, fexp_eq. replace (Z.max (53 + e - 53) (-1074) - e) with 0 by lia.
  cbn [shr shr_record_of_loc shr_m loc_of_shr_record round_nearest_even Zdigits2].
  rewrite Hd, fexp_eq. replace (Z.max (53 + e - 53) (-1074) - e) with 0 by lia.
  cbn [shr shr_record_of_loc shr_m].
  replace (e <=? Double.emax - Double.prec) with true; [reflexivity|].
  symmetry. apply Z.leb_le. unfold Double.emax, Double.prec. lia.
Qed.

Lemma iter_xO (p d : positive) : Zpos (Pos.iter xO p d) = Zpos p * 2 ^ Zpos d.
Proof.
  induction d as [|d IH] using Pos.peano_ind.
  - cbn [Pos.iter]. rewrite Pos2Z.inj_xO. change (2 ^ 1) with 2. lia.
  - rewrite Pos.iter_succ, Pos2Z.inj_xO, IH, Pos2Z.inj_succ, Z.pow_succ_r by lia. lia.
Qed.

(** The double of [k * 2 ^ e0] for a positive [k] below 2^53, in the
    range of the normal numbers: its 53-bit mantissa and its exponent. *)
Lemma normalize_shape (k : positive) (e0 : Z) :
  Zpos k < 2 ^ 53 -> -1021 <= e0 <= 971 ->
  exists m e,
    binary_normalize Double.prec Double.emax (Zpos k) e0 false = S754_finite false m e
    /\ e0 - 52 <= e <= e0
    /\ Zpos m = Zpos k * 2 ^ (e0 - e)
    /\ 2 ^ 52 <= Zpos m < 2 ^ 53.
Proof.
  intros Hlt He0.
  pose proof (digits2_bounds k) as [Dlo Dhi].
  set (dk := Zpos (digits2_pos k)) in *.
  assert (Hdk : 1 <= dk <= 53).
  { split; [unfold dk; lia|].
    assert (dk - 1 < 53) by (apply pow2_lt_inv; lia). lia. }
  cbn [binary_normalize]. unfold binary_round, shl_align. fold dk.
  rewrite fexp_eq. replace (Z.max (dk + e0 - 53) (-1074) - e0) with (dk - 53) by lia.
  replace (Z.max (dk + e0 - 53) (-1074)) with (dk + e0 - 53) by lia.
  destruct (Z.eq_dec dk 53) as [E53|N53].
  - replace (dk - 53) with 0 by lia. cbv beta iota zeta.
    rewrite binary_round_aux_exact by (fold dk; lia).
    exists k, e0. split; [reflexivity|]. split; [lia|].
    split; [rewrite Z.sub_diag; cbn; lia|].
    rewrite E53 in Dlo, Dhi. change (53 - 1) with 52 in Dlo. lia.
  - destruct (dk - 53) as [|q|d] eqn:Hd; [lia|lia|].
    assert (Hmz : Zpos (Pos.iter xO k d) = Zpos k * 2 ^ (53 - dk)).
    { rewrite iter_xO. f_equal. f_equal. lia. }
    assert (Hbounds : 2 ^ 52 <= Zpos (Pos.iter xO k d) < 2 ^ 53).
    { assert (P52 : 2 ^ 52 = 2 ^ (dk - 1) * 2 ^ (53 - dk))
        by (rewrite <- Z.pow_add_r by lia; f_equal; lia).
      assert (P53 : 2 ^ 53 = 2 ^ dk * 2 ^ (53 - dk))
        by (rewrite <- Z.pow_add_r by lia; f_equal; lia).
      assert (0 < 2 ^ (53 - dk)) by (apply Z.pow_pos_nonneg; lia).
      rewrite Hmz, P52, P53. split; nia. }
    cbv beta iota zeta. rewrite binary_round_aux_exact.
    + exists (Pos.iter xO k d), (dk + e0 - 53). split; [reflexivity|]. split; [lia|].
      split; [|exact Hbounds]. rewrite Hmz. f_equal. f_equal. lia.
    + apply digits2_unique. change (53 - 1) with 52. exact Hbounds.
    + lia.
Qed.

(** The double of a positive length below 2^53. *)
Lemma ofNat_shape (n : nat) :
  (0 < n)%nat -> Z.of_nat n < 2 ^ 53 ->
  exists m e,
    Double.ofNat n = S754_finite false m e
    /\ -52 <= e <= 0
    /\ Zpos m = Z.of_nat n * 2 ^ (- e)
    /\ 2 ^ 52 <= Zpos m < 2 ^ 53.
Proof.
  intros Hn Hlt. unfold Double.ofNat.
  destruct (Z.of_nat n) as [|p|p] eqn:Hp; [lia| |lia].
  destruct (normalize_shape p 0 Hlt ltac:(lia)) as (m & e & Heq & He & Hm & Hb).
  exists m, e. split; [exact Heq|]. split; [lia|]. split; [exact Hm | exact Hb].
Qed.

Lemma shiftl_nonpos (a e : Z) : e <= 0 -> Z.shiftl a e = a / 2 ^ (- e).
Proof.
  intros He. rewrite <- Z.shiftr_div_pow2 by lia. unfold Z.shiftr.
  now rewrite Z.opp_involutive.
Qed.

Lemma pow2_pos (k : Z) : 0 <= k -> 0 < 2 ^ k.
Proof. intros. apply Z.pow_pos_nonneg; lia. Qed.

Lemma floorIs_floor (x : spec_float) (i : Z) : floorIs x i -> Double.floor x = Some i.
Proof.
  intros [[-> ->] | (m & e & -> & He & ->)]; [reflexivity|].
  cbn [Double.floor cond_Zopp]. now rewrite shiftl_nonpos.
Qed.

(** Rounding a positive value between two integers that the format holds:
    the result stays at or above the lower one, and below the upper one unless
    the value is within half a unit in the last place of it. *)
Lemma binary_round_aux_between (M : positive) (E A B : Z) :
  let e1 := Z.max (Zpos (digits2_pos M) + E - 53) (-1074) in
  E <= 0 -> e1 <= 0 -> 0 <= A -> 0 < B < 2 ^ 53 ->
  A * 2 ^ (- E) <= Zpos M < B * 2 ^ (- E) ->
  (E < e1 -> Zpos M + 2 ^ (e1 - E - 1) < B * 2 ^ (- E)) ->
  exists i,
    floorIs (binary_round_aux Double.prec Double.emax false (Zpos M) E loc_Exact) i
    /\ A <= i < B.
Proof.
  intros e1 HE He1 HA HB [HMA HM] Hhalf.
  unfold binary_round_aux, shr_fexp. cbn [Zdigits2]. rewrite fexp_eq. fold e1.
  cbn [shr_record_of_loc].
  (* first shift *)
  assert (Hstage1 :
            exists mrs' e',
              shr {| shr_m := Zpos M; shr_r := false; shr_s := false |} E (e1 - E)
              = (mrs', e')
              /\ e' <= 0
              /\ A * 2 ^ (- e')
                 <= round_nearest_even (shr_m mrs') (loc_of_shr_record mrs')
                 < B * 2 ^ (- e')).
  { destruct (shr_spec {| shr_m := Zpos M; shr_r := false; shr_s := false |} E (e1 - E)
                ltac:(cbn; lia))
      as [[Hs Heq] | [Hs (mrs' & Heq & Hm & Hr)]].
    - do 2 eexists. split; [exact Heq|]. split; [exact HE|]. cbn. lia.
    - do 2 eexists. split; [exact Heq|]. cbn [shr_m] in Hm, Hr.
      replace (E + (e1 - E)) with e1 by lia. split; [exact He1|].
      pose proof (round_nearest_even_spec mrs') as [[Hlo Hhi] Hup]. cbv zeta in Hup.
      set (m2 := round_nearest_even (shr_m mrs') (loc_of_shr_record mrs')) in *.
      set (s := e1 - E) in *.
      assert (Hpow : 2 ^ (- E) = 2 ^ (- e1) * 2 ^ s)
        by (rewrite <- Z.pow_add_r by lia; f_equal; lia).
      assert (Hs1 : 2 ^ s = 2 * 2 ^ (s - 1))
        by (rewrite <- Z.pow_succ_r by lia; f_equal; lia).
      pose proof (pow2_pos (s - 1) ltac:(lia)) as Hp1.
      pose proof (pow2_pos (- e1) ltac:(lia)) as Hp2.
      assert (Hm1 : A * 2 ^ (- e1) <= shr_m mrs').
      { rewrite Hm. apply Z.div_le_lower_bound; [lia|]. nia. }
      split; [lia|].
      specialize (Hhalf ltac:(lia)). fold s in Hhalf.
      destruct (Z.eq_dec m2 (shr_m mrs' + 1)) as [Hplus|Hsame].
      + specialize (Hup Hplus). rewrite Hr in Hup.
        (* the round bit is set *)
        set (q := Zpos M / 2 ^ (s - 1)) in *.
        assert (Hq : shr_m mrs' = q / 2).
        { rewrite Hm, Hs1. unfold q. rewrite Z.mul_comm.
          now rewrite <- Z.div_div by lia. }
        assert (Hodd : q = 2 * (q / 2) + 1).
        { rewrite (Z.div_mod q 2) at 1 by lia. f_equal.
          rewrite Zmod_odd, Hup. reflexivity. }
        assert (HqM : q * 2 ^ (s - 1) <= Zpos M).
        { unfold q. rewrite Z.mul_comm. apply Z.mul_div_le. lia. }
        rewrite Hplus, Hq. nia.
      + assert (m2 = shr_m mrs') by lia.
        assert (shr_m mrs' * 2 ^ s <= Zpos M)
          by (rewrite Hm, Z.mul_comm; apply Z.mul_div_le; lia).
        nia. }
  destruct Hstage1 as (mrs' & e' & -> & He' & Hm2).
  set (m2 := round_nearest_even (shr_m mrs') (loc_of_shr_record mrs')) in *.
  pose proof (pow2_pos (- e') ltac:(lia)) as Hpe'.
  assert (Hm20 : 0 <= m2) by nia.
  (* second shift *)
  set (e2 := fexp Double.prec Double.emax (Zdigits2 m2 + e')).
  assert (He2 : 0 < e2 - e' -> e2 <= 0).
  { intros _. unfold e2. rewrite fexp_eq.
    destruct m2 as [|p2|p2] eqn:Hp2; cbn [Zdigits2]; [lia| |lia].
    pose proof (digits2_bounds p2) as [Dlo _].
    assert (Zpos (digits2_pos p2) - 1 < 53 + - e').
    { apply pow2_lt_inv; [lia|]. rewrite Z.pow_add_r by lia.
      assert (B * 2 ^ (- e') < 2 ^ 53 * 2 ^ (- e')) by nia. lia. }
    lia. }
  assert (Hdiv : A <= m2 / 2 ^ (- e') < B).
  { split; [apply Z.div_le_lower_bound; lia | apply Z.div_lt_upper_bound; lia]. }
  destruct (shr_spec {| shr_m := m2; shr_r := false; shr_s := false |} e' (e2 - e')
              ltac:(cbn; lia))
    as [[Hs Heq] | [Hs (mrs'' & Heq & Hm & _)]];
    rewrite Heq; cbn [shr_m].
  - destruct m2 as [|p2|p2] eqn:Hp2; [|  |lia].
    + exists 0. split; [left; now split|]. rewrite Z.div_0_l in Hdiv by lia. lia.
    + replace (e' <=? Double.emax - Double.prec) with true
        by (symmetry; apply Z.leb_le; unfold Double.emax, Double.prec; lia).
      eexists. split; [right; do 2 eexists; split; [reflexivity|]; split; [exact He'|reflexivity]|].
      exact Hdiv.
  - specialize (He2 Hs). cbn [shr_m] in Hm.
    replace (e' + (e2 - e')) with e2 by lia.
    pose proof (pow2_pos (e2 - e') ltac:(lia)) as Hps.
    pose proof (pow2_pos (- e2) ltac:(lia)) as Hpe2.
    assert (Hm3 : 0 <= shr_m mrs'') by (rewrite Hm; apply Z.div_pos; lia).
    assert (Hsame : shr_m mrs'' / 2 ^ (- e2) = m2 / 2 ^ (- e')).
    { rewrite Hm, Z.div_div by lia. f_equal.
      rewrite <- Z.pow_add_r by lia. f_equal. lia. }
    destruct (shr_m mrs'') as [|p3|p3] eqn:Hp3; [| |lia].
    + exists 0. split; [left; now split|]. rewrite Z.div_0_l in Hsame by lia. lia.
    + replace (e2 <=? Double.emax - Double.prec) with true
        by (symmetry; apply Z.leb_le; unfold Double.emax, Double.prec; lia).
      eexists. split; [right; do 2 eexists; split; [reflexivity|]; split; [exact He2|reflexivity]|].
      rewrite Hsame. exact Hdiv.
Qed.

Lemma isRandom_cases (random : spec_float) :
  Double.isRandom random = true ->
  random = S754_zero false
  \/ exists m e,
      random = S754_finite false m e
      /\ Zpos (digits2_pos m) <= 53 /\ -1074 <= e < 0 /\ Zpos m < 2 ^ (- e).
Proof.
  destruct random as [[|]| | |[|] m e]; cbn [Double.isRandom]; try discriminate;
    [now left|].
  intros H. right. exists m, e. split; [reflexivity|].
  apply andb_prop in H as [H Hlt]. apply andb_prop in H as [Hb He].
  apply Z.ltb_lt in Hlt, He.
  unfold bounded in Hb. apply andb_prop in Hb as [Hc _].
  unfold canonical_mantissa in Hc. apply Z.eqb_eq in Hc. rewrite fexp_eq in Hc.
  lia.
Qed.

(** The index drawn is within the list. *)
Lemma randomIndex_in_range (random : spec_float) (n : nat) :
  Double.isRandom random = true -> (0 < n)%nat -> Z.of_nat n < 2 ^ 53 ->
  exists i,
    floorIs (SFmul 53 1024 random (binary_normalize 53 1024 (Z.of_nat n) 0 false)) i
    /\ 0 <= i < Z.of_nat n.
Proof.
  intros Hr Hn Hlt.
  change (binary_normalize 53 1024 (Z.of_nat n) 0 false) with (Double.ofNat n).
  destruct (ofNat_shape n Hn Hlt) as (mn & en & -> & Hen & Hmn & Hmn53).
  destruct (isRandom_cases random Hr)
    as [-> | (mr & er & -> & Hdr & Her & Hmr)].
  - exists 0. split; [left; now split | lia].
  - cbn [SFmul xorb].
    pose proof (digits2_bounds mr) as [_ Dr].
    pose proof (digits2_bounds (mr * mn)) as [Dlo Dhi].
    set (d := Zpos (digits2_pos (mr * mn))) in *.
    pose proof (pow2_pos (- er) ltac:(lia)) as Hper.
    pose proof (pow2_pos (- en) ltac:(lia)) as Hpen.
    assert (Hpow : 2 ^ (- (er + en)) = 2 ^ (- er) * 2 ^ (- en))
      by (rewrite <- Z.pow_add_r by lia; f_equal; lia).
    assert (Hmr53 : Zpos mr < 2 ^ 53).
    { assert (2 ^ Zpos (digits2_pos mr) <= 2 ^ 53) by (apply Z.pow_le_mono_r; lia). lia. }
    assert (HM : Zpos (mr * mn) = Zpos mr * Zpos mn) by apply Pos2Z.inj_mul.
    assert (Hd : d + (er + en) - 53 <= 0).
    { assert (d - 1 < 53 + - er).
      { apply pow2_lt_inv; [lia|]. rewrite Z.pow_add_r by lia. nia. }
      lia. }
    apply (binary_round_aux_between (mr * mn) (er + en) 0 (Z.of_nat n)); fold d.
    + lia.
    + lia.
    + lia.
    + lia.
    + rewrite HM, Hpow, Hmn. nia.
    + intros Hs. rewrite HM, Hpow.
      assert (Hgap : 2 ^ (Z.max (d + (er + en) - 53) (-1074) - (er + en) - 1) < Zpos mn).
      { destruct (Z.max_spec (d + (er + en) - 53) (-1074)) as [[Hmax Hmx]|[Hmax Hmx]];
          rewrite Hmx in Hs |- *.
        - (* clamped at the smallest exponent *)
          assert (2 ^ (-1074 - (er + en) - 1) < 2 ^ (- en))
            by (apply Z.pow_lt_mono_r; lia).
          nia.
        - replace (d + (er + en) - 53 - (er + en) - 1) with (d - 54) by lia.
          assert (Hd54 : 0 <= d - 54) by lia.
          assert (2 ^ (d - 1) = 2 ^ 53 * 2 ^ (d - 54))
            by (rewrite <- Z.pow_add_r by lia; f_equal; lia).
          pose proof (pow2_pos (d - 54) Hd54). nia. }
      nia.
Qed.

(** Every index of the list is drawn by some value of [Math.random()]. *)
Lemma randomIndex_reaches (n : nat) (i : Z) :
  0 <= i < Z.of_nat n -> Z.of_nat n <= 2 ^ 52 ->
  exists random,
    Double.isRandom random = true
    /\ floorIs (SFmul 53 1024 random (binary_normalize 53 1024 (Z.of_nat n) 0 false)) i.
Proof.
  intros Hi Hn.
  change (binary_normalize 53 1024 (Z.of_nat n) 0 false) with (Double.ofNat n).
  destruct (ofNat_shape n ltac:(lia) ltac:(lia)) as (mn & en & Heq & Hen & Hmn & Hmn53).
  rewrite Heq.
  destruct (Z.eq_dec i 0) as [->|Hi0].
  { exists (S754_zero false). split; [reflexivity|]. left. now split. }
  set (N := Z.of_nat n) in *.
  set (k := (i * 2 ^ 53 + N - 1) / N).
  assert (Hk : i * 2 ^ 53 <= k * N < i * 2 ^ 53 + N).
  { unfold k. pose proof (Z.mul_div_le (i * 2 ^ 53 + N - 1) N ltac:(lia)).
    pose proof (Z.mod_pos_bound (i * 2 ^ 53 + N - 1) N ltac:(lia)).
    pose proof (Z.div_mod (i * 2 ^ 53 + N - 1) N ltac:(lia)). nia. }
  assert (Hk53 : 0 < k < 2 ^ 53) by nia.
  destruct k as [|pk|pk] eqn:Hpk; [lia| |lia].
  destruct (normalize_shape pk (-53) ltac:(lia) ltac:(lia))
    as (mr & er & Hr & Her & Hmr & Hmr53).
  exists (binary_normalize 53 1024 (Zpos pk) (-53) false).
  change (binary_normalize 53 1024) with (binary_normalize Double.prec Double.emax).
  rewrite Hr.
  pose proof (pow2_pos (- er) ltac:(lia)) as Hper.
  pose proof (pow2_pos (- en) ltac:(lia)) as Hpen.
  pose proof (pow2_pos (-53 - er) ltac:(lia)) as Hpc.
  assert (Hper' : 2 ^ (- er) = 2 ^ 53 * 2 ^ (-53 - er))
    by (rewrite <- Z.pow_add_r by lia; f_equal; lia).
  split.
  - cbn [Double.isRandom]. unfold bounded, canonical_mantissa.
    rewrite (digits2_unique mr 53) by (change (53 - 1) with 52; lia).
    rewrite fexp_eq.
    replace (Z.max (53 + er - 53) (-1074) =? er) with true by (symmetry; apply Z.eqb_eq; lia).
    replace (er <=? Double.emax - Double.prec) with true
      by (symmetry; apply Z.leb_le; unfold Double.emax, Double.prec; lia).
    replace (er <? 0) with true by (symmetry; apply Z.ltb_lt; lia).
    cbn [andb]. apply Z.ltb_lt. rewrite Hmr, Hper'. nia.
  - cbn [SFmul xorb].
    pose proof (digits2_bounds (mr * mn)) as [Dlo Dhi].
    set (d := Zpos (digits2_pos (mr * mn))) in *.
    assert (Hpow : 2 ^ (- (er + en)) = 2 ^ (- er) * 2 ^ (- en))
      by (rewrite <- Z.pow_add_r by lia; f_equal; lia).
    assert (HM : Zpos (mr * mn) = Zpos mr * Zpos mn) by apply Pos2Z.inj_mul.
    set (P := 2 ^ (-53 - er) * 2 ^ (- en)) in *.
    assert (HP : 0 < P) by (unfold P; nia).
    assert (HMP : Zpos (mr * mn) = Zpos pk * N * P) by (rewrite HM, Hmr, Hmn; unfold P; ring).
    assert (HEP : 2 ^ (- (er + en)) = 2 ^ 53 * P) by (rewrite Hpow, Hper'; unfold P; ring).
    assert (Hlow : i * (2 ^ 53 * P) <= Zpos pk * N * P) by nia.
    assert (Hupp : Zpos pk * N * P <= (i * 2 ^ 53 + N - 1) * P) by nia.
    assert (Hd : d + (er + en) - 53 <= 0).
    { assert (d - 1 < 53 + - (er + en)).
      { apply pow2_lt_inv; [lia|]. rewrite Z.pow_add_r by lia. rewrite HEP.
        assert (Zpos pk * N * P < 2 ^ 53 * (2 ^ 53 * P)) by nia. lia. }
      lia. }
    destruct (binary_round_aux_between (mr * mn) (er + en) i (i + 1)) as (j & Hj & Hij);
      fold d; try lia.
    + rewrite HMP, HEP. nia.
    + intros Hs. rewrite HMP, HEP.
      replace (Z.max (d + (er + en) - 53) (-1074)) with (d + (er + en) - 53) in * by lia.
      replace (d + (er + en) - 53 - (er + en) - 1) with (d - 54) by lia.
      assert (Hd54 : 0 <= d - 54) by lia.
      assert (2 ^ (d - 1) = 2 ^ 53 * 2 ^ (d - 54))
        by (rewrite <- Z.pow_add_r by lia; f_equal; lia).
      pose proof (pow2_pos (d - 54) Hd54). nia.
    + replace i with j by lia. exact Hj.
Qed.

(** ** The problem catalog *)

Lemma inBand_rating (problem : RandomProblem.Problem) :
  RandomProblem.inBand problem = true <-> ratedInBand problem.
Proof.
  unfold RandomProblem.inBand, ratedInBand, Js.truthy_num,
    RandomProblem.CF_MIN_RATING, RandomProblem.CF_MAX_RATING.
  destruct (RandomProblem.rating problem) as [r|].
  - rewrite !andb_true_iff, negb_true_iff, Z.eqb_neq, !Z.leb_le. split.
    + intros [[_ Hmin] Hmax]. exists r. split; [reflexivity | lia].
    + intros (r' & [= <-] & Hr). lia.
  - split; [discriminate | intros (r & [=] & _)].
Qed.

Lemma inBand_withinBand (problem : RandomProblem.Problem) :
  RandomProblem.inBand problem = withinBand 800 1500 problem.
Proof.
  unfold RandomProblem.inBand, withinBand, Js.truthy_num,
    RandomProblem.CF_MIN_RATING, RandomProblem.CF_MAX_RATING.
  destruct (RandomProblem.rating problem) as [r|]; [|reflexivity].
  destruct (Z.eqb_spec r 0) as [->|]; reflexivity.
Qed.

Lemma filter_inBand (l : list RandomProblem.Problem) :
  Forall ratedInBand (filter RandomProblem.inBand l).
Proof.
  apply Forall_forall. intros x Hx. apply filter_In in Hx. now apply inBand_rating.
Qed.

Lemma fetchCodeforcesProblems_inBand :
  forall (today : Z) (response : Exc RandomProblem.ApiResponse) (today' : Z)
         (st st' : RandomProblem.State) (l : list RandomProblem.Problem),
    cacheInBand st ->
    RandomProblem.fetchCodeforcesProblems today response today' st = (Ok l, st') ->
    Forall ratedInBand l /\ cacheInBand st'.
Proof.
  intros today response today' st st' l Hinv H.
  unfold RandomProblem.fetchCodeforcesProblems in H.
  destruct (RandomProblem.cacheFresh today st) eqn:Hfresh.
  - unfold RandomProblem.cacheFresh in Hfresh.
    destruct (RandomProblem.cfProblemsCache st) as [c|] eqn:Hc; [|discriminate].
    injection H as <- <-. split; [now apply Hinv | exact Hinv].
  - destruct response as [data|e]; cbn [ebind] in H.
    + destruct (negb (RandomProblem.status data =? "OK")%string).
      * destruct (RandomProblem.cfProblemsCache st) as [c|] eqn:Hc; [|discriminate].
        injection H as <- <-. split; [now apply Hinv|].
        intros c' Hc'. cbn in Hc'. apply Hinv. congruence.
      * injection H as <- <-. split; [apply filter_inBand|].
        intros c' [= <-]. apply filter_inBand.
    + destruct (RandomProblem.cfProblemsCache st) as [c|] eqn:Hc; [|discriminate].
      injection H as <- <-. split; [now apply Hinv|].
      intros c' Hc'. cbn in Hc'. apply Hinv. congruence.
Qed.

Lemma randomIndex_floorIs (random : spec_float) (length : nat) (i : Z) :
  floorIs (SFmul 53 1024 random (binary_normalize 53 1024 (Z.of_nat length) 0 false)) i ->
  RandomProblem.randomIndex random length = Some i.
Proof. intros H. exact (floorIs_floor _ _ H). Qed.

Lemma describe_builtFrom (problem : RandomProblem.Problem) :
  builtFrom problem (RandomProblem.describe problem).
Proof. repeat split. Qed.

(** The element a draw selects in a list that is not empty. *)
Lemma draw_selects :
  forall (today : Z) (response : Exc RandomProblem.ApiResponse) (today' : Z)
         (random : spec_float) (st st' : RandomProblem.State)
         (l : list RandomProblem.Problem) (i : Z) (problem : RandomProblem.Problem),
    RandomProblem.fetchCodeforcesProblems today response today' st = (Ok l, st') ->
    floorIs (SFmul 53 1024 random
               (binary_normalize 53 1024 (Z.of_nat (List.length l)) 0 false)) i ->
    0 <= i ->
    nth_error l (Z.to_nat i) = Some problem ->
    RandomProblem.getRandomCodeforcesProblem today response today' random st
    = (Ok (RandomProblem.describe problem), st').
Proof.
  intros today response today' random st st' l i problem Hf Hfl Hi Hnth.
  unfold RandomProblem.getRandomCodeforcesProblem. rewrite Hf.
  destruct l as [|p0 l]; [destruct (Z.to_nat i); discriminate|].
  rewrite (randomIndex_floorIs _ _ _ Hfl). unfold RandomProblem.element.
  apply Z.leb_le in Hi. now rewrite Hi, Hnth.
Qed.

(** C8. The catalog of the bulk-listing backend.  (1) While the cache is
    fresh the cached list is returned and nothing is requested.  (2) Otherwise
    a request is sent; of an OK answer exactly the problems rated 800..1500 are
    kept, in their order, returned, and cached with the time of writing.
    (3) A cache written at a time [ts] is fresh exactly at the times less than
    one hour after [ts].  (4) When the request fails or the answer is not OK,
    the stale cache is returned if there is one and the failure is thrown
    otherwise.  (5) On a list that is not empty a draw returns the problem at
    the index [Math.floor(Math.random() * length)], the product being the one
    of binary64: the index is within the list for every value of
    [Math.random()].  (6) On an empty list, and when the list cannot be had,
    the draw throws.  (7) Every problem of the list is returned for some
    value of [Math.random()].  (8) Every problem returned has a rating inside
    the band, the cache holding in-band problems only.  An array has fewer
    than 2^32 elements, so the bounds on the length always hold. *)
Theorem catalog_cache_and_band :
  (forall today response today' st,
      RandomProblem.cacheFresh today st = true ->
      exists c, RandomProblem.cfProblemsCache st = Some c
                /\ RandomProblem.fetchCodeforcesProblems today response today' st
                   = (Ok c, st))
  /\ (forall today data today' st,
         RandomProblem.cacheFresh today st = false ->
         RandomProblem.status data = "OK" ->
         exists fetched,
           RandomProblem.fetchCodeforcesProblems today (Ok data) today' st
           = (Ok fetched,
              {| RandomProblem.cfProblemsCache := Some fetched;
                 RandomProblem.cfCacheTimestamp := Some today';
                 RandomProblem.requests := S (RandomProblem.requests st) |})
           /\ fetched = filter (withinBand 800 1500) (RandomProblem.problems data)
           /\ forall problem,
               In problem fetched
               <-> In problem (RandomProblem.problems data)
                   /\ exists r, RandomProblem.rating problem = Some r /\ 800 <= r <= 1500)
  /\ (forall st c ts t,
         RandomProblem.cfProblemsCache st = Some c ->
         RandomProblem.cfCacheTimestamp st = Some ts ->
         ts <> 0 ->
         (RandomProblem.cacheFresh t st = true <-> t - ts < 3600000))
  /\ (forall today response today' st,
         RandomProblem.cacheFresh today st = false ->
         (forall data, response = Ok data -> RandomProblem.status data <> "OK") ->
         let sent := {| RandomProblem.cfProblemsCache := RandomProblem.cfProblemsCache st;
                        RandomProblem.cfCacheTimestamp := RandomProblem.cfCacheTimestamp st;
                        RandomProblem.requests := S (RandomProblem.requests st) |} in
         match RandomProblem.cfProblemsCache st with
         | Some stale =>
             RandomProblem.fetchCodeforcesProblems today response today' st = (Ok stale, sent)
         | None =>
             exists e,
               RandomProblem.fetchCodeforcesProblems today response today' st = (Throw e, sent)
               /\ (forall e', response = Throw e' -> e = e')
         end)
  /\ (forall today response today' random st st' l,
         RandomProblem.fetchCodeforcesProblems today response today' st = (Ok l, st') ->
         l <> [] ->
         Z.of_nat (List.length l) < 2 ^ 53 ->
         Double.isRandom random = true ->
         exists i problem picked,
           floorIs (SFmul 53 1024 random
                      (binary_normalize 53 1024 (Z.of_nat (List.length l)) 0 false)) i
           /\ 0 <= i < Z.of_nat (List.length l)
           /\ nth_error l (Z.to_nat i) = Some problem
           /\ RandomProblem.getRandomCodeforcesProblem today response today' random st
              = (Ok picked, st')
           /\ builtFrom problem picked)
  /\ (forall today response today' random st st',
         (RandomProblem.fetchCodeforcesProblems today response today' st = (Ok [], st') ->
          RandomProblem.getRandomCodeforcesProblem today response today' random st
          = (Throw "No Codeforces problems available", st'))
         /\ (forall e,
                RandomProblem.fetchCodeforcesProblems today response today' st
                = (Throw e, st') ->
                RandomProblem.getRandomCodeforcesProblem today response today' random st
                = (Throw e, st')))
  /\ (forall today response today' st st' l problem,
         RandomProblem.fetchCodeforcesProblems today response today' st = (Ok l, st') ->
         In problem l ->
         Z.of_nat (List.length l) <= 2 ^ 52 ->
         exists random picked,
           Double.isRandom random = true
           /\ RandomProblem.getRandomCodeforcesProblem today response today' random st
              = (Ok picked, st')
           /\ builtFrom problem picked)
  /\ (forall today response today' random st picked st',
         cacheInBand st ->
         RandomProblem.getRandomCodeforcesProblem today response today' random st
         = (Ok picked, st') ->
         cacheInBand st'
         /\ exists r, RandomProblem.p_rating picked = Some r /\ 800 <= r <= 1500)
  /\ cacheInBand RandomProblem.initial.
Proof.
  repeat apply conj.
  - intros today response today' st Hfresh.
    unfold RandomProblem.fetchCodeforcesProblems. rewrite Hfresh.
    unfold RandomProblem.cacheFresh in Hfresh.
    destruct (RandomProblem.cfProblemsCache st) as [c|]; [|discriminate].
    now exists c.
  - intros today data today' st Hfresh Hok.
    unfold RandomProblem.fetchCodeforcesProblems. rewrite Hfresh. cbn [ebind].
    rewrite Hok. change ("OK" =? "OK")%string with true. cbn [negb].
    eexists. split; [reflexivity|].
    assert (Hsame : filter RandomProblem.inBand (RandomProblem.problems data)
                    = filter (withinBand 800 1500) (RandomProblem.problems data))
      by (apply filter_ext; intros a; apply inBand_withinBand).
    split; [exact Hsame|].
    intros problem. rewrite filter_In, inBand_rating. reflexivity.
  - intros st c ts t Hc Hts Hnz.
    unfold RandomProblem.cacheFresh, Js.truthy_num, RandomProblem.CF_CACHE_DURATION.
    rewrite Hc, Hts. apply Z.eqb_neq in Hnz. rewrite Hnz. cbn [negb andb].
    apply Z.ltb_lt.
  - intros today response today' st Hfresh Hbad sent.
    unfold RandomProblem.fetchCodeforcesProblems. rewrite Hfresh.
    destruct response as [data|e]; cbn [ebind].
    + specialize (Hbad data eq_refl). apply String.eqb_neq in Hbad. rewrite Hbad.
      cbn [negb].
      destruct (RandomProblem.cfProblemsCache st); [reflexivity|].
      eexists. split; [reflexivity | discriminate].
    + destruct (RandomProblem.cfProblemsCache st); [reflexivity|].
      exists e. split; [reflexivity | now intros e' [= ->]].
  - intros today response today' random st st' l Hf Hne Hlen Hr.
    assert (Hpos : (0 < List.length l)%nat) by (destruct l; [congruence | cbn; lia]).
    destruct (randomIndex_in_range random (List.length l) Hr Hpos Hlen) as (i & Hfl & Hi).
    destruct (nth_error l (Z.to_nat i)) as [problem|] eqn:Hnth;
      [|apply nth_error_None in Hnth; lia].
    exists i, problem, (RandomProblem.describe problem).
    split; [exact Hfl|]. split; [exact Hi|]. split; [exact Hnth|].
    split; [|apply describe_builtFrom].
    apply (draw_selects _ _ _ _ _ _ l i); [exact Hf | exact Hfl | lia | exact Hnth].
  - intros today response today' random st st'. split.
    + intros Hf. unfold RandomProblem.getRandomCodeforcesProblem. now rewrite Hf.
    + intros e Hf. unfold RandomProblem.getRandomCodeforcesProblem. now rewrite Hf.
  - intros today response today' st st' l problem Hf Hin Hlen.
    destruct (In_nth_error _ _ Hin) as [k Hk].
    assert (Hklt : (k < List.length l)%nat) by (apply nth_error_Some; congruence).
    destruct (randomIndex_reaches (List.length l) (Z.of_nat k) ltac:(lia) Hlen)
      as (random & Hr & Hfl).
    exists random, (RandomProblem.describe problem).
    split; [exact Hr|]. split; [|apply describe_builtFrom].
    apply (draw_selects _ _ _ _ _ _ l (Z.of_nat k)); [exact Hf | exact Hfl | lia|].
    now rewrite Nat2Z.id.
  - intros today response today' random st picked st' Hinv H.
    unfold RandomProblem.getRandomCodeforcesProblem in H.
    destruct (RandomProblem.fetchCodeforcesProblems today response today' st)
      as [[l|e] st1] eqn:Hf; [|discriminate].
    destruct (fetchCodeforcesProblems_inBand _ _ _ _ _ _ Hinv Hf) as [Hl Hinv1].
    destruct l as [|p0 l]; [discriminate|].
    destruct (RandomProblem.element (p0 :: l) _) as [problem|] eqn:He; [|discriminate].
    injection H as <- <-. split; [exact Hinv1|].
    unfold RandomProblem.element in He.
    destruct (RandomProblem.randomIndex random _) as [i|]; [|discriminate].
    destruct (0 <=? i); [|discriminate].
    apply nth_error_In in He.
    rewrite Forall_forall in Hl. exact (Hl _ He).
  - intros c Hc. discriminate.
Qed.

(** ** The minimum-spacing gate *)

Section Gate.

Variable REQUEST_DELAY : Z.

(** A timer does not fire before its delay has passed. *)
Variable setTimeout : Z -> Z -> Z.
Hypothesis timer_not_early : forall t delay, t + delay <= setTimeout t delay.

(** A call is let through at least [REQUEST_DELAY] after the
    [lastRequestTime] it read. *)
Lemma respectRateLimit_waits (now now' last : Z) :
  now <= now' ->
  REQUEST_DELAY <= RateLimit.respectRateLimit REQUEST_DELAY setTimeout now now' last - last.
Proof.
  intros Hmono. unfold RateLimit.respectRateLimit, RateLimit.waitNeeded.
  destruct (Z.ltb_spec (now - last) REQUEST_DELAY) as [Hlt|Hge].
  - pose proof (timer_not_early now (REQUEST_DELAY - (now - last))). lia.
  - lia.
Qed.

(** On a loop with no call suspended, the events of one call leave the
    instant computed by [respectRateLimit] in [lastRequestTime] and on top of
    [released]. *)
Lemma run_callEvents (l : RateLimit.Loop) (now now' : Z) :
  RateLimit.sleeping l = [] ->
  RateLimit.run REQUEST_DELAY l
    (RateLimit.callEvents REQUEST_DELAY setTimeout now now' (RateLimit.lastRequestTime l))
  = {| RateLimit.lastRequestTime :=
         RateLimit.respectRateLimit REQUEST_DELAY setTimeout now now'
                                    (RateLimit.lastRequestTime l);
       RateLimit.sleeping := [];
       RateLimit.released :=
         RateLimit.respectRateLimit REQUEST_DELAY setTimeout now now'
                                    (RateLimit.lastRequestTime l)
         :: RateLimit.released l |}.
Proof.
  intros Hs. unfold RateLimit.callEvents, RateLimit.respectRateLimit.
  destruct (RateLimit.waitNeeded REQUEST_DELAY now (RateLimit.lastRequestTime l))
    as [delay|] eqn:Hw; unfold RateLimit.run; simpl; rewrite Hw, Hs; simpl.
  - pose proof (timer_not_early now delay) as Ht. apply Z.leb_le in Ht. rewrite Ht.
    cbn [RateLimit.remove_first]. rewrite Z.eqb_refl. reflexivity.
  - reflexivity.
Qed.

End Gate.

(** C9. Three calls that overlap in the Codeforces gate: the two that wait
    are resumed at the same instant and their requests go out 0 ms apart, so
    the released requests are not spaced by the 250 ms of [REQUEST_DELAY]. *)
Theorem overlapping_calls_not_spaced :
  RateLimit.released
    (RateLimit.run RateLimit.CODEFORCES_REQUEST_DELAY RateLimit.initial overlappingCalls)
  = [1250; 1250; 1000]
  /\ RateLimit.spaced RateLimit.CODEFORCES_REQUEST_DELAY
       (RateLimit.released
          (RateLimit.run RateLimit.CODEFORCES_REQUEST_DELAY RateLimit.initial
                         overlappingCalls))
     = false.
Proof. split; reflexivity. Qed.

(** Calls that do not overlap.  With timers that do not fire early, a call
    of the gate is let through at least the minimum spacing after the
    [lastRequestTime] it read; so of two calls to one service of which the
    second starts when the first has recorded its time, the second is let
    through at least 250 ms (Codeforces) or 500 ms (CodeChef) after the first,
    and the instants released by such calls are spaced. *)
Lemma gate_spaces_sequential_calls :
  forall (setTimeout : Z -> Z -> Z),
    (forall t delay, t + delay <= setTimeout t delay) ->
    forall (REQUEST_DELAY last now1 now1' now2 now2' : Z),
      now1 <= now1' ->
      RateLimit.respectRateLimit REQUEST_DELAY setTimeout now1 now1' last <= now2 ->
      now2 <= now2' ->
      let t1 := RateLimit.respectRateLimit REQUEST_DELAY setTimeout now1 now1' last in
      let t2 := RateLimit.respectRateLimit REQUEST_DELAY setTimeout now2 now2' t1 in
      REQUEST_DELAY <= t1 - last
      /\ REQUEST_DELAY <= t2 - t1
      /\ (REQUEST_DELAY = RateLimit.CODEFORCES_REQUEST_DELAY -> 250 <= t2 - t1)
      /\ (REQUEST_DELAY = RateLimit.CODECHEF_REQUEST_DELAY -> 500 <= t2 - t1)
      /\ RateLimit.run REQUEST_DELAY
           {| RateLimit.lastRequestTime := last; RateLimit.sleeping := [];
              RateLimit.released := [] |}
           (RateLimit.callEvents REQUEST_DELAY setTimeout now1 now1' last
            ++ RateLimit.callEvents REQUEST_DELAY setTimeout now2 now2' t1)
         = {| RateLimit.lastRequestTime := t2; RateLimit.sleeping := [];
              RateLimit.released := [t2; t1] |}
      /\ RateLimit.spaced REQUEST_DELAY [t2; t1] = true.
Proof.
  intros setTimeout Htimer REQUEST_DELAY last now1 now1' now2 now2' H1 H12 H2 t1 t2.
  assert (Ht1 : REQUEST_DELAY <= t1 - last)
    by (apply respectRateLimit_waits; assumption).
  assert (Ht2 : REQUEST_DELAY <= t2 - t1)
    by (apply respectRateLimit_waits; assumption).
  split; [exact Ht1|]. split; [exact Ht2|].
  split; [unfold RateLimit.CODEFORCES_REQUEST_DELAY; lia|].
  split; [unfold RateLimit.CODECHEF_REQUEST_DELAY; lia|].
  split.
  - pose proof (run_callEvents REQUEST_DELAY setTimeout Htimer
                  {| RateLimit.lastRequestTime := last; RateLimit.sleeping := [];
                     RateLimit.released := [] |} now1 now1' eq_refl) as E1.
    pose proof (run_callEvents REQUEST_DELAY setTimeout Htimer
                  {| RateLimit.lastRequestTime := t1; RateLimit.sleeping := [];
                     RateLimit.released := [t1] |} now2 now2' eq_refl) as E2.
    cbn [RateLimit.lastRequestTime RateLimit.released] in E1, E2.
    unfold RateLimit.run in E1, E2 |- *.
    rewrite fold_left_app, E1. exact E2.
  - cbn [RateLimit.spaced]. apply Z.leb_le in Ht2. rewrite Ht2. reflexivity.
Qed.

(** ** A session on problem 1000A, run on concrete worlds *)




Lemma verify_save_failure_is_distinct_witness :
  exists out w',
    Verify.processPending
      (demoEnv [scenarioSubmission "a" "COMPILATION_ERROR" 1700000005] createLinkedFails)
      "42" "7" demoPending (demoWorld (scenarioStart + 60000)) = (Ok out, w')
    /\ Verify.success out = false
    /\ Verify.message out = "Verification successful but failed to save: connection refused"
    /\ Verify.pending_verifications (Verify.store w') = [demoPending].
Proof.
  edestruct (verify_save_failure_is_distinct
               (demoEnv [scenarioSubmission "a" "COMPILATION_ERROR" 1700000005]
                        createLinkedFails)
               "42" "7" demoPending (demoWorld (scenarioStart + 60000)))
    as (out & w' & Hr & Hs & Hm & Hst & _).
  - vm_compute. discriminate.
  - reflexivity.
  - reflexivity.
  - reflexivity.
  - exists out, w'. split; [exact Hr|]. split; [exact Hs|].
    split; [exact Hm|]. rewrite Hst. reflexivity.
Defined.

Lemma verify_not_yet_leaves_session_witness :
  exists out w1,
    Verify.processPending
      (demoEnv [scenarioSubmission "A" "WRONG_ANSWER" 1700000005] noFailure)
      "42" "7" demoPending (demoWorld (scenarioStart + 60000)) = (Ok out, w1)
    /\ Verify.pending_verifications (Verify.store w1) = [demoPending]
    /\ Verify.success out = false
    /\ Verify.message out
       = Codeforces.mismatchMessage (scenarioSubmission "A" "WRONG_ANSWER" 1700000005)
    /\ Verify.timeRemaining out = Some "8m 59s".
Proof.
  edestruct (verify_not_yet_leaves_session
               (demoEnv [scenarioSubmission "A" "WRONG_ANSWER" 1700000005] noFailure)
               "42" "7" demoPending (demoWorld (scenarioStart + 60000)))
    as (out & Hr & Hst & Hs & Hm & _ & Ht & _).
  - vm_compute. discriminate.
  - reflexivity.
  - reflexivity.
  - eexists. eexists. split; [exact Hr|]. split; [rewrite Hst; reflexivity|].
    split; [exact Hs|]. split; [exact Hm | exact Ht].
Defined.

Lemma link_supersedes_prior_session_witness :
  exists problem1 expiresAt1 w1 problem2 expiresAt2 w2 s1 s2,
    Verify.handleLinkCodeforces (demoEnv [] noFailure) "tourist" "42" "7"
                                (demoWorld scenarioStart)
    = (Ok (Verify.Challenge problem1 expiresAt1), w1)
    /\ Verify.handleLinkCodeforces (demoEnv [] noFailure) "tourist" "42" "7" w1
       = (Ok (Verify.Challenge problem2 expiresAt2), w2)
    /\ filter (Verify.hasKey "42" "7" "codeforces")
              (Verify.pending_verifications (Verify.store w1)) = [s1]
    /\ filter (Verify.hasKey "42" "7" "codeforces")
              (Verify.pending_verifications (Verify.store w2)) = [s2]
    /\ ~ In s1 (Verify.pending_verifications (Verify.store w2)).
Proof.
  edestruct (link_supersedes_prior_session
               (demoEnv [] noFailure) (demoEnv [] noFailure)
               "tourist" "tourist" "42" "7" (demoWorld scenarioStart))
    as (s1 & s2 & H1 & H2 & _ & _ & Hgone & _).
  - lazy. reflexivity.
  - lazy. reflexivity.
  - do 6 eexists. exists s1, s2.
    split; [lazy; reflexivity|]. split; [lazy; reflexivity|].
    split; [exact H1|]. split; [exact H2 | exact Hgone].
Defined.

Example gate_spaces_sequential_calls_at_1000 :
  250 <= RateLimit.respectRateLimit 250 (fun t delay => t + delay) 1100 1100
           (RateLimit.respectRateLimit 250 (fun t delay => t + delay) 1000 1000 0)
         - RateLimit.respectRateLimit 250 (fun t delay => t + delay) 1000 1000 0.
Proof.
  refine (proj1 (proj2 (gate_spaces_sequential_calls (fun t delay => t + delay) _
                          250 0 1000 1000 1100 1100 _ _ _))).
  - intros t delay. apply Z.le_refl.
  - vm_compute. discriminate.
  - vm_compute. discriminate.
  - vm_compute. discriminate.
Defined.

(** * Further properties of the sources *)

(** ** Time utilities *)

Lemma string_of_N_starts_with_digit (n : N) :
  exists d rest, Js.string_of_N n = String d rest /\ Js.is_digit d = true.
Proof.
  pose proof (string_of_N_nonempty n) as Hne.
  pose proof (string_of_N_digits n) as Hd.
  destruct (Js.string_of_N n) as [|d rest]; [congruence|].
  exists d, rest. split; [reflexivity|].
  simpl in Hd. now apply andb_true_iff in Hd as [Hd _].
Qed.

Lemma getRemainingTime_positive (today expiresAt : Z) :
  today < expiresAt ->
  Time.getRemainingTime today expiresAt
  = {| Time.minutes := (expiresAt - today) / 60000;
       Time.seconds := ((expiresAt - today) mod 60000) / 1000;
       Time.formatted :=
         Js.string_of_Z ((expiresAt - today) / 60000) ++ "m "
           ++ Js.string_of_Z (((expiresAt - today) mod 60000) / 1000) ++ "s" |}.
Proof.
  intros H. unfold Time.getRemainingTime.
  destruct (Z.leb_spec (expiresAt - today) 0); [lia | reflexivity].
Qed.

Lemma getRemainingTime_over (today expiresAt : Z) :
  expiresAt <= today ->
  Time.getRemainingTime today expiresAt
  = {| Time.minutes := 0; Time.seconds := 0; Time.formatted := "Expired" |}.
Proof.
  intros H. unfold Time.getRemainingTime.
  destruct (Z.leb_spec (expiresAt - today) 0); [reflexivity | lia].
Qed.

(** X1. Before the expiry, the minutes and seconds of the remaining time
    are the remaining milliseconds rounded down to the second: seconds stay
    within 0..59, nothing is negative, and less than one second is lost. *)
Theorem remaining_time_decomposition :
  forall today expiresAt : Z,
    today < expiresAt ->
    let r := Time.getRemainingTime today expiresAt in
    0 <= Time.minutes r
    /\ 0 <= Time.seconds r <= 59
    /\ Time.minutes r * 60000 + Time.seconds r * 1000 <= expiresAt - today
    /\ expiresAt - today < Time.minutes r * 60000 + Time.seconds r * 1000 + 1000
    /\ Time.formatted r
       = Js.string_of_Z (Time.minutes r) ++ "m " ++ Js.string_of_Z (Time.seconds r) ++ "s".
Proof.
  intros today expiresAt H r. unfold r.
  rewrite (getRemainingTime_positive today expiresAt H).
  cbn [Time.minutes Time.seconds Time.formatted].
  set (d := expiresAt - today).
  assert (Hd : 0 < d) by (unfold d; lia).
  pose proof (Z.div_mod d 60000 ltac:(lia)) as H1.
  pose proof (Z.mod_pos_bound d 60000 ltac:(lia)) as H2.
  pose proof (Z.div_mod (d mod 60000) 1000 ltac:(lia)) as H3.
  pose proof (Z.mod_pos_bound (d mod 60000) 1000 ltac:(lia)) as H4.
  assert (0 <= d / 60000) by (apply Z.div_pos; lia).
  assert (0 <= (d mod 60000) / 1000) by (apply Z.div_pos; lia).
  assert ((d mod 60000) / 1000 <= 59).
  { apply Z.lt_succ_r. apply Z.div_lt_upper_bound; lia. }
  repeat split; try lia.
Qed.

Lemma remaining_time_decomposition_witness :
  Time.minutes (Time.getRemainingTime 1000 541500) = 9
  /\ Time.seconds (Time.getRemainingTime 1000 541500) = 0
  /\ 541500 - 1000 < 9 * 60000 + 0 * 1000 + 1000.
Proof.
  pose proof (remaining_time_decomposition 1000 541500 ltac:(vm_compute; reflexivity))
    as (_ & _ & _ & H & _).
  split; [reflexivity|]. split; [reflexivity|]. exact H.
Defined.

(** X2. The word "Expired" is the remaining time exactly when the expiry
    is not in the future, and a time that [isExpired] calls expired always
    reads "Expired"; at the very instant of expiry the two differ: the
    remaining time reads "Expired" while [isExpired] still answers false. *)
Theorem expired_word_and_isExpired :
  forall today expiresAt : Z,
    (Time.formatted (Time.getRemainingTime today expiresAt) = "Expired"
     <-> expiresAt <= today)
    /\ (Time.isExpired today expiresAt = true <-> expiresAt < today)
    /\ (Time.isExpired today expiresAt = true ->
        Time.formatted (Time.getRemainingTime today expiresAt) = "Expired")
    /\ Time.isExpired expiresAt expiresAt = false
    /\ Time.formatted (Time.getRemainingTime expiresAt expiresAt) = "Expired".
Proof.
  intros today expiresAt.
  assert (Hword : Time.formatted (Time.getRemainingTime today expiresAt) = "Expired"
                  <-> expiresAt <= today).
  { split.
    - intros H. destruct (Z.le_gt_cases expiresAt today) as [Hle|Hgt]; [exact Hle|].
      exfalso. rewrite (getRemainingTime_positive today expiresAt Hgt) in H.
      cbn [Time.formatted] in H.
      assert (Hm : 0 <= (expiresAt - today) / 60000) by (apply Z.div_pos; lia).
      unfold Js.string_of_Z in H.
      destruct (Z.ltb_spec ((expiresAt - today) / 60000) 0); [lia|].
      destruct (string_of_N_starts_with_digit (Z.to_N ((expiresAt - today) / 60000)))
        as (d & rest & E & Hd).
      rewrite E in H. simpl in H. injection H as -> _. discriminate.
    - intros Hle. now rewrite (getRemainingTime_over today expiresAt Hle). }
  split; [exact Hword|].
  split; [apply Z.ltb_lt|].
  split.
  - intros H. apply Z.ltb_lt in H. apply Hword. lia.
  - split; [apply Z.ltb_irrefl|].
    now rewrite (getRemainingTime_over expiresAt expiresAt (Z.le_refl _)).
Qed.

(** X3. The expiry [getExpirationTime] computes is the current time plus
    the minutes, moved back by the difference between the offset by which the
    local time of the expiry is read and the offset of the time zone now.
    Where the two offsets agree (a host in UTC, no change of the clocks in
    between), an expiry computed for a positive number of minutes is not
    expired when computed, shows exactly that many minutes and zero seconds,
    and is expired at the times after it and at no other, and one computed for
    a negative number of minutes is expired from the start.  In general the
    expiry is already expired when computed exactly when the offset read back
    exceeds the offset now by more than the minutes, as in the repeated hour
    at the end of daylight saving time. *)
Theorem fresh_expiration_window :
  forall (tz : Time.TimeZone) (today minutes : Z),
    Time.getExpirationTime tz today minutes
    = today + minutes * 60000
      - (Time.offsetOfLocal tz (today + Time.offsetAt tz today + minutes * 60000)
         - Time.offsetAt tz today)
    /\ (Time.offsetOfLocal tz (today + Time.offsetAt tz today + minutes * 60000)
        = Time.offsetAt tz today ->
        (0 < minutes ->
         Time.isExpired today (Time.getExpirationTime tz today minutes) = false
         /\ Time.minutes
              (Time.getRemainingTime today (Time.getExpirationTime tz today minutes))
            = minutes
         /\ Time.seconds
              (Time.getRemainingTime today (Time.getExpirationTime tz today minutes))
            = 0
         /\ Time.formatted
              (Time.getRemainingTime today (Time.getExpirationTime tz today minutes))
            = Js.string_of_Z minutes ++ "m 0s")
        /\ (forall t, Time.isExpired t (Time.getExpirationTime tz today minutes) = true
                      <-> today + minutes * 60000 < t)
        /\ (minutes < 0 ->
            Time.isExpired today (Time.getExpirationTime tz today minutes) = true))
    /\ (Time.isExpired today (Time.getExpirationTime tz today minutes) = true
        <-> minutes * 60000
            < Time.offsetOfLocal tz (today + Time.offsetAt tz today + minutes * 60000)
              - Time.offsetAt tz today).
Proof.
  intros tz today minutes. unfold Time.getExpirationTime, Time.isExpired. cbv zeta.
  set (back := Time.offsetOfLocal tz (today + Time.offsetAt tz today + minutes * 60000)).
  split; [lia|]. split.
  - intros Hsame. rewrite Hsame.
    replace (today + Time.offsetAt tz today + minutes * 60000 - Time.offsetAt tz today)
      with (today + minutes * 60000) by lia.
    split; [|split].
    + intros Hm.
      rewrite (getRemainingTime_positive today (today + minutes * 60000)) by lia.
      cbn [Time.minutes Time.seconds Time.formatted].
      replace (today + minutes * 60000 - today) with (minutes * 60000) by lia.
      rewrite Z.div_mul by lia. rewrite Z.mod_mul by lia.
      split; [apply Z.ltb_ge; lia|]. repeat split; reflexivity.
    + intros t. apply Z.ltb_lt.
    + intros Hm. apply Z.ltb_lt. lia.
  - rewrite Z.ltb_lt. lia.
Qed.

(** At 02:30 local time, in the hour that the end of daylight saving time
    repeats, an expiry asked for ten minutes ahead lies fifty minutes back. *)
Example expiry_in_the_repeated_hour :
  Time.getExpirationTime europeAutumn2023 1698543000000 10 = 1698543000000 - 3000000
  /\ Time.isExpired 1698543000000
                    (Time.getExpirationTime europeAutumn2023 1698543000000 10) = true.
Proof. split; reflexivity. Qed.

(** X4. Times in seconds.  The current Unix time, turned back into a date,
    is at most 999 ms before now; a submission stamped with the second of any
    instant at or after the start is accepted by [isSubmissionAfterStart]; and
    a submission it accepts was sent less than one second before the start at
    the earliest. *)
Theorem unix_seconds_and_start :
  (forall today,
      UnixTime.fromUnixTimestamp (UnixTime.getCurrentUnixTimestamp today) <= today
      /\ today < UnixTime.fromUnixTimestamp (UnixTime.getCurrentUnixTimestamp today) + 1000)
  /\ (forall seconds,
         UnixTime.getCurrentUnixTimestamp (UnixTime.fromUnixTimestamp seconds) = seconds)
  /\ (forall sent startedAt,
         startedAt <= sent ->
         Time.isSubmissionAfterStart (UnixTime.getCurrentUnixTimestamp sent) startedAt = true)
  /\ (forall seconds startedAt,
         Time.isSubmissionAfterStart seconds startedAt = true ->
         startedAt < UnixTime.fromUnixTimestamp seconds + 1000).
Proof.
  unfold UnixTime.fromUnixTimestamp, UnixTime.getCurrentUnixTimestamp,
    Time.isSubmissionAfterStart, Time.startTimestamp.
  split; [|split; [|split]].
  - intros today.
    pose proof (Z.div_mod today 1000 ltac:(lia)).
    pose proof (Z.mod_pos_bound today 1000 ltac:(lia)). lia.
  - intros seconds. apply Z.div_mul. lia.
  - intros sent startedAt H. apply Z.leb_le. apply Z.div_le_mono; lia.
  - intros seconds startedAt H. apply Z.leb_le in H.
    pose proof (Z.div_mod startedAt 1000 ltac:(lia)).
    pose proof (Z.mod_pos_bound startedAt 1000 ltac:(lia)). lia.
Qed.

(** ** The Codeforces requests *)

Lemma includes_truthy (s : string) (c : ascii) (needle : string) :
  Js.includes s (String c needle) = true -> Js.truthy_string s = true.
Proof. destruct s; [discriminate | reflexivity]. Qed.

Lemma orElse_includes (v : string) (d needle : string) (c : ascii) :
  Js.includes v (String c needle) = true ->
  CodeforcesApi.orElse (Some v) d = v.
Proof.
  intros H. unfold CodeforcesApi.orElse. now rewrite (includes_truthy v c needle H).
Qed.

Lemma userNotFound_includes (username : string) :
  Js.includes (CodeforcesApi.userNotFound username) "not found" = true.
Proof.
  unfold CodeforcesApi.userNotFound.
  apply includes_skip, includes_skip, includes_skip, includes_skip.
  change " not found" with (" " ++ "not found").
  apply includes_skip. change "not found" with ("not found" ++ EmptyString) at 1.
  apply includes_here.
Qed.

(** What [makeRequest] throws decides what [validateUser] answers. *)
Lemma validateUser_cases (req : string -> CodeforcesApi.AxiosError
                                 + CodeforcesApi.Envelope (list CodeforcesApi.RawUser))
      (username : string) :
  match CodeforcesApi.makeRequest (req username) with
  | Ok _ => CodeforcesApi.validateUser req username = Ok true
  | Throw m =>
      if Js.includes m "not found"
      then CodeforcesApi.validateUser req username = Ok false
      else CodeforcesApi.validateUser req username = Throw m
  end.
Proof.
  unfold CodeforcesApi.validateUser.
  destruct (CodeforcesApi.makeRequest (req username)) as [r|m]; [reflexivity|].
  destruct (Js.includes m "not found"); reflexivity.
Qed.

Lemma codeforces_validateUser_false
      (req : string -> CodeforcesApi.AxiosError
             + CodeforcesApi.Envelope (list CodeforcesApi.RawUser))
      (username : string) :
  CodeforcesApi.validateUser req username = Ok false ->
  exists m, CodeforcesApi.makeRequest (req username) = Throw m
            /\ Js.includes m "not found" = true.
Proof.
  unfold CodeforcesApi.validateUser. intros H.
  destruct (CodeforcesApi.makeRequest (req username)) as [r|m]; [congruence|].
  exists m. split; [reflexivity|].
  destruct (Js.includes m "not found"); [reflexivity | congruence].
Qed.

(** X5. [validateUser] of the Codeforces service answers true only when
    the API answered OK; it answers false when the server's comment says "not
    found", whether the comment came with an error status or inside an
    accepted answer that is not OK; and a timed-out request is thrown as a
    time-out, never reported as a missing user. *)
Theorem codeforces_validateUser_outcomes :
  forall (req : string -> CodeforcesApi.AxiosError
                + CodeforcesApi.Envelope (list CodeforcesApi.RawUser))
         (username : string),
    (CodeforcesApi.validateUser req username = Ok true
     <-> exists data, req username = inr data /\ CodeforcesApi.status data = "OK")
    /\ (forall error c,
           req username = inl error ->
           CodeforcesApi.response error = Some (Some c) ->
           Js.includes c "not found" = true ->
           CodeforcesApi.validateUser req username = Ok false)
    /\ (forall data c,
           req username = inr data ->
           CodeforcesApi.status data <> "OK" ->
           CodeforcesApi.comment data = Some c ->
           Js.includes c "not found" = true ->
           CodeforcesApi.validateUser req username = Ok false)
    /\ (forall error,
           req username = inl error ->
           CodeforcesApi.response error = None ->
           CodeforcesApi.code error = Some "ECONNABORTED" ->
           CodeforcesApi.validateUser req username
           = Throw "Codeforces API request timed out")
    /\ (CodeforcesApi.validateUser req username = Ok false ->
        exists m, CodeforcesApi.makeRequest (req username) = Throw m
                  /\ Js.includes m "not found" = true).
Proof.
  intros req username.
  pose proof (validateUser_cases req username) as Hcases.
  split; [|split; [|split; [|split]]].
  - split.
    + intros H. destruct (req username) as [error|data] eqn:E.
      * exfalso. unfold CodeforcesApi.makeRequest in Hcases.
        destruct (CodeforcesApi.response error) as [c|];
          [|destruct (CodeforcesApi.code error) as [k|];
            [destruct (k =? "ECONNABORTED")%string|]];
          match type of Hcases with
          | if ?b then _ else _ => destruct b; congruence
          end.
      * exists data. split; [reflexivity|].
        unfold CodeforcesApi.makeRequest in Hcases.
        destruct (CodeforcesApi.status data =? "OK")%string eqn:Es;
          [now apply String.eqb_eq|].
        cbn [negb] in Hcases.
        match type of Hcases with
        | if ?b then _ else _ => destruct b; congruence
        end.
    + intros (data & E & Hs). rewrite E in Hcases.
      unfold CodeforcesApi.makeRequest in Hcases. rewrite Hs in Hcases.
      exact Hcases.
  - intros error c E Hr Hc. rewrite E in Hcases.
    unfold CodeforcesApi.makeRequest in Hcases. rewrite Hr in Hcases.
    rewrite (orElse_includes c _ _ _ Hc) in Hcases.
    rewrite (includes_skip "Codeforces API error: " c "not found" Hc) in Hcases.
    exact Hcases.
  - intros data c E Hs Hcm Hc. rewrite E in Hcases.
    unfold CodeforcesApi.makeRequest in Hcases.
    apply String.eqb_neq in Hs. rewrite Hs, Hcm in Hcases. cbn [negb] in Hcases.
    rewrite (orElse_includes c _ _ _ Hc), Hc in Hcases. exact Hcases.
  - intros error E Hr Hk. rewrite E in Hcases.
    unfold CodeforcesApi.makeRequest in Hcases. rewrite Hr, Hk in Hcases.
    exact Hcases.
  - apply codeforces_validateUser_false.
Qed.

(** X6. [getUserInfo] of the Codeforces service.  Whenever [validateUser]
    answers false on the same answer of the API, and whenever the API answers
    OK with no user, it throws exactly "Codeforces user <name> not found"
    (with the name quoted); on a user it fills a missing or empty rank with
    "unrated" and a missing rating with 0, so the rank is never empty, and
    [getUserRank] is that rank. *)
Theorem codeforces_getUserInfo_outcomes :
  forall (req : string -> CodeforcesApi.AxiosError
                + CodeforcesApi.Envelope (list CodeforcesApi.RawUser))
         (username : string),
    (CodeforcesApi.validateUser req username = Ok false ->
     CodeforcesApi.getUserInfo req username
     = Throw ("Codeforces user " ++ Js.dq ++ username ++ Js.dq ++ " not found"))
    /\ (forall data,
           req username = inr data ->
           CodeforcesApi.status data = "OK" ->
           CodeforcesApi.result data = None \/ CodeforcesApi.result data = Some [] ->
           CodeforcesApi.validateUser req username = Ok true
           /\ CodeforcesApi.getUserInfo req username
              = Throw ("Codeforces user " ++ Js.dq ++ username ++ Js.dq ++ " not found"))
    /\ (forall data user rest,
           req username = inr data ->
           CodeforcesApi.status data = "OK" ->
           CodeforcesApi.result data = Some (user :: rest) ->
           exists info,
             CodeforcesApi.getUserInfo req username = Ok info
             /\ CodeforcesApi.getUserRank req username = Ok (CodeforcesApi.ui_rank info)
             /\ CodeforcesApi.ui_handle info = CodeforcesApi.handle user
             /\ CodeforcesApi.ui_rank info <> EmptyString
             /\ (CodeforcesApi.rank user = None -> CodeforcesApi.ui_rank info = "unrated")
             /\ (CodeforcesApi.rank user = Some EmptyString ->
                 CodeforcesApi.ui_rank info = "unrated")
             /\ (forall r, CodeforcesApi.rank user = Some r -> r <> EmptyString ->
                           CodeforcesApi.ui_rank info = r)
             /\ (CodeforcesApi.maxRank user = None
                 \/ CodeforcesApi.maxRank user = Some EmptyString ->
                 CodeforcesApi.ui_maxRank info = "unrated")
             /\ (CodeforcesApi.rating user = None -> CodeforcesApi.ui_rating info = 0)
             /\ (forall n, CodeforcesApi.rating user = Some n ->
                           CodeforcesApi.ui_rating info = n)).
Proof.
  intros req username. split; [|split].
  - intros H.
    destruct (codeforces_validateUser_false req username H) as (m & Hm & Hi).
    unfold CodeforcesApi.getUserInfo. rewrite Hm. cbn [ebind try_catch].
    now rewrite Hi.
  - intros data E Hs Hr. split.
    + pose proof (validateUser_cases req username) as Hc. rewrite E in Hc.
      unfold CodeforcesApi.makeRequest in Hc. rewrite Hs in Hc. exact Hc.
    + unfold CodeforcesApi.getUserInfo. rewrite E.
      unfold CodeforcesApi.makeRequest. rewrite Hs.
      change ("OK" =? "OK")%string with true. cbn [negb ebind].
      destruct Hr as [-> | ->]; cbn [try_catch];
        now rewrite userNotFound_includes.
  - intros data user rest E Hs Hr.
    unfold CodeforcesApi.getUserRank, CodeforcesApi.getUserInfo. rewrite E.
    unfold CodeforcesApi.makeRequest. rewrite Hs.
    change ("OK" =? "OK")%string with true. cbn [negb ebind]. rewrite Hr.
    cbn [try_catch ebind]. eexists. split; [reflexivity|].
    cbn [CodeforcesApi.ui_rank CodeforcesApi.ui_handle CodeforcesApi.ui_rating].
    split; [reflexivity|]. split; [reflexivity|].
    unfold CodeforcesApi.orElse, CodeforcesApi.numOr, Js.truthy_num.
    split; [|split; [|split; [|split; [|split; [|split]]]]].
    + destruct (CodeforcesApi.rank user) as [[|c r]|]; cbn; discriminate.
    + now intros ->.
    + now intros ->.
    + intros r -> Hne. destruct r; [congruence | reflexivity].
    + cbn [CodeforcesApi.ui_maxRank]. now intros [-> | ->].
    + now intros ->.
    + intros n ->. destruct (Z.eqb_spec n 0); cbn; congruence.
Qed.

(** The mapped array of an accepted, OK answer of [/user.status]. *)
Lemma codeforces_getRecentSubmissions_ok
      (req : string -> Z -> CodeforcesApi.AxiosError
             + CodeforcesApi.Envelope (list CodeforcesApi.RawSubmission))
      (username : string) (count : Z)
      (data : CodeforcesApi.Envelope (list CodeforcesApi.RawSubmission))
      (raws : list CodeforcesApi.RawSubmission) :
  req username count = inr data ->
  CodeforcesApi.status data = "OK" ->
  CodeforcesApi.result data = Some raws ->
  CodeforcesApi.getRecentSubmissions req username count
  = Ok (map CodeforcesApi.toSubmission raws).
Proof.
  intros E Hs Hr. unfold CodeforcesApi.getRecentSubmissions, CodeforcesApi.makeRequest.
  rewrite E, Hs. change ("OK" =? "OK")%string with true. cbn [negb ebind].
  now rewrite Hr.
Qed.

Lemma rawOnProblem_toSubmission (cid : Z) (idx : string) (startedAt : Z)
      (raw : CodeforcesApi.RawSubmission) :
  refersTo cid idx (CodeforcesApi.toSubmission raw)
  /\ atOrAfterStart startedAt (CodeforcesApi.toSubmission raw)
  <-> rawOnProblem cid idx startedAt raw.
Proof.
  unfold refersTo, atOrAfterStart, rawOnProblem. cbn. tauto.
Qed.

(** X7. The Codeforces service from the request to the verdict.  On an
    accepted, OK answer to the request for the 20 most recent submissions the
    matcher answers, and it verifies exactly when one of the listed
    submissions is on the problem (letter case of the index aside), at or
    after the second the session started in, with verdict COMPILATION_ERROR;
    the submission it reports is one of the listed ones on the problem after
    the start, and none is reported exactly when there is none.  When the
    request fails or the answer is not OK the matcher throws (the server's
    comment when there is one) and gives no verdict. *)
Theorem codeforces_service_decides_from_recent :
  forall (req : string -> Z -> CodeforcesApi.AxiosError
                + CodeforcesApi.Envelope (list CodeforcesApi.RawSubmission))
         (username : string) (cid : Z) (idx : string) (startedAt : Z),
    (forall data raws,
        req username 20 = inr data ->
        CodeforcesApi.status data = "OK" ->
        CodeforcesApi.result data = Some raws ->
        exists r,
          Codeforces.checkCompilationErrorSubmission
            (CodeforcesApi.getRecentSubmissions req) username cid idx startedAt = Ok r
          /\ (Codeforces.verified r = true
              <-> exists raw, In raw raws /\ rawOnProblem cid idx startedAt raw
                              /\ CodeforcesApi.rs_verdict raw = Some "COMPILATION_ERROR")
          /\ (forall s, Codeforces.submission r = Some s ->
                        exists raw, In raw raws /\ rawOnProblem cid idx startedAt raw
                                    /\ Codeforces.id s = CodeforcesApi.rs_id raw
                                    /\ Codeforces.verdict s = CodeforcesApi.rs_verdict raw)
          /\ (Codeforces.submission r = None
              <-> forall raw, In raw raws -> ~ rawOnProblem cid idx startedAt raw))
    /\ (forall error,
           req username 20 = inl error ->
           exists m,
             Codeforces.checkCompilationErrorSubmission
               (CodeforcesApi.getRecentSubmissions req) username cid idx startedAt
             = Throw m)
    /\ (forall data,
           req username 20 = inr data ->
           CodeforcesApi.status data <> "OK" ->
           Codeforces.checkCompilationErrorSubmission
             (CodeforcesApi.getRecentSubmissions req) username cid idx startedAt
           = Throw (CodeforcesApi.orElse (CodeforcesApi.comment data)
                                         "Codeforces API error")).
Proof.
  intros req username cid idx startedAt. split; [|split].
  - intros data raws E Hs Hr.
    pose proof (codeforces_getRecentSubmissions_ok req username 20 data raws E Hs Hr)
      as Hf.
    assert (Hnone : find (Codeforces.onProblemAfterStart cid idx startedAt)
                         (map CodeforcesApi.toSubmission raws) = None ->
                    forall raw, In raw raws -> ~ rawOnProblem cid idx startedAt raw).
    { intros Hn raw Hin Hraw.
      pose proof (find_none _ _ Hn _ (in_map CodeforcesApi.toSubmission _ _ Hin)) as Hf'.
      rewrite (proj2 (onProblemAfterStart_spec cid idx startedAt _)) in Hf';
        [discriminate|].
      now apply rawOnProblem_toSubmission. }
    destruct (checkCompilationErrorSubmission_cases cid idx startedAt _ username _ Hf)
      as [(s & Hfind & ->) | [(Hq & s & Hfind & ->) | (Hq & Ha & ->)]];
      eexists; (split; [reflexivity|]);
      cbn [Codeforces.verified Codeforces.submission].
    + apply find_some in Hfind as [Hin Hqs].
      apply qualifies_spec in Hqs as (Hrefers & Hv & Hafter).
      apply in_map_iff in Hin as (raw & <- & Hraw).
      pose proof (proj1 (rawOnProblem_toSubmission cid idx startedAt raw)
                        (conj Hrefers Hafter)) as Hon.
      split; [|split].
      * split; [intros _|reflexivity]. exists raw. split; [exact Hraw|].
        split; [exact Hon | exact Hv].
      * intros s' [= <-]. exists raw. split; [exact Hraw|]. split; [exact Hon|].
        split; reflexivity.
      * split; [discriminate|]. intros Hno. elim (Hno raw Hraw Hon).
    + apply find_some in Hfind as [Hin Hqs].
      apply onProblemAfterStart_spec in Hqs as (Hrefers & Hafter).
      apply in_map_iff in Hin as (raw & <- & Hraw).
      pose proof (proj1 (rawOnProblem_toSubmission cid idx startedAt raw)
                        (conj Hrefers Hafter)) as Hon.
      split; [|split].
      * split; [discriminate|]. intros (raw' & Hraw' & Hon' & Hv'). exfalso.
        pose proof (find_none _ _ Hq _ (in_map CodeforcesApi.toSubmission _ _ Hraw'))
          as Hf'.
        rewrite (proj2 (qualifies_spec cid idx startedAt _)) in Hf'; [discriminate|].
        apply rawOnProblem_toSubmission in Hon' as [H1 H2].
        split; [exact H1|]. split; [exact Hv' | exact H2].
      * intros s' [= <-]. exists raw. split; [exact Hraw|]. split; [exact Hon|].
        split; reflexivity.
      * split; [discriminate|]. intros Hno. elim (Hno raw Hraw Hon).
    + split; [|split].
      * split; [discriminate|]. intros (raw & Hraw & Hon & _).
        elim (Hnone Ha raw Hraw Hon).
      * discriminate.
      * split; [intros _; exact (Hnone Ha) | reflexivity].
  - intros error E.
    unfold Codeforces.checkCompilationErrorSubmission, CodeforcesApi.getRecentSubmissions,
      CodeforcesApi.makeRequest.
    rewrite E.
    destruct (CodeforcesApi.response error) as [c|];
      [|destruct (CodeforcesApi.code error) as [k|];
        [destruct (k =? "ECONNABORTED")%string|]];
      cbn [ebind]; eauto.
  - intros data E Hs.
    unfold Codeforces.checkCompilationErrorSubmission, CodeforcesApi.getRecentSubmissions,
      CodeforcesApi.makeRequest.
    rewrite E. apply String.eqb_neq in Hs. rewrite Hs. reflexivity.
Qed.

(** ** The CodeChef service *)

(** X8. The stars of a CodeChef rating are between 1 and 7, never decrease
    when the rating grows, and each star count has its threshold: seven stars
    from 2500, at least two from 1400, one star below. *)
Theorem codechef_stars_thresholds :
  (forall rating, 1 <= CodeChefApi.getStarsFromRating rating <= 7)
  /\ (forall r1 r2, r1 <= r2 ->
                    CodeChefApi.getStarsFromRating r1 <= CodeChefApi.getStarsFromRating r2)
  /\ (forall rating,
         (CodeChefApi.getStarsFromRating rating = 7 <-> 2500 <= rating)
         /\ (6 <= CodeChefApi.getStarsFromRating rating <-> 2200 <= rating)
         /\ (5 <= CodeChefApi.getStarsFromRating rating <-> 2000 <= rating)
         /\ (4 <= CodeChefApi.getStarsFromRating rating <-> 1800 <= rating)
         /\ (3 <= CodeChefApi.getStarsFromRating rating <-> 1600 <= rating)
         /\ (2 <= CodeChefApi.getStarsFromRating rating <-> 1400 <= rating)
         /\ (CodeChefApi.getStarsFromRating rating = 1 <-> rating < 1400)).
Proof.
  unfold CodeChefApi.getStarsFromRating.
  split; [|split].
  - intros rating.
    repeat match goal with |- context [?a <=? ?b] => destruct (Z.leb_spec a b) end; lia.
  - intros r1 r2 H.
    repeat match goal with |- context [?a <=? ?b] => destruct (Z.leb_spec a b) end; lia.
  - intros rating.
    repeat match goal with |- context [?a <=? ?b] => destruct (Z.leb_spec a b) end;
      repeat split; intros; lia.
Qed.

(** [validateUser] of the CodeChef service answers a boolean or throws its
    one message. *)
Lemma codechef_validateUser_cases (profile : string -> Exc CodeChef.Response)
      (username : string) :
  (exists b, CodeChefApi.validateUser profile username = Ok b)
  \/ CodeChefApi.validateUser profile username = Throw CodeChefApi.validateFailed.
Proof.
  unfold CodeChefApi.validateUser, CodeChef.axios_get.
  destruct (profile username) as [response|e]; cbn [ebind try_catch]; [|now right].
  destruct (CodeChef.status response <? 500); cbn [ebind try_catch];
    [left; eexists; reflexivity | now right].
Qed.

(** X9. [validateUser] of the CodeChef service answers true exactly on
    status 200 and false on every other status below 500 (404 among them);
    when the request fails or the status is 500 or more it throws, and the one
    message it ever throws is "Failed to validate CodeChef user. Please try
    again later.". *)
Theorem codechef_validateUser_outcomes :
  forall (profile : string -> Exc CodeChef.Response) (username : string),
    (forall response,
        profile username = Ok response ->
        CodeChef.status response < 500 ->
        CodeChefApi.validateUser profile username
        = Ok (CodeChef.status response =? 200))
    /\ (forall response,
           profile username = Ok response ->
           500 <= CodeChef.status response ->
           CodeChefApi.validateUser profile username
           = Throw "Failed to validate CodeChef user. Please try again later.")
    /\ (forall e,
           profile username = Throw e ->
           CodeChefApi.validateUser profile username
           = Throw "Failed to validate CodeChef user. Please try again later.")
    /\ (forall m,
           CodeChefApi.validateUser profile username = Throw m ->
           m = "Failed to validate CodeChef user. Please try again later.")
    /\ (CodeChefApi.validateUser profile username = Ok true
        <-> exists response, profile username = Ok response
                             /\ CodeChef.status response = 200).
Proof.
  intros profile username. unfold CodeChefApi.validateUser, CodeChef.axios_get.
  destruct (profile username) as [response|e]; cbn [ebind try_catch].
  - destruct (Z.ltb_spec (CodeChef.status response) 500) as [Hlt|Hge];
      cbn [ebind try_catch].
    + split; [now intros r [= <-] _|]. split; [intros r [= <-] H; lia|].
      split; [discriminate|]. split; [discriminate|].
      split.
      * intros [= H]. exists response. split; [reflexivity | now apply Z.eqb_eq].
      * intros (r & [= <-] & H). now rewrite H.
    + split; [intros r [= <-] H; lia|]. split; [reflexivity|].
      split; [discriminate|]. split; [now intros m [= <-]|].
      split; [discriminate|]. intros (r & [= <-] & H). lia.
  - split; [discriminate|]. split; [discriminate|]. split; [reflexivity|].
    split; [now intros m [= <-]|]. split; [discriminate|].
    intros (r & H & _). discriminate.
Qed.

Lemma codechef_notFound_includes (username : string) :
  Js.includes (CodeChefApi.userNotFound username) "not found" = true.
Proof.
  unfold CodeChefApi.userNotFound.
  apply includes_skip, includes_skip, includes_skip, includes_skip.
  change " not found" with (" " ++ "not found").
  apply includes_skip. change "not found" with ("not found" ++ EmptyString) at 1.
  apply includes_here.
Qed.

(** X10. [getUserInfo] of the CodeChef service.  A 404 of the ratings
    endpoint is thrown as "CodeChef user <name> not found" without looking
    at the profile page.  When the ratings request fails otherwise, the
    profile page decides: an existing user gets rating 0, stars 0 and highest
    rating 0, a missing one the same not-found error, and a profile that
    cannot be read the validation message.  An answer without any rating
    field gives rating 0 but one star. *)
Theorem codechef_getUserInfo_fallback :
  forall (profile : string -> Exc CodeChef.Response)
         (ratings : string -> Exc CodeChefApi.RatingsResponse) (username : string),
    (forall response,
        ratings username = Ok response ->
        CodeChefApi.r_status response = 404 ->
        CodeChefApi.getUserInfo profile ratings username
        = Throw ("CodeChef user " ++ Js.dq ++ username ++ Js.dq ++ " not found"))
    /\ (forall e,
           ratings username = Throw e ->
           Js.includes e "not found" = false ->
           CodeChefApi.getUserInfo profile ratings username
           = match CodeChefApi.validateUser profile username with
             | Ok true => Ok {| CodeChefApi.ui_username := username;
                                CodeChefApi.ui_rating := 0;
                                CodeChefApi.ui_stars := 0;
                                CodeChefApi.ui_highestRating := 0 |}
             | Ok false => Throw ("CodeChef user " ++ Js.dq ++ username ++ Js.dq
                                    ++ " not found")
             | Throw _ => Throw "Failed to validate CodeChef user. Please try again later."
             end)
    /\ (forall response,
           ratings username = Ok response ->
           CodeChefApi.r_status response < 500 ->
           CodeChefApi.r_status response <> 404 ->
           CodeChefApi.r_data response
           = {| CodeChefApi.rating := None; CodeChefApi.currentRating := None;
                CodeChefApi.stars := None; CodeChefApi.highestRating := None |} ->
           CodeChefApi.getUserInfo profile ratings username
           = Ok {| CodeChefApi.ui_username := username;
                   CodeChefApi.ui_rating := 0;
                   CodeChefApi.ui_stars := 1;
                   CodeChefApi.ui_highestRating := 0 |})
    /\ (forall response r,
           ratings username = Ok response ->
           CodeChefApi.r_status response < 500 ->
           CodeChefApi.r_status response <> 404 ->
           CodeChefApi.rating (CodeChefApi.r_data response) = Some r ->
           r <> 0 ->
           CodeChefApi.stars (CodeChefApi.r_data response) = None ->
           exists info,
             CodeChefApi.getUserInfo profile ratings username = Ok info
             /\ CodeChefApi.ui_rating info = r
             /\ CodeChefApi.ui_stars info = CodeChefApi.getStarsFromRating r
             /\ 1 <= CodeChefApi.ui_stars info <= 7).
Proof.
  intros profile ratings username. split; [|split; [|split]].
  - intros response E Hs. unfold CodeChefApi.getUserInfo. rewrite E. cbn [ebind].
    rewrite Hs. change (404 <? 500) with true. cbn [ebind]. rewrite Hs.
    change (404 =? 404) with true. cbn [try_catch].
    now rewrite codechef_notFound_includes.
  - intros e E Hi. unfold CodeChefApi.getUserInfo. rewrite E. cbn [ebind try_catch].
    rewrite Hi.
    destruct (codechef_validateUser_cases profile username) as [[b ->] | ->];
      [destruct b|]; reflexivity.
  - intros response E Hlt Hne Hd. unfold CodeChefApi.getUserInfo. rewrite E. cbn [ebind].
    apply Z.ltb_lt in Hlt. rewrite Hlt. cbn [ebind].
    apply Z.eqb_neq in Hne. rewrite Hne, Hd. reflexivity.
  - intros response r E Hlt Hne Hr Hnz Hst. unfold CodeChefApi.getUserInfo.
    rewrite E. cbn [ebind].
    apply Z.ltb_lt in Hlt. rewrite Hlt. cbn [ebind].
    apply Z.eqb_neq in Hne. rewrite Hne. cbn [try_catch].
    eexists. split; [reflexivity|].
    cbn [CodeChefApi.ui_rating CodeChefApi.ui_stars]. rewrite Hr, Hst.
    unfold CodeChefApi.zOr, CodeforcesApi.numOr, Js.truthy_num.
    apply Z.eqb_neq in Hnz. rewrite Hnz. cbn [negb]. rewrite Hnz. cbn [negb].
    split; [reflexivity|]. split; [reflexivity|].
    unfold CodeChefApi.getStarsFromRating.
    repeat match goal with |- context [?a <=? ?b] => destruct (Z.leb_spec a b) end; lia.
Qed.

Lemma map_string_empty (f : ascii -> ascii) (s : string) :
  Js.map_string f s = EmptyString -> s = EmptyString.
Proof. destruct s; [reflexivity | discriminate]. Qed.

Lemma codechef_isProblemMatch_spec (code : string) (s : CodeChef.Submission) :
  CodeChef.isProblemMatch code s = true <-> onCode code s.
Proof.
  unfold CodeChef.isProblemMatch, onCode.
  destruct (CodeChef.problemCode s) as [c|].
  - rewrite andb_true_iff, String.eqb_eq. split.
    + intros [Ht He]. exists c. split; [reflexivity|]. split; [|exact He].
      intros ->. discriminate.
    + intros (c' & [= <-] & Hne & He). split; [|exact He].
      destruct c; [congruence | reflexivity].
  - split; [discriminate|]. intros (c & H & _). discriminate.
Qed.

Lemma codechef_isCompilationError_spec (s : CodeChef.Submission) :
  CodeChef.isCompilationError s = true <-> compilationVerdict s.
Proof.
  unfold CodeChef.isCompilationError, compilationVerdict.
  destruct (CodeChef.result s) as [r|].
  - rewrite andb_true_iff, !orb_true_iff, !String.eqb_eq. split.
    + intros [_ [[H|H]|H]]; exists r; (split; [reflexivity|]); auto.
      left. subst r. reflexivity.
    + intros (r' & [= <-] & H). split; [|tauto].
      destruct r as [|c r]; [|reflexivity].
      destruct H as [H|H]; discriminate.
  - split; [discriminate|]. intros (r & H & _). discriminate.
Qed.

(** What [includes] answers on the body of the status page. *)
Lemma body_includes_cases (body : CodeChef.Body) (needle : string) :
  match body with
  | CodeChef.JsonOther _ =>
      CodeChef.body_includes body needle
      = Throw "response.data.includes is not a function"
  | _ => exists found, CodeChef.body_includes body needle = Ok found
                       /\ (found = true <-> mentions body needle)
  end.
Proof.
  destruct body as [s|elements|t]; cbn [CodeChef.body_includes mentions];
    [eexists; split; [reflexivity|tauto]| |reflexivity].
  eexists. split; [reflexivity|]. rewrite existsb_exists. split.
  - intros ([x|] & Hin & Hx); [|discriminate]. apply String.eqb_eq in Hx. now subst x.
  - intros Hin. exists (Some needle). split; [exact Hin | apply String.eqb_refl].
Qed.

(** On a text and on an array the four calls of [includes] answer, and
    the page names the error exactly when the user and one of the three
    spellings are found. *)
Lemma hasCompilationError_readable (username : string) (response : CodeChef.Response) :
  (forall t, CodeChef.data response <> CodeChef.JsonOther t) ->
  exists found,
    CodeChef.hasCompilationError username response = Ok found
    /\ (found = true
        <-> mentions (CodeChef.data response) username
            /\ (mentions (CodeChef.data response) "compilation error"
                \/ mentions (CodeChef.data response) "Compilation Error"
                \/ mentions (CodeChef.data response) ">CE<")).
Proof.
  intros Hread. unfold CodeChef.hasCompilationError.
  pose proof (body_includes_cases (CodeChef.data response) username) as Hu.
  pose proof (body_includes_cases (CodeChef.data response) "compilation error") as Hl.
  pose proof (body_includes_cases (CodeChef.data response) "Compilation Error") as Ht.
  pose proof (body_includes_cases (CodeChef.data response) ">CE<") as Hc.
  destruct (CodeChef.data response) as [text|elements|t] eqn:Hd;
    [| |now elim (Hread t)];
    destruct Hu as (u & -> & Hu), Hl as (l & -> & Hl), Ht as (t & -> & Ht),
      Hc as (x & -> & Hc);
    exists (u && (l || t || x));
    (split; [destruct u, l, t, x; reflexivity|]);
    rewrite andb_true_iff, !orb_true_iff; tauto.
Qed.

(** The first step of the CodeChef matcher, on a page that was fetched: it
    throws, settles the check, or leaves it to the recent submissions. *)
Lemma codechef_page_step (username : string) (response : CodeChef.Response) :
  let step := if (CodeChef.status response =? 200)
                 && CodeChef.truthy_body (CodeChef.data response)
              then CodeChef.hasCompilationError username response
              else Ok false in
  (pageWithoutIncludes response
   /\ step = Throw "response.data.includes is not a function")
  \/ (pageNamesError username response /\ step = Ok true)
  \/ (~ pageWithoutIncludes response /\ ~ pageNamesError username response
      /\ step = Ok false).
Proof.
  cbv zeta. unfold pageWithoutIncludes, pageNamesError.
  destruct (Z.eqb_spec (CodeChef.status response) 200) as [E200|N200];
    [|right; right; split; [tauto|]; split; [tauto | reflexivity]].
  cbn [andb].
  destruct (CodeChef.data response) as [text|elements|[|]] eqn:Hd.
  - destruct text as [|c text]; cbn [CodeChef.truthy_body Js.truthy_string].
    + right; right. split; [intros [_ H]; discriminate|]. split; [tauto | reflexivity].
    + destruct (hasCompilationError_readable username response) as (found & -> & Hf);
        [rewrite Hd; discriminate|]. rewrite Hd in Hf.
      destruct found.
      * right; left. split; [|reflexivity]. split; [exact E200|].
        split; [discriminate | now apply Hf].
      * right; right. split; [intros [_ H]; discriminate|]. split; [|reflexivity].
        intros (_ & _ & H). apply Hf in H. discriminate.
  - cbn [CodeChef.truthy_body].
    destruct (hasCompilationError_readable username response) as (found & -> & Hf);
      [rewrite Hd; discriminate|]. rewrite Hd in Hf.
    destruct found.
    + right; left. split; [|reflexivity]. split; [exact E200|].
      split; [discriminate | now apply Hf].
    + right; right. split; [intros [_ H]; discriminate|]. split; [|reflexivity].
      intros (_ & _ & H). apply Hf in H. discriminate.
  - left. split; [tauto|]. cbn [CodeChef.truthy_body].
    unfold CodeChef.hasCompilationError. rewrite Hd. reflexivity.
  - right; right. split; [intros [_ H]; discriminate|].
    split; [|reflexivity]. intros (_ & _ & [] & _).
Qed.

(** A submission on the problem with a compilation verdict among the recent
    ones verifies, whichever path finds it, on a page [includes] can read. *)
Lemma codechef_matcher_verifies
      (page : string -> string -> Exc CodeChef.Response)
      (recent : string -> Z -> list CodeChef.Submission)
      (username code : string) (startedAt : Z)
      (response : CodeChef.Response) (s : CodeChef.Submission) :
  page code username = Ok response ->
  CodeChef.status response < 500 ->
  ~ pageWithoutIncludes response ->
  In s (recent username 30) -> onCode code s -> compilationVerdict s ->
  exists r,
    CodeChef.checkCompilationErrorSubmission page recent username code startedAt = Ok r
    /\ CodeChef.verified r = true.
Proof.
  intros E Hlt Hread Hin Hon Hcv.
  unfold CodeChef.checkCompilationErrorSubmission, CodeChef.axios_get. rewrite E.
  cbn [ebind]. apply Z.ltb_lt in Hlt. rewrite Hlt. cbn [ebind].
  destruct (codechef_page_step username response)
    as [[Hw _] | [[_ ->] | (_ & _ & ->)]]; [contradiction| |]; cbn [ebind try_catch].
  - eexists; split; reflexivity.
  - destruct (find (fun sub => CodeChef.isProblemMatch code sub
                               && CodeChef.isCompilationError sub) (recent username 30))
      as [x|] eqn:Hq; [eexists; split; reflexivity|].
    exfalso. pose proof (find_none _ _ Hq s Hin) as Hn. cbv beta in Hn.
    apply codechef_isProblemMatch_spec in Hon.
    apply codechef_isCompilationError_spec in Hcv.
    rewrite Hon, Hcv in Hn. discriminate.
Qed.

(** X11. The CodeChef matcher.  When the status page cannot be fetched (or
    answers 500 or more) the check throws "Failed to check CodeChef
    submissions: ..." and the recent submissions are not looked at.  When the
    page answers 200 with a body that axios has parsed into a value without
    [includes] (valid JSON that is an object, a number or [true]), the check
    throws the same way, with the [TypeError] of the call.  When the page
    answers 200 with a text or an array that names the user and a compilation
    error, the check is verified at once.  Otherwise the recent submissions
    decide: verified exactly when one of them is on the problem (code compared
    without case) with a result that reads as a compilation error; else a
    mismatch that quotes the result of a submission on the problem; else "no
    submission found". *)
Theorem codechef_outcome_precedence :
  forall (page : string -> string -> Exc CodeChef.Response)
         (recent : string -> Z -> list CodeChef.Submission)
         (username code : string) (startedAt : Z),
    (forall m,
        CodeChef.axios_get (fun st => st <? 500) (page code username) = Throw m ->
        CodeChef.checkCompilationErrorSubmission page recent username code startedAt
        = Throw ("Failed to check CodeChef submissions: " ++ m))
    /\ forall response,
        page code username = Ok response ->
        CodeChef.status response < 500 ->
        (pageWithoutIncludes response ->
         CodeChef.checkCompilationErrorSubmission page recent username code startedAt
         = Throw ("Failed to check CodeChef submissions: "
                    ++ "response.data.includes is not a function"))
        /\ (pageNamesError username response ->
            CodeChef.checkCompilationErrorSubmission page recent username code startedAt
            = Ok {| CodeChef.verified := true;
                    CodeChef.submission :=
                      Some {| CodeChef.id := None; CodeChef.problemCode := Some code;
                              CodeChef.result := Some "compilation error";
                              CodeChef.date := None; CodeChef.language := None |};
                    CodeChef.message := "Compilation Error submission found!" |})
        /\ (~ pageWithoutIncludes response -> ~ pageNamesError username response ->
            exists r,
              CodeChef.checkCompilationErrorSubmission page recent username code startedAt
              = Ok r
              /\ (CodeChef.verified r = true
                  <-> exists s, In s (recent username 30) /\ onCode code s
                                /\ compilationVerdict s)
              /\ (CodeChef.verified r = false ->
                  (exists s, In s (recent username 30) /\ onCode code s) ->
                  exists s, In s (recent username 30) /\ onCode code s
                            /\ ~ compilationVerdict s
                            /\ CodeChef.submission r = Some s
                            /\ CodeChef.message r
                               = "Found submission but verdict was " ++ Js.dq
                                   ++ Js.render (CodeChef.result s) ++ Js.dq
                                   ++ " instead of " ++ Js.dq ++ "Compilation Error"
                                   ++ Js.dq)
              /\ (CodeChef.verified r = false ->
                  (forall s, In s (recent username 30) -> ~ onCode code s) ->
                  CodeChef.submission r = None
                  /\ CodeChef.message r
                     = "No submission found to the specified problem. Please make sure you submitted to the correct problem.")).
Proof.
  intros page recent username code startedAt. split.
  - intros m Hm. unfold CodeChef.checkCompilationErrorSubmission. rewrite Hm. reflexivity.
  - intros response E Hlt.
    assert (Hget : CodeChef.axios_get (fun st => st <? 500) (page code username)
                   = Ok response).
    { unfold CodeChef.axios_get. rewrite E. cbn [ebind].
      apply Z.ltb_lt in Hlt. now rewrite Hlt. }
    unfold CodeChef.checkCompilationErrorSubmission. rewrite Hget. cbn [ebind].
    destruct (codechef_page_step username response)
      as [[Hw ->] | [[Hn ->] | (Hnw & Hnn & ->)]]; cbn [ebind try_catch].
    { split; [reflexivity|]. split; [|intros Hnw; contradiction].
      intros (_ & _ & Hm & _). destruct Hw as [_ Hw]. rewrite Hw in Hm. destruct Hm. }
    { split; [|split; [reflexivity|intros _ Hnn; contradiction]].
      intros [_ Hw]. destruct Hn as (_ & _ & Hm & _). rewrite Hw in Hm. destruct Hm. }
    split; [intros Hw; contradiction|]. split; [intros Hn; contradiction|].
    intros _ _.
    destruct (find (fun sub => CodeChef.isProblemMatch code sub
                               && CodeChef.isCompilationError sub) (recent username 30))
      as [s|] eqn:Hq.
    + eexists. split; [reflexivity|]. cbn [CodeChef.verified].
      apply find_some in Hq as [Hin Hs]. apply andb_true_iff in Hs as [Hp Hc].
      apply codechef_isProblemMatch_spec in Hp. apply codechef_isCompilationError_spec in Hc.
      split; [|split]; try discriminate.
      split; [|reflexivity]. intros _. now exists s.
    + assert (Hno : forall x, In x (recent username 30) -> onCode code x ->
                              ~ compilationVerdict x).
      { intros x Hx Hp Hc. pose proof (find_none _ _ Hq x Hx) as Hn. cbv beta in Hn.
        apply codechef_isProblemMatch_spec in Hp.
        apply codechef_isCompilationError_spec in Hc.
        rewrite Hp, Hc in Hn. discriminate. }
      destruct (find (CodeChef.isProblemMatch code) (recent username 30)) as [s|] eqn:Ha.
      * eexists. split; [reflexivity|].
        cbn [CodeChef.verified CodeChef.submission CodeChef.message try_catch].
        apply find_some in Ha as [Hin Hp]. apply codechef_isProblemMatch_spec in Hp.
        split; [|split].
        -- split; [discriminate|]. intros (x & Hx & Hxp & Hxc). exfalso.
           exact (Hno x Hx Hxp Hxc).
        -- intros _ _. exists s. split; [exact Hin|]. split; [exact Hp|].
           split; [exact (Hno s Hin Hp)|]. split; reflexivity.
        -- intros _ Hnone. exfalso. exact (Hnone s Hin Hp).
      * eexists. split; [reflexivity|].
        cbn [CodeChef.verified CodeChef.submission CodeChef.message try_catch].
        split; [|split].
        -- split; [discriminate|]. intros (x & Hx & Hxp & Hxc). exfalso.
           exact (Hno x Hx Hxp Hxc).
        -- intros _ (x & Hx & Hxp). exfalso.
           pose proof (find_none _ _ Ha x Hx) as Hn.
           apply codechef_isProblemMatch_spec in Hxp. congruence.
        -- intros _ _. split; reflexivity.
Qed.

(** X12. Submissions listed by the CodeChef submissions endpoint with the
    other spelling of their fields ([problem_code], [verdict]) count like the
    rest: when the status page answers with a body [includes] can read, an
    item of the array on the problem whose verdict reads as a compilation
    error makes the check verified, the recent-activity page not being
    used. *)
Theorem codechef_alias_fields_verify :
  forall (page : string -> string -> Exc CodeChef.Response)
         (submissionsRequest : string -> Z -> Exc CodeChefApi.ApiData)
         (recentRequest : string -> Exc (option string))
         (parse : string -> list CodeChef.Submission)
         (username code : string) (startedAt : Z)
         (response : CodeChef.Response)
         (items : list CodeChefApi.RawSubmission) (raw : CodeChefApi.RawSubmission)
         (c v : string),
    page code username = Ok response ->
    CodeChef.status response < 500 ->
    ~ pageWithoutIncludes response ->
    submissionsRequest username 30 = Ok (CodeChefApi.DataArray items) ->
    In raw items ->
    CodeChefApi.raw_problemCode raw = None ->
    CodeChefApi.raw_problem_code raw = Some c ->
    c <> EmptyString ->
    Js.toUpperCase c = Js.toUpperCase code ->
    CodeChefApi.raw_result raw = None ->
    CodeChefApi.raw_verdict raw = Some v ->
    Js.toLowerCase v = "ce" \/ Js.includes (Js.toLowerCase v) "compilation error" = true ->
    exists r,
      CodeChef.checkCompilationErrorSubmission
        page (CodeChefApi.getRecentSubmissions submissionsRequest recentRequest parse)
        username code startedAt = Ok r
      /\ CodeChef.verified r = true
      /\ List.length (CodeChefApi.getRecentSubmissions submissionsRequest recentRequest
                                                       parse username 30)
         = List.length items.
Proof.
  intros page submissionsRequest recentRequest parse username code startedAt response
         items raw c v E Hlt Hread Hreq Hin Hpc Hpc' Hne Hup Hres Hv Hce.
  assert (Hlist : CodeChefApi.getRecentSubmissions submissionsRequest recentRequest parse
                                                   username 30
                  = map CodeChefApi.normalise items).
  { unfold CodeChefApi.getRecentSubmissions. now rewrite Hreq. }
  assert (Hs : In (CodeChefApi.normalise raw)
                  (CodeChefApi.getRecentSubmissions submissionsRequest recentRequest parse
                                                    username 30)).
  { rewrite Hlist. now apply in_map. }
  assert (Hon : onCode code (CodeChefApi.normalise raw)).
  { exists c. unfold CodeChefApi.normalise; cbn [CodeChef.problemCode].
    rewrite Hpc, Hpc'. cbn [CodeChefApi.strOr]. repeat split; assumption. }
  assert (Hcv : compilationVerdict (CodeChefApi.normalise raw)).
  { exists v. unfold CodeChefApi.normalise; cbn [CodeChef.result].
    rewrite Hres, Hv. cbn [CodeChefApi.strOr]. split; [reflexivity | tauto]. }
  destruct (codechef_matcher_verifies page
              (CodeChefApi.getRecentSubmissions submissionsRequest recentRequest parse)
              username code startedAt response (CodeChefApi.normalise raw)
              E Hlt Hread Hs Hon Hcv)
    as (r & Hr & Hver).
  exists r. split; [exact Hr|]. split; [exact Hver|].
  rewrite Hlist. apply length_map.
Qed.

Lemma codechef_alias_fields_verify_witness :
  exists r,
    CodeChef.checkCompilationErrorSubmission
      emptyStatusPage
      (CodeChefApi.getRecentSubmissions
         (fun _ _ => Ok (CodeChefApi.DataArray [aliasSubmission]))
         (fun _ => Ok None) (fun _ => []))
      "alice" "TEST" scenarioStart = Ok r
    /\ CodeChef.verified r = true.
Proof.
  edestruct (codechef_alias_fields_verify
               emptyStatusPage
               (fun _ _ => Ok (CodeChefApi.DataArray [aliasSubmission]))
               (fun _ => Ok None) (fun _ => [])
               "alice" "TEST" scenarioStart
               {| CodeChef.status := 200; CodeChef.data := CodeChef.Text EmptyString |}
               [aliasSubmission] aliasSubmission "test" "CE")
    as (r & Hr & Hv & _).
  - reflexivity.
  - reflexivity.
  - intros [_ H]. discriminate.
  - reflexivity.
  - now left.
  - reflexivity.
  - reflexivity.
  - discriminate.
  - reflexivity.
  - reflexivity.
  - reflexivity.
  - left. reflexivity.
  - exists r. split; assumption.
Defined.

(** ** The rest of the catalog *)

Lemma codechefProblems_ids :
  Forall (fun entry => fst entry <> EmptyString
                       /\ Js.toUpperCase (fst entry) = fst entry)
         Catalog.codechefProblems.
Proof. repeat constructor; discriminate. Qed.

Lemma codechef_draw_answers (random : spec_float) :
  Double.isRandom random = true ->
  exists picked,
    Catalog.getRandomCodeChefProblem random = Ok picked
    /\ In (Catalog.id picked, Catalog.name picked) Catalog.codechefProblems
    /\ Catalog.url picked = "https://www.codechef.com/problems/" ++ Catalog.id picked.
Proof.
  intros Hr.
  destruct (randomIndex_in_range random (List.length Catalog.codechefProblems) Hr
              ltac:(cbn; lia) ltac:(cbn; lia)) as (idx & Hfl & Hlo & Hhi).
  unfold Catalog.getRandomCodeChefProblem. cbv zeta.
  rewrite (randomIndex_floorIs _ _ _ Hfl). unfold RandomProblem.element.
  apply Z.leb_le in Hlo. rewrite Hlo.
  destruct (nth_error Catalog.codechefProblems (Z.to_nat idx)) as [[i n]|] eqn:Hnth.
  - eexists. split; [reflexivity|]. cbn [Catalog.id Catalog.name Catalog.url].
    split; [exact (nth_error_In _ _ Hnth) | reflexivity].
  - exfalso. apply nth_error_None in Hnth. lia.
Qed.

(** X13. [getRandomCodeChefProblem] never fails, whatever [Math.random()]
    returns: it returns a problem of the curated list with the URL of its
    id; every problem of the list is returned for some value of
    [Math.random()]; and the ids of the list are non-empty, in upper case and
    all different. *)
Theorem codechef_random_problem :
  (forall random : spec_float,
      Double.isRandom random = true ->
      exists picked,
        Catalog.getRandomCodeChefProblem random = Ok picked
        /\ In (Catalog.id picked, Catalog.name picked) Catalog.codechefProblems
        /\ Catalog.url picked = CodeChefApi.getProblemUrl (Catalog.id picked)
        /\ Catalog.id picked <> EmptyString
        /\ Js.toUpperCase (Catalog.id picked) = Catalog.id picked)
  /\ (forall i n,
         In (i, n) Catalog.codechefProblems ->
         exists random : spec_float,
           Double.isRandom random = true
           /\ Catalog.getRandomCodeChefProblem random
              = Ok {| Catalog.id := i; Catalog.name := n;
                      Catalog.url := "https://www.codechef.com/problems/" ++ i |})
  /\ NoDup (map fst Catalog.codechefProblems)
  /\ List.length Catalog.codechefProblems = 20%nat.
Proof.
  split; [|split; [|split]].
  - intros random Hr.
    destruct (codechef_draw_answers random Hr) as (picked & Hp & Hin & Hurl).
    exists picked. split; [exact Hp|]. split; [exact Hin|]. split; [exact Hurl|].
    pose proof codechefProblems_ids as Hall. rewrite Forall_forall in Hall.
    exact (Hall _ Hin).
  - intros i n Hin. apply In_nth_error in Hin as [k Hk].
    assert (Hlt : (k < List.length Catalog.codechefProblems)%nat)
      by (apply nth_error_Some; congruence).
    destruct (randomIndex_reaches (List.length Catalog.codechefProblems) (Z.of_nat k)
                ltac:(lia) ltac:(cbn; lia)) as (random & Hr & Hfl).
    exists random. split; [exact Hr|].
    unfold Catalog.getRandomCodeChefProblem. cbv zeta.
    rewrite (randomIndex_floorIs _ _ _ Hfl). unfold RandomProblem.element.
    destruct (Z.leb_spec 0 (Z.of_nat k)); [|lia]. now rewrite Nat2Z.id, Hk.
  - cbn. repeat constructor; cbn; intuition discriminate.
  - reflexivity.
Qed.

Lemma fetch_result_is_cached :
  forall today response today' st l st',
    RandomProblem.fetchCodeforcesProblems today response today' st = (Ok l, st') ->
    RandomProblem.cfProblemsCache st' = Some l.
Proof.
  intros today response today' st l st' H.
  unfold RandomProblem.fetchCodeforcesProblems in H.
  destruct (RandomProblem.cacheFresh today st) eqn:Hfresh.
  - unfold RandomProblem.cacheFresh in Hfresh.
    destruct (RandomProblem.cfProblemsCache st) as [c|] eqn:Hc; [|discriminate].
    injection H as <- <-. exact Hc.
  - destruct response as [data|e]; cbn [ebind] in H.
    + destruct (negb (RandomProblem.status data =? "OK")%string).
      * destruct (RandomProblem.cfProblemsCache st) as [c|] eqn:Hc; [|discriminate].
        injection H as <- <-. reflexivity.
      * injection H as <- <-. reflexivity.
    + destruct (RandomProblem.cfProblemsCache st) as [c|] eqn:Hc; [|discriminate].
      injection H as <- <-. reflexivity.
Qed.

Lemma fetch_with_cache_answers :
  forall today response today' st c,
    RandomProblem.cfProblemsCache st = Some c ->
    exists l st',
      RandomProblem.fetchCodeforcesProblems today response today' st = (Ok l, st').
Proof.
  intros today response today' st c Hc.
  unfold RandomProblem.fetchCodeforcesProblems.
  destruct (RandomProblem.cacheFresh today st); [rewrite Hc; eauto|].
  destruct response as [data|e]; cbn [ebind].
  - destruct (negb (RandomProblem.status data =? "OK")%string); [rewrite Hc|]; eauto.
  - rewrite Hc. eauto.
Qed.

(** X14. [validateCodeforcesProblem].  It reports a problem as existing
    exactly when the list [fetchCodeforcesProblems] returns holds a problem
    with that contest id and that index; that list is then the cached one, so,
    the cache holding in-band problems only, only problems rated 800..1500
    exist for it.  While the cache is fresh, every problem
    [getRandomCodeforcesProblem] has returned is reported as existing.  When
    the list cannot be fetched and nothing is cached the answer is false. *)
Theorem validate_codeforces_problem :
  (forall today response today' contestId index st st' l,
      RandomProblem.fetchCodeforcesProblems today response today' st = (Ok l, st') ->
      snd (Catalog.validateCodeforcesProblem today response today' contestId index st) = st'
      /\ RandomProblem.cfProblemsCache st' = Some l
      /\ (fst (Catalog.validateCodeforcesProblem today response today' contestId index st)
          = true
          <-> exists problem, In problem l
                              /\ RandomProblem.contestId problem = contestId
                              /\ RandomProblem.index problem = index))
  /\ (forall today response today' contestId index st st',
         Catalog.validateCodeforcesProblem today response today' contestId index st
         = (true, st') ->
         exists c problem,
           RandomProblem.cfProblemsCache st' = Some c
           /\ In problem c
           /\ RandomProblem.contestId problem = contestId
           /\ RandomProblem.index problem = index
           /\ (cacheInBand st ->
               exists r, RandomProblem.rating problem = Some r /\ 800 <= r <= 1500))
  /\ (forall today response today' random st picked st1,
         RandomProblem.getRandomCodeforcesProblem today response today' random st
         = (Ok picked, st1) ->
         forall later response2 later',
           RandomProblem.cacheFresh later st1 = true ->
           Catalog.validateCodeforcesProblem later response2 later'
             (RandomProblem.p_contestId picked) (RandomProblem.p_index picked) st1
           = (true, st1))
  /\ (forall today response today' contestId index st,
         RandomProblem.cfProblemsCache st = None ->
         (forall data, response = Ok data -> RandomProblem.status data <> "OK") ->
         fst (Catalog.validateCodeforcesProblem today response today' contestId index st)
         = false).
Proof.
  assert (Hsome : forall (l : list RandomProblem.Problem) contestId index,
             existsb (fun p => (RandomProblem.contestId p =? contestId)
                               && String.eqb (RandomProblem.index p) index) l = true
             <-> exists problem, In problem l
                                 /\ RandomProblem.contestId problem = contestId
                                 /\ RandomProblem.index problem = index).
  { intros l contestId index. rewrite existsb_exists.
    split; intros (problem & Hin & H); exists problem; (split; [exact Hin|]).
    - apply andb_true_iff in H as [Hc Hi].
      now apply Z.eqb_eq in Hc; apply String.eqb_eq in Hi.
    - destruct H as [<- <-]. now rewrite Z.eqb_refl, String.eqb_refl. }
  split; [|split; [|split]].
  - intros today response today' contestId index st st' l Hf.
    unfold Catalog.validateCodeforcesProblem. rewrite Hf. cbn [fst snd].
    split; [reflexivity|]. split; [exact (fetch_result_is_cached _ _ _ _ _ _ Hf)|].
    apply Hsome.
  - intros today response today' contestId index st st' H.
    unfold Catalog.validateCodeforcesProblem in H.
    destruct (RandomProblem.fetchCodeforcesProblems today response today' st)
      as [[l|e] st0] eqn:Hf; [|discriminate].
    injection H as Hex <-.
    apply Hsome in Hex as (problem & Hin & Hc & Hi).
    exists l, problem. split; [exact (fetch_result_is_cached _ _ _ _ _ _ Hf)|].
    split; [exact Hin|]. split; [exact Hc|]. split; [exact Hi|].
    intros Hinv. destruct (fetchCodeforcesProblems_inBand _ _ _ _ _ _ Hinv Hf) as [Hl _].
    rewrite Forall_forall in Hl. exact (Hl problem Hin).
  - intros today response today' random st picked st1 H later response2 later' Hfresh.
    unfold RandomProblem.getRandomCodeforcesProblem in H.
    destruct (RandomProblem.fetchCodeforcesProblems today response today' st)
      as [[l|e] st0] eqn:Hf; [|discriminate].
    pose proof (fetch_result_is_cached _ _ _ _ _ _ Hf) as Hcache.
    destruct l as [|p0 l]; [discriminate|].
    destruct (RandomProblem.element (p0 :: l) _) as [problem|] eqn:He; [|discriminate].
    injection H as <- <-.
    unfold RandomProblem.element in He.
    destruct (RandomProblem.randomIndex random _) as [i|]; [|discriminate].
    destruct (0 <=? i); [|discriminate].
    unfold Catalog.validateCodeforcesProblem, RandomProblem.fetchCodeforcesProblems.
    rewrite Hfresh, Hcache. f_equal.
    apply Hsome. exists problem. split; [exact (nth_error_In _ _ He)|].
    split; reflexivity.
  - intros today response today' contestId index st Hc Hbad.
    unfold Catalog.validateCodeforcesProblem, RandomProblem.fetchCodeforcesProblems.
    assert (Hfresh : RandomProblem.cacheFresh today st = false)
      by (unfold RandomProblem.cacheFresh; now rewrite Hc).
    rewrite Hfresh.
    destruct response as [data|e]; cbn [ebind].
    + specialize (Hbad data eq_refl). apply String.eqb_neq in Hbad. rewrite Hbad.
      cbn [negb]. now rewrite Hc.
    + now rewrite Hc.
Qed.

(** X15. Once a list is cached, [fetchCodeforcesProblems] never throws
    again: in any run of later calls, whatever the times and whatever the
    requests answer, every call returns a list. *)
Theorem catalog_never_fails_after_first_fetch :
  forall (calls : list (Z * Exc RandomProblem.ApiResponse * Z))
         (st : RandomProblem.State) (c : list RandomProblem.Problem),
    RandomProblem.cfProblemsCache st = Some c ->
    Forall (fun r => exists l, r = Ok l) (fetchAll calls st)
    /\ List.length (fetchAll calls st) = List.length calls.
Proof.
  induction calls as [|[[today response] today'] rest IH]; intros st c Hc.
  - split; [constructor | reflexivity].
  - cbn [fetchAll].
    destruct (fetch_with_cache_answers today response today' st c Hc) as (l & st' & Hf).
    rewrite Hf.
    destruct (IH st' l (fetch_result_is_cached _ _ _ _ _ _ Hf)) as [Hall Hlen].
    split; [constructor; [now exists l | exact Hall] | cbn; now rewrite Hlen].
Qed.

Lemma catalog_never_fails_after_first_fetch_witness :
  Forall (fun r => exists l, r = Ok l)
         (fetchAll [(5000000, Throw "Network Error", 5000001)]
                   {| RandomProblem.cfProblemsCache := Some [demoProblem];
                      RandomProblem.cfCacheTimestamp := Some 0;
                      RandomProblem.requests := 1 |}).
Proof.
  exact (proj1 (catalog_never_fails_after_first_fetch
                  [(5000000, Throw "Network Error", 5000001)]
                  {| RandomProblem.cfProblemsCache := Some [demoProblem];
                     RandomProblem.cfCacheTimestamp := Some 0;
                     RandomProblem.requests := 1 |}
                  [demoProblem] eq_refl)).
Defined.

(** ** More about the verify command *)

Lemma processPending_expired_fails :
  forall (env : Verify.Env) (userId guildId : string)
         (pending : Verify.PendingVerification) (w : Verify.World) (e : string),
    Verify.expires_at pending < Verify.now w ->
    Verify.db_failure env (Verify.DbDeletePending (Verify.id pending)) = Some e ->
    Verify.processPending env userId guildId pending w
    = (Throw e, after env (Verify.DbDeletePending (Verify.id pending)) w).
Proof.
  intros env userId guildId pending w e Hexp Hdb.
  unfold Verify.processPending. unfold_m.
  cbn [fst snd Verify.now Verify.store Verify.log].
  unfold Time.isExpired. apply Z.ltb_lt in Hexp. rewrite Hexp.
  cbn [Verify.now Verify.store Verify.log]. rewrite Hdb. reflexivity.
Qed.

(** Every way a turn can end: time has not gone back, the pending table is
    as before or without the rows of the session's id, an outcome carries the
    platform and the username of its session, and the one throw is that of a
    failed delete of an expired session. *)
Lemma processPending_shape :
  forall (env : Verify.Env) (userId guildId : string)
         (pending : Verify.PendingVerification) (w w' : Verify.World)
         (r : Exc Verify.Outcome),
    Verify.processPending env userId guildId pending w = (r, w') ->
    Verify.now w <= Verify.now w'
    /\ (Verify.pending_verifications (Verify.store w')
        = Verify.pending_verifications (Verify.store w)
        \/ Verify.pending_verifications (Verify.store w')
           = Verify.pending_verifications
               (Verify.removePending (Verify.id pending) (Verify.store w)))
    /\ (forall out, r = Ok out ->
                    Verify.o_platform out = Verify.platform pending
                    /\ Verify.o_username out = Verify.username pending)
    /\ (forall e, r = Throw e ->
                  Verify.expires_at pending < Verify.now w
                  /\ Verify.db_failure env (Verify.DbDeletePending (Verify.id pending))
                     = Some e).
Proof.
  intros env userId guildId pending w w' r H.
  destruct (Z.ltb_spec (Verify.expires_at pending) (Verify.now w)) as [Hexp|Hle].
  - destruct (Verify.db_failure env (Verify.DbDeletePending (Verify.id pending)))
      as [e|] eqn:Hdb.
    + rewrite (processPending_expired_fails env userId guildId pending w e Hexp Hdb) in H.
      injection H as <- <-. unfold after; cbn [Verify.now Verify.store].
      split; [lia|]. split; [now left|]. split; [discriminate|].
      intros e' [= <-]. now split.
    + rewrite (processPending_expired env userId guildId pending w Hexp Hdb) in H.
      injection H as <- <-. unfold withStore, after; cbn [Verify.now Verify.store].
      split; [lia|]. split; [now right|]. split; [|discriminate].
      intros out [= <-]. now split.
  - destruct (Verify.checkSubmission env pending w) as [[[v userRank]|e] w1] eqn:Hc;
      destruct (checkSubmission_frame env pending w w1 _ Hc) as [Hst Hnow].
    + destruct (Verify.isVerified v) eqn:Hv.
      * rewrite (processPending_verified env userId guildId pending w w1 Hle v userRank Hc Hv)
          in H.
        cbv zeta in H.
        destruct (Verify.db_failure env (Verify.DbCreateLinked _));
          [|destruct (Verify.db_failure env (Verify.DbDeletePending _));
            [|destruct (Verify.assignVerificationRoles env _ _ _)]];
          injection H as <- <-;
          unfold withStore, after, Verify.removePending, Verify.putLinked;
          cbn [Verify.now Verify.store Verify.pending_verifications];
          rewrite Hst;
          (split; [lia|]);
          (split; [first [now left | now right]|]);
          (split; [intros out [= <-]; now split | discriminate]).
      * rewrite (processPending_not_verified env userId guildId pending w w1 Hle v userRank
                   Hc Hv) in H.
        injection H as <- <-. rewrite Hst.
        split; [exact Hnow|]. split; [now left|].
        split; [intros out [= <-]; now split | discriminate].
    + rewrite (processPending_check_failed env userId guildId pending w w1 Hle e Hc) in H.
      injection H as <- <-. rewrite Hst.
      split; [exact Hnow|]. split; [now left|].
      split; [intros out [= <-]; now split | discriminate].
Qed.

Lemma forEach_shape :
  forall (env : Verify.Env) (userId guildId : string)
         (l : list Verify.PendingVerification) (w w' : Verify.World)
         (r : Exc (list Verify.Outcome)),
    Verify.forEach (Verify.processPending env userId guildId) l w = (r, w') ->
    Verify.now w <= Verify.now w'
    /\ (forall v, In v (Verify.pending_verifications (Verify.store w)) ->
                  (forall p, In p l -> Verify.id p <> Verify.id v) ->
                  In v (Verify.pending_verifications (Verify.store w')))
    /\ (forall results, r = Ok results ->
          Forall2 (fun p out => Verify.o_platform out = Verify.platform p
                                /\ Verify.o_username out = Verify.username p)
                  l results).
Proof.
  intros env userId guildId l. induction l as [|p l IH]; intros w w' r H.
  - cbn in H. injection H as <- <-. split; [lia|]. split; [auto|].
    intros results [= <-]. constructor.
  - cbn [Verify.forEach] in H. unfold Verify.mbind at 1 in H.
    destruct (Verify.processPending env userId guildId p w) as [[out|e] w1] eqn:Hp;
      destruct (processPending_shape env userId guildId p w w1 _ Hp)
        as (Hn1 & Hs1 & Ho1 & _).
    + unfold Verify.mbind at 1 in H.
      destruct (Verify.forEach (Verify.processPending env userId guildId) l w1)
        as [[rs|e] w2] eqn:Hf;
        destruct (IH w1 w2 _ Hf) as (Hn2 & Hs2 & Ho2);
        injection H as <- <-.
      * split; [lia|]. split.
        -- intros v Hv Hid. apply Hs2; [|intros q Hq; apply Hid; now right].
           destruct Hs1 as [->| ->]; [exact Hv|].
           apply removePending_keeps; [exact Hv|].
           intros E. apply (Hid p); [now left | auto].
        -- intros results [= <-]. constructor; [now apply Ho1 | now apply Ho2].
      * split; [lia|]. split; [|discriminate].
        intros v Hv Hid. apply Hs2; [|intros q Hq; apply Hid; now right].
        destruct Hs1 as [->| ->]; [exact Hv|].
        apply removePending_keeps; [exact Hv|].
        intros E. apply (Hid p); [now left | auto].
    + injection H as <- <-. split; [exact Hn1|]. split; [|discriminate].
      intros v Hv Hid.
      destruct Hs1 as [->| ->]; [exact Hv|].
      apply removePending_keeps; [exact Hv|].
      intros E. apply (Hid p); [now left | auto].
Qed.

(** How the command ends, from what the loop does. *)
Lemma execute_unfold :
  forall (env : Verify.Env) (userId guildId : string) (platformFilter : option string)
         (w : Verify.World),
    Verify.execute env userId guildId platformFilter w
    = let w0 := after env (Verify.DbGetPending userId guildId) w in
      match Verify.db_failure env (Verify.DbGetPending userId guildId) with
      | Some e => (Ok (Verify.ErrorReply e), w0)
      | None =>
          match Verify.filterByPlatform platformFilter
                  (Verify.pendingOf userId guildId (Verify.store w)) with
          | [] => (Ok Verify.NoPending, w0)
          | p :: l =>
              match Verify.forEach (Verify.processPending env userId guildId) (p :: l) w0 with
              | (Ok results, w') => (Ok (Verify.Results results), w')
              | (Throw e, w') => (Ok (Verify.ErrorReply e), w')
              end
          end
      end.
Proof.
  intros env userId guildId platformFilter w. cbv zeta.
  unfold Verify.execute, Verify.tryCatch, Verify.mbind at 1,
    Verify.getPendingVerifications, Verify.dbRead, Verify.mbind at 1, Verify.await_.
  fold (after env (Verify.DbGetPending userId guildId) w).
  destruct (Verify.db_failure env (Verify.DbGetPending userId guildId)); [reflexivity|].
  change (Verify.store (after env (Verify.DbGetPending userId guildId) w))
    with (Verify.store w).
  destruct (Verify.filterByPlatform platformFilter
              (Verify.pendingOf userId guildId (Verify.store w))) as [|p l];
    [reflexivity|].
  unfold Verify.mbind at 1.
  destruct (Verify.forEach (Verify.processPending env userId guildId) (p :: l)
              (after env (Verify.DbGetPending userId guildId) w)) as [[rs|e] w'];
    reflexivity.
Qed.

(** X16. The verify command always ends with a reply, never with a throw.
    When the store cannot list the sessions the reply is the error and nothing
    else was called; when no session is selected the reply says so, the store
    is untouched and no judge was asked. *)
Theorem verify_command_always_replies :
  forall (env : Verify.Env) (userId guildId : string) (platformFilter : option string)
         (w : Verify.World),
    (exists reply w', Verify.execute env userId guildId platformFilter w = (Ok reply, w'))
    /\ (forall e,
           Verify.db_failure env (Verify.DbGetPending userId guildId) = Some e ->
           exists w',
             Verify.execute env userId guildId platformFilter w
             = (Ok (Verify.ErrorReply e), w')
             /\ Verify.store w' = Verify.store w
             /\ Verify.log w' = (Verify.log w ++ [Verify.DbGetPending userId guildId])%list)
    /\ (Verify.db_failure env (Verify.DbGetPending userId guildId) = None ->
        Verify.filterByPlatform platformFilter
          (Verify.pendingOf userId guildId (Verify.store w)) = [] ->
        exists w',
          Verify.execute env userId guildId platformFilter w = (Ok Verify.NoPending, w')
          /\ Verify.store w' = Verify.store w
          /\ Verify.log w' = (Verify.log w ++ [Verify.DbGetPending userId guildId])%list).
Proof.
  intros env userId guildId platformFilter w.
  rewrite execute_unfold. cbv zeta.
  split; [|split].
  - destruct (Verify.db_failure env _); [eauto|].
    destruct (Verify.filterByPlatform _ _); [eauto|].
    destruct (Verify.forEach _ _ _) as [[rs|e] w']; eauto.
  - intros e ->. eexists. split; [reflexivity|]. split; reflexivity.
  - intros -> ->. eexists. split; [reflexivity|]. split; reflexivity.
Qed.

(** X17. The verify command deletes no pending session but those it
    processes: a row whose id is that of no selected session is still in the
    table afterwards, however the command ends. *)
Theorem verify_command_keeps_other_sessions :
  forall (env : Verify.Env) (userId guildId : string) (platformFilter : option string)
         (w w' : Verify.World) (reply : Exc Verify.Reply)
         (other : Verify.PendingVerification),
    Verify.execute env userId guildId platformFilter w = (reply, w') ->
    In other (Verify.pending_verifications (Verify.store w)) ->
    (forall p, In p (Verify.filterByPlatform platformFilter
                       (Verify.pendingOf userId guildId (Verify.store w))) ->
               Verify.id p <> Verify.id other) ->
    In other (Verify.pending_verifications (Verify.store w')).
Proof.
  intros env userId guildId platformFilter w w' reply other H Hin Hid.
  rewrite execute_unfold in H. cbv zeta in H.
  destruct (Verify.db_failure env _); [injection H as _ <-; exact Hin|].
  destruct (Verify.filterByPlatform platformFilter
              (Verify.pendingOf userId guildId (Verify.store w))) as [|p l] eqn:Hsel;
    [injection H as _ <-; exact Hin|].
  destruct (Verify.forEach _ _ _) as [r w1] eqn:Hf.
  destruct (forEach_shape env userId guildId (p :: l) _ w1 r Hf) as (_ & Hkeep & _).
  assert (Hw : w' = w1) by (destruct r; now injection H as _ <-).
  subst w'. apply Hkeep; [exact Hin | exact Hid].
Qed.

Lemma verify_command_keeps_other_sessions_witness :
  In neighbourPending
     (Verify.pending_verifications
        (Verify.store
           (snd (Verify.execute
                   (demoEnv [scenarioSubmission "a" "COMPILATION_ERROR" 1700000005]
                            noFailure)
                   "42" "7" None (sharedWorld (scenarioStart + 60000)))))).
Proof.
  apply (verify_command_keeps_other_sessions
           (demoEnv [scenarioSubmission "a" "COMPILATION_ERROR" 1700000005] noFailure)
           "42" "7" None (sharedWorld (scenarioStart + 60000)) _ _ neighbourPending
           (surjective_pairing _)).
  - right. left. reflexivity.
  - intros p Hin. vm_compute in Hin. destruct Hin as [<-|[]]. vm_compute. discriminate.
Defined.

(** X18. One outcome per selected session, in the order of the sessions:
    when the command replies with results, the k-th result carries the
    platform and the username of the k-th selected session. *)
Theorem verify_results_follow_sessions :
  forall (env : Verify.Env) (userId guildId : string) (platformFilter : option string)
         (w w' : Verify.World) (results : list Verify.Outcome),
    Verify.execute env userId guildId platformFilter w = (Ok (Verify.Results results), w') ->
    Forall2 (fun p out => Verify.o_platform out = Verify.platform p
                          /\ Verify.o_username out = Verify.username p)
            (Verify.filterByPlatform platformFilter
               (Verify.pendingOf userId guildId (Verify.store w)))
            results
    /\ List.length results
       = List.length (Verify.filterByPlatform platformFilter
                        (Verify.pendingOf userId guildId (Verify.store w)))
    /\ results <> [].
Proof.
  intros env userId guildId platformFilter w w' results H.
  rewrite execute_unfold in H. cbv zeta in H.
  destruct (Verify.db_failure env _); [discriminate|].
  destruct (Verify.filterByPlatform platformFilter
              (Verify.pendingOf userId guildId (Verify.store w))) as [|p l] eqn:Hsel;
    [discriminate|].
  destruct (Verify.forEach _ _ _) as [[rs|e] w1] eqn:Hf; [|discriminate].
  injection H as <- <-.
  destruct (forEach_shape env userId guildId (p :: l) _ w1 _ Hf) as (_ & _ & Hres).
  pose proof (Hres rs eq_refl) as HF.
  split; [exact HF|]. split; [symmetry; exact (Forall2_length HF)|].
  inversion HF. discriminate.
Qed.

Lemma verify_results_follow_sessions_witness :
  exists results w',
    Verify.execute (demoEnv [scenarioSubmission "A" "WRONG_ANSWER" 1700000005] noFailure)
                   "42" "7" None (sharedWorld (scenarioStart + 60000))
    = (Ok (Verify.Results results), w')
    /\ List.length results = 1%nat.
Proof.
  edestruct (verify_results_follow_sessions
               (demoEnv [scenarioSubmission "A" "WRONG_ANSWER" 1700000005] noFailure)
               "42" "7" None (sharedWorld (scenarioStart + 60000)))
    as (_ & Hlen & _).
  - lazy. reflexivity.
  - do 2 eexists. split; [lazy; reflexivity | exact Hlen].
Defined.

(** X19. When an expired selected session cannot be deleted, the whole
    command replies with an error instead of results, whatever the other
    sessions were and whatever was already done for them. *)
Theorem verify_command_aborts_on_failed_delete :
  forall (env : Verify.Env) (userId guildId : string) (platformFilter : option string)
         (w : Verify.World) (pending : Verify.PendingVerification) (e : string),
    Verify.db_failure env (Verify.DbGetPending userId guildId) = None ->
    In pending (Verify.filterByPlatform platformFilter
                  (Verify.pendingOf userId guildId (Verify.store w))) ->
    Verify.expires_at pending < Verify.now w ->
    Verify.db_failure env (Verify.DbDeletePending (Verify.id pending)) = Some e ->
    exists msg w',
      Verify.execute env userId guildId platformFilter w = (Ok (Verify.ErrorReply msg), w').
Proof.
  intros env userId guildId platformFilter w pending e Hget Hin Hexp Hdel.
  rewrite execute_unfold. cbv zeta. rewrite Hget.
  assert (Hthrow : forall l w0,
             In pending l -> Verify.expires_at pending < Verify.now w0 ->
             exists msg w1,
               Verify.forEach (Verify.processPending env userId guildId) l w0
               = (Throw msg, w1)).
  { induction l as [|p l IH]; intros w0 Hl Hlt; [contradiction|].
    cbn [Verify.forEach]. unfold Verify.mbind at 1.
    destruct (Verify.processPending env userId guildId p w0) as [[out|msg] w1] eqn:Hp;
      [|eauto].
    destruct Hl as [->|Hl].
    - rewrite (processPending_expired_fails env userId guildId pending w0 e Hlt Hdel) in Hp.
      discriminate.
    - destruct (processPending_shape env userId guildId p w0 w1 _ Hp) as (Hn & _).
      destruct (IH w1 Hl ltac:(lia)) as (msg & w2 & Hf).
      unfold Verify.mbind at 1. rewrite Hf. eauto. }
  destruct (Verify.filterByPlatform platformFilter
              (Verify.pendingOf userId guildId (Verify.store w))) as [|p l] eqn:Hsel;
    [contradiction|].
  destruct (Hthrow (p :: l) (after env (Verify.DbGetPending userId guildId) w) Hin)
    as (msg & w1 & Hf).
  { unfold after; cbn [Verify.now]. lia. }
  rewrite Hf. eauto.
Qed.

Lemma verify_command_aborts_on_failed_delete_witness :
  exists msg w',
    Verify.execute (demoEnv [] deleteFails) "42" "7" None
                   (demoWorld (scenarioStart + 700000))
    = (Ok (Verify.ErrorReply msg), w').
Proof.
  apply (verify_command_aborts_on_failed_delete
           (demoEnv [] deleteFails) "42" "7" None (demoWorld (scenarioStart + 700000))
           demoPending "connection refused").
  - reflexivity.
  - left. reflexivity.
  - reflexivity.
  - reflexivity.
Defined.

Lemma checkSubmission_codeforces :
  forall (env : Verify.Env) (pending : Verify.PendingVerification) (w : Verify.World)
         (contestId : Z) (index : string),
    Verify.platform pending = "codeforces" ->
    Verify.parseCodeforcesProblemId (Verify.problem_id pending) = Ok (contestId, index) ->
    Verify.checkSubmission env pending w
    = let w1 := after env (Verify.JudgeCheck "codeforces" (Verify.username pending)) w in
      match Codeforces.checkCompilationErrorSubmission
              (Verify.cf_getRecentSubmissions env) (Verify.username pending)
              contestId index (Verify.started_at pending) with
      | Throw e => (Throw e, w1)
      | Ok r =>
          if Codeforces.verified r then
            (Ok (Some (Verify.ofCodeforces r),
                 match Verify.cf_getUserRank env (Verify.username pending) with
                 | Ok userRank => Some userRank
                 | Throw _ => None
                 end),
             after env (Verify.JudgeRank (Verify.username pending)) w1)
          else (Ok (Some (Verify.ofCodeforces r), None), w1)
      end.
Proof.
  intros env pending w contestId index Hp Hparse. cbv zeta.
  unfold Verify.checkSubmission. rewrite Hp.
  change ("codeforces" =? "codeforces")%string with true. cbv iota.
  unfold Verify.mbind at 1, Verify.lift at 1. rewrite Hparse. cbv beta iota.
  unfold Verify.mbind at 1, Verify.call at 1, Verify.mbind at 1, Verify.await_ at 1,
    Verify.lift at 1.
  fold (after env (Verify.JudgeCheck "codeforces" (Verify.username pending)) w).
  destruct (Codeforces.checkCompilationErrorSubmission _ _ _ _ _) as [r|e]; [|reflexivity].
  destruct (Codeforces.verified r); [|reflexivity].
  unfold_m. cbn [fst snd Verify.now Verify.store Verify.log].
  destruct (Verify.cf_getUserRank env (Verify.username pending)); reflexivity.
Qed.

(** X20. A rank that cannot be fetched does not stop a Codeforces
    verification: when the matcher verifies and [getUserRank] throws, the turn
    still succeeds, with no rank in the outcome and in the linked account, and
    the roles are asked for without a rank. *)
Theorem verify_without_rank :
  forall (env : Verify.Env) (userId guildId : string)
         (pending : Verify.PendingVerification) (w : Verify.World)
         (contestId : Z) (index : string) (r : Codeforces.VerificationResult)
         (e : string) (roles : Verify.RoleResults),
    Verify.platform pending = "codeforces" ->
    Verify.now w <= Verify.expires_at pending ->
    Verify.parseCodeforcesProblemId (Verify.problem_id pending) = Ok (contestId, index) ->
    Codeforces.checkCompilationErrorSubmission
      (Verify.cf_getRecentSubmissions env) (Verify.username pending)
      contestId index (Verify.started_at pending) = Ok r ->
    Codeforces.verified r = true ->
    Verify.cf_getUserRank env (Verify.username pending) = Throw e ->
    Verify.db_failure env (Verify.DbCreateLinked (linkOf userId guildId pending None))
    = None ->
    Verify.db_failure env (Verify.DbDeletePending (Verify.id pending)) = None ->
    Verify.assignVerificationRoles env guildId "codeforces" None = Ok roles ->
    exists out w',
      Verify.processPending env userId guildId pending w = (Ok out, w')
      /\ Verify.success out = true
      /\ Verify.rank out = None
      /\ Verify.rolesAssigned out = Some roles
      /\ In (linkOf userId guildId pending None) (Verify.linked_accounts (Verify.store w'))
      /\ In (Verify.AssignRoles guildId "codeforces" None) (Verify.log w').
Proof.
  intros env userId guildId pending w contestId index r e roles
         Hp Hle Hparse Hcheck Hv Hrank Hcreate Hdelete Hroles.
  pose proof (checkSubmission_codeforces env pending w contestId index Hp Hparse) as Hc.
  cbv zeta in Hc. rewrite Hcheck, Hv, Hrank in Hc.
  assert (Hver : Verify.isVerified (Some (Verify.ofCodeforces r)) = true) by exact Hv.
  rewrite (processPending_verified env userId guildId pending w _ Hle _ None Hc Hver).
  cbv zeta. rewrite Hcreate, Hdelete, Hp, Hroles.
  eexists. eexists. split; [reflexivity|].
  cbn [Verify.success Verify.rank Verify.rolesAssigned].
  split; [reflexivity|]. split; [reflexivity|]. split; [reflexivity|].
  unfold after, withStore; cbn [Verify.store Verify.log]. split.
  - unfold Verify.removePending; cbn [Verify.linked_accounts]. apply putLinked_In.
  - apply in_or_app. right. now left.
Qed.

Lemma verify_without_rank_witness :
  exists out w',
    Verify.processPending
      (withoutRank
         (demoEnv [scenarioSubmission "a" "COMPILATION_ERROR" 1700000005] noFailure))
      "42" "7" demoPending (demoWorld (scenarioStart + 60000)) = (Ok out, w')
    /\ Verify.success out = true
    /\ Verify.rank out = None.
Proof.
  edestruct (verify_without_rank
               (withoutRank
                  (demoEnv [scenarioSubmission "a" "COMPILATION_ERROR" 1700000005]
                           noFailure))
               "42" "7" demoPending (demoWorld (scenarioStart + 60000)))
    as (out & w' & Hr & Hs & Hrank & _).
  - reflexivity.
  - vm_compute. discriminate.
  - lazy. reflexivity.
  - lazy. reflexivity.
  - reflexivity.
  - reflexivity.
  - reflexivity.
  - reflexivity.
  - reflexivity.
  - exists out, w'. split; [exact Hr|]. split; [exact Hs | exact Hrank].
Defined.

(** X21. A session whose platform is neither "codeforces" nor "codechef"
    is never checked against a judge: an unexpired turn leaves the world as it
    is and answers "No valid Compilation Error submission found." with the
    remaining time. *)
Theorem verify_unknown_platform :
  forall (env : Verify.Env) (userId guildId : string)
         (pending : Verify.PendingVerification) (w : Verify.World),
    Verify.platform pending <> "codeforces" ->
    Verify.platform pending <> "codechef" ->
    Verify.now w <= Verify.expires_at pending ->
    exists out,
      Verify.processPending env userId guildId pending w = (Ok out, w)
      /\ Verify.success out = false
      /\ Verify.message out = "No valid Compilation Error submission found."
      /\ Verify.timeRemaining out
         = Some (Time.formatted
                   (Time.getRemainingTime (Verify.now w) (Verify.expires_at pending))).
Proof.
  intros env userId guildId pending w Hcf Hcc Hle.
  assert (Hc : Verify.checkSubmission env pending w = (Ok (None, None), w)).
  { unfold Verify.checkSubmission.
    apply String.eqb_neq in Hcf. apply String.eqb_neq in Hcc. now rewrite Hcf, Hcc. }
  rewrite (processPending_not_verified env userId guildId pending w w Hle None None Hc
             eq_refl).
  eexists. split; [reflexivity|]. repeat split; reflexivity.
Qed.

Lemma verify_unknown_platform_witness :
  exists out,
    Verify.processPending (demoEnv [] noFailure) "42" "7" strayPending
                          (demoWorld (scenarioStart + 60000))
    = (Ok out, demoWorld (scenarioStart + 60000))
    /\ Verify.success out = false
    /\ Verify.message out = "No valid Compilation Error submission found.".
Proof.
  edestruct (verify_unknown_platform
               (demoEnv [] noFailure) "42" "7" strayPending
               (demoWorld (scenarioStart + 60000)))
    as (out & Hr & Hs & Hm & _).
  - discriminate.
  - discriminate.
  - vm_compute. discriminate.
  - exists out. split; [exact Hr|]. split; [exact Hs | exact Hm].
Defined.

(** X22. A judge that cannot be asked.  On an unexpired session, when the
    Codeforces submissions cannot be fetched, or the CodeChef status page
    cannot, the turn answers "Failed to check submissions: ..." with the
    error of the service (prefixed once more by the CodeChef service), asks
    for nothing else, and leaves the store, hence the session, as it is. *)
Theorem verify_judge_failure :
  forall (env : Verify.Env) (userId guildId : string)
         (pending : Verify.PendingVerification) (w : Verify.World),
    Verify.now w <= Verify.expires_at pending ->
    (forall contestId index e,
        Verify.platform pending = "codeforces" ->
        Verify.parseCodeforcesProblemId (Verify.problem_id pending)
        = Ok (contestId, index) ->
        Verify.cf_getRecentSubmissions env (Verify.username pending) 20 = Throw e ->
        exists w',
          Verify.processPending env userId guildId pending w
          = (Ok (Verify.failure pending ("Failed to check submissions: " ++ e)), w')
          /\ Verify.store w' = Verify.store w
          /\ Verify.log w'
             = (Verify.log w
                  ++ [Verify.JudgeCheck "codeforces" (Verify.username pending)])%list)
    /\ (forall m,
           Verify.platform pending = "codechef" ->
           CodeChef.axios_get (fun st => st <? 500)
             (Verify.cc_getStatusPage env (Verify.problem_id pending)
                                      (Verify.username pending)) = Throw m ->
           exists w',
             Verify.processPending env userId guildId pending w
             = (Ok (Verify.failure pending
                      ("Failed to check submissions: Failed to check CodeChef submissions: "
                         ++ m)), w')
             /\ Verify.store w' = Verify.store w
             /\ Verify.log w'
                = (Verify.log w
                     ++ [Verify.JudgeCheck "codechef" (Verify.username pending)])%list).
Proof.
  intros env userId guildId pending w Hle. split.
  - intros contestId index e Hp Hparse Hfetch.
    pose proof (checkSubmission_codeforces env pending w contestId index Hp Hparse) as Hc.
    cbv zeta in Hc.
    rewrite (codeforces_fetch_failure_rethrown _ _ _ _ _ e Hfetch) in Hc.
    rewrite (processPending_check_failed env userId guildId pending w _ Hle e Hc).
    eexists. split; [reflexivity|]. split; reflexivity.
  - intros m Hp Hpage.
    assert (Hc : Verify.checkSubmission env pending w
                 = (Throw ("Failed to check CodeChef submissions: " ++ m),
                    after env (Verify.JudgeCheck "codechef" (Verify.username pending)) w)).
    { unfold Verify.checkSubmission. rewrite Hp.
      change ("codechef" =? "codeforces")%string with false.
      change ("codechef" =? "codechef")%string with true. cbv iota.
      unfold Verify.mbind at 1, Verify.call at 1, Verify.mbind at 1, Verify.await_ at 1,
        Verify.lift at 1.
      unfold CodeChef.checkCompilationErrorSubmission. rewrite Hpage. reflexivity. }
    rewrite (processPending_check_failed env userId guildId pending w _ Hle _ Hc).
    eexists. split; [reflexivity|]. split; reflexivity.
Qed.

Lemma verify_judge_failure_witness :
  exists w',
    Verify.processPending (withoutSubmissions (demoEnv [] noFailure)) "42" "7" demoPending
                          (demoWorld (scenarioStart + 60000))
    = (Ok (Verify.failure demoPending ("Failed to check submissions: " ++ timedOut)), w')
    /\ Verify.store w' = Verify.store (demoWorld (scenarioStart + 60000)).
Proof.
  assert (Hle : Verify.now (demoWorld (scenarioStart + 60000))
                <= Verify.expires_at demoPending) by (vm_compute; discriminate).
  destruct (proj1 (verify_judge_failure
                     (withoutSubmissions (demoEnv [] noFailure)) "42" "7" demoPending
                     (demoWorld (scenarioStart + 60000)) Hle)
                  1000 "A" timedOut eq_refl eq_refl eq_refl)
    as (w' & Hr & Hst & _).
  exists w'. split; [exact Hr | exact Hst].
Defined.

(** ** More about the link command *)

Lemma putPending_keeps_others (today : Z) (n : Verify.NewPending) (st : Verify.Store)
      (v : Verify.PendingVerification) :
  In v (Verify.pending_verifications st) ->
  Verify.hasKey (Verify.n_discord_user_id n) (Verify.n_guild_id n) (Verify.n_platform n) v
  = false ->
  In v (Verify.pending_verifications (Verify.putPending today n st)).
Proof.
  intros Hin Hk. unfold Verify.putPending; cbn [Verify.pending_verifications].
  apply in_or_app. left. apply filter_In. split; [exact Hin | now rewrite Hk].
Qed.

(** What a Codeforces link leaves behind, by the way it ends. *)
Lemma handleLinkCodeforces_store :
  forall (env : Verify.Env) (name userId guildId : string) (w w' : Verify.World)
         (r : Exc Verify.LinkReply),
    Verify.handleLinkCodeforces env name userId guildId w = (r, w') ->
    (exists problem expiresAt today,
        r = Ok (Verify.Challenge problem expiresAt)
        /\ Verify.cf_randomProblem env = Ok problem
        /\ Verify.now w <= today <= Verify.now w'
        /\ expiresAt = Time.getExpirationTime (Verify.timeZone env) today
                                              (Verify.VERIFICATION_TIMEOUT env)
        /\ Verify.store w'
           = Verify.putPending (Verify.now w')
               {| Verify.n_discord_user_id := userId;
                  Verify.n_guild_id := guildId;
                  Verify.n_platform := "codeforces";
                  Verify.n_username :=
                    match Verify.cf_getUserInfo env name with
                    | Ok userInfo => Verify.handle userInfo
                    | Throw _ => name
                    end;
                  Verify.n_problem_id := RandomProblem.p_id problem;
                  Verify.n_problem_url := RandomProblem.p_url problem;
                  Verify.n_problem_name := RandomProblem.p_name problem;
                  Verify.n_expires_at := expiresAt |}
               (Verify.store w))
    \/ ((forall problem expiresAt, r <> Ok (Verify.Challenge problem expiresAt))
        /\ Verify.store w' = Verify.store w
        /\ (r = Ok Verify.UserNotFound \/ r = Ok Verify.LinkedElsewhere ->
            forall ev, In ev (Verify.log w') ->
                       In ev (Verify.log w) \/ ev <> Verify.PickProblem "codeforces")).
Proof.
  intros env name userId guildId w w' r H.
  unfold Verify.handleLinkCodeforces in H. unfold_m_in H.
  cbn [fst snd Verify.now Verify.store Verify.log] in H.
  destruct (Verify.cf_validateUser env name) as [[|]|e];
    cbn [negb fst snd Verify.now Verify.store Verify.log] in H.
  2,3: injection H as <- <-; right; (split; [discriminate|]); (split; [reflexivity|]);
       intros _ ev Hev; apply in_app_or in Hev as [Hev|[<-|[]]];
       [now left | right; discriminate].
  destruct (Verify.db_failure env (Verify.DbIsLinkedByOther _ _ _ _));
    cbn [fst snd Verify.now Verify.store Verify.log] in H.
  1: injection H as <- <-; right; (split; [discriminate|]); (split; [reflexivity|]);
     intros [[=]|[=]].
  destruct (Verify.linkedByOther _ _ _ _ _);
    cbn [fst snd Verify.now Verify.store Verify.log] in H.
  1: { injection H as <- <-. right. split; [discriminate|]. split; [reflexivity|].
       intros _ ev Hev. rewrite <- app_assoc in Hev.
       apply in_app_or in Hev as [Hev|[<-|[<-|[]]]];
         [now left | right; discriminate | right; discriminate]. }
  destruct (Verify.cf_getUserInfo env name) as [u|e];
    cbn [fst snd Verify.now Verify.store Verify.log] in H;
    (destruct (Verify.cf_randomProblem env) as [problem|e'];
     cbn [fst snd Verify.now Verify.store Verify.log] in H;
     [|injection H as <- <-; right; (split; [discriminate|]); (split; [reflexivity|]);
       intros [[=]|[=]]]);
    (destruct (Verify.db_failure env (Verify.DbCreatePending _));
     cbn [fst snd Verify.now Verify.store Verify.log] in H;
     [injection H as <- <-; right; (split; [discriminate|]); (split; [reflexivity|]);
      intros [[=]|[=]]|]);
    injection H as <- <-; left;
    eexists; eexists; eexists;
    (split; [reflexivity|]); (split; [reflexivity|]);
    cbn [Verify.now Verify.store];
    refine (conj _ (conj eq_refl eq_refl));
    split; lia.
Qed.

(** What a CodeChef link leaves behind, by the way it ends. *)
Lemma handleLinkCodechef_store :
  forall (env : Verify.Env) (cc : Link.CodeChefEnv) (name userId guildId : string)
         (w w' : Verify.World) (r : Exc Link.CodeChefReply),
    Link.handleLinkCodechef env cc name userId guildId w = (r, w') ->
    (exists problem expiresAt today,
        r = Ok (Link.CcChallenge problem expiresAt)
        /\ Catalog.getRandomCodeChefProblem (Link.cc_random cc) = Ok problem
        /\ Verify.now w <= today <= Verify.now w'
        /\ expiresAt = Time.getExpirationTime (Verify.timeZone env) today
                                              (Verify.VERIFICATION_TIMEOUT env)
        /\ Verify.store w'
           = Verify.putPending (Verify.now w')
               {| Verify.n_discord_user_id := userId;
                  Verify.n_guild_id := guildId;
                  Verify.n_platform := "codechef";
                  Verify.n_username := name;
                  Verify.n_problem_id := Catalog.id problem;
                  Verify.n_problem_url := Catalog.url problem;
                  Verify.n_problem_name := Catalog.name problem;
                  Verify.n_expires_at := expiresAt |}
               (Verify.store w))
    \/ ((forall problem expiresAt, r <> Ok (Link.CcChallenge problem expiresAt))
        /\ Verify.store w' = Verify.store w).
Proof.
  intros env cc name userId guildId w w' r H.
  unfold Link.handleLinkCodechef in H. unfold_m_in H.
  cbn [fst snd Verify.now Verify.store Verify.log] in H.
  destruct (Link.cc_validateUser cc name) as [[|]|e];
    cbn [negb fst snd Verify.now Verify.store Verify.log] in H.
  2,3: injection H as <- <-; right; split; [discriminate | reflexivity].
  destruct (Verify.db_failure env (Verify.DbIsLinkedByOther _ _ _ _));
    cbn [fst snd Verify.now Verify.store Verify.log] in H.
  1: injection H as <- <-; right; split; [discriminate | reflexivity].
  destruct (Verify.linkedByOther _ _ _ _ _);
    cbn [fst snd Verify.now Verify.store Verify.log] in H.
  1: injection H as <- <-; right; split; [discriminate | reflexivity].
  destruct (Link.cc_getUserInfo cc name) as [u|e];
    cbn [fst snd Verify.now Verify.store Verify.log] in H;
    (destruct (Catalog.getRandomCodeChefProblem (Link.cc_random cc)) as [problem|e'];
     cbn [fst snd Verify.now Verify.store Verify.log] in H;
     [|injection H as <- <-; right; split; [discriminate | reflexivity]]);
    (destruct (Verify.db_failure env (Verify.DbCreatePending _));
     cbn [fst snd Verify.now Verify.store Verify.log] in H;
     [injection H as <- <-; right; split; [discriminate | reflexivity]|]);
    injection H as <- <-; left;
    eexists; eexists; eexists;
    (split; [reflexivity|]); (split; [reflexivity|]);
    cbn [Verify.now Verify.store];
    refine (conj _ (conj eq_refl eq_refl));
    split; lia.
Qed.

(** X23. A Codeforces link that does not end with a challenge leaves the
    store as it was: no session is created when the user is not found, when
    the account is linked by someone else, or when a judge, the catalog or the
    store fails.  A user the service reports as missing is refused at once,
    and a refusal never asks the catalog for a problem. *)
Theorem link_refusal_creates_nothing :
  forall (env : Verify.Env) (name userId guildId : string) (w w' : Verify.World)
         (r : Exc Verify.LinkReply),
    Verify.handleLinkCodeforces env name userId guildId w = (r, w') ->
    ((forall problem expiresAt, r <> Ok (Verify.Challenge problem expiresAt)) ->
     Verify.store w' = Verify.store w)
    /\ (Verify.cf_validateUser env name = Ok false ->
        r = Ok Verify.UserNotFound
        /\ Verify.log w'
           = (Verify.log w ++ [Verify.JudgeValidate "codeforces" name])%list)
    /\ (r = Ok Verify.UserNotFound \/ r = Ok Verify.LinkedElsewhere ->
        ~ In (Verify.PickProblem "codeforces") (Verify.log w) ->
        ~ In (Verify.PickProblem "codeforces") (Verify.log w'))
    /\ (forall e, Verify.cf_randomProblem env = Throw e ->
                  Verify.store w' = Verify.store w).
Proof.
  intros env name userId guildId w w' r H.
  destruct (handleLinkCodeforces_store env name userId guildId w w' r H)
    as [(problem & e & today & -> & Hpick & _) | (Hno & Hst & Hlog)].
  - split; [intros Hne; now elim (Hne problem e)|].
    split.
    + intros Hv. exfalso. unfold Verify.handleLinkCodeforces in H. unfold_m_in H.
      rewrite Hv in H. cbn in H. discriminate.
    + split; [intros [[=]|[=]]|]. intros e' He. congruence.
  - split; [intros _; exact Hst|]. split.
    + intros Hv. unfold Verify.handleLinkCodeforces in H. unfold_m_in H.
      rewrite Hv in H. cbn [negb fst snd] in H. injection H as <- <-. now split.
    + split; [|intros _ _; exact Hst].
      intros Hr Hnot Hin. destruct (Hlog Hr _ Hin) as [Hold|Hne]; [auto | congruence].
Qed.

Lemma link_refusal_creates_nothing_witness :
  Verify.store
    (snd (Verify.handleLinkCodeforces (demoEnv [] storeDown) "tourist" "42" "7"
                                      (demoWorld scenarioStart)))
  = Verify.store (demoWorld scenarioStart).
Proof.
  refine (proj1 (link_refusal_creates_nothing
                   (demoEnv [] storeDown) "tourist" "42" "7" (demoWorld scenarioStart)
                   _ _ (surjective_pairing _)) _).
  intros problem expiresAt. vm_compute. discriminate.
Defined.

(** X24. The session a Codeforces link creates.  When the link ends with a
    challenge, the one pending session of the user, guild and platform holds
    the handle as the Codeforces API spells it (the typed name when the user
    info cannot be fetched), the id, URL and name of the problem the catalog
    returned, and the expiry shown.  The expiry is the configured number of
    minutes after a reading of the clock taken during the command, moved back
    by the difference between the offset by which the host's time zone reads
    the local time of the expiry and its offset at the reading; where the two
    agree it is exactly that many minutes after the reading.  The session is
    stamped as started no earlier than the reading. *)
Theorem link_session_content :
  forall (env : Verify.Env) (name userId guildId : string) (w w' : Verify.World)
         (problem : RandomProblem.Picked) (expiresAt : Z),
    Verify.handleLinkCodeforces env name userId guildId w
    = (Ok (Verify.Challenge problem expiresAt), w') ->
    exists s today,
      filter (Verify.hasKey userId guildId "codeforces")
             (Verify.pending_verifications (Verify.store w')) = [s]
      /\ Verify.cf_randomProblem env = Ok problem
      /\ Verify.username s
         = match Verify.cf_getUserInfo env name with
           | Ok userInfo => Verify.handle userInfo
           | Throw _ => name
           end
      /\ Verify.problem_id s = RandomProblem.p_id problem
      /\ Verify.problem_url s = RandomProblem.p_url problem
      /\ Verify.problem_name s = RandomProblem.p_name problem
      /\ Verify.expires_at s = expiresAt
      /\ expiresAt
         = today + Verify.VERIFICATION_TIMEOUT env * 60000
           - (Time.offsetOfLocal (Verify.timeZone env)
                (today + Time.offsetAt (Verify.timeZone env) today
                 + Verify.VERIFICATION_TIMEOUT env * 60000)
              - Time.offsetAt (Verify.timeZone env) today)
      /\ (Time.offsetOfLocal (Verify.timeZone env)
            (today + Time.offsetAt (Verify.timeZone env) today
             + Verify.VERIFICATION_TIMEOUT env * 60000)
          = Time.offsetAt (Verify.timeZone env) today ->
          expiresAt = today + Verify.VERIFICATION_TIMEOUT env * 60000)
      /\ Verify.now w <= today <= Verify.started_at s
      /\ Verify.started_at s <= Verify.now w'.
Proof.
  intros env name userId guildId w w' problem expiresAt H.
  destruct (handleLinkCodeforces_store env name userId guildId w w' _ H)
    as [(problem' & e & today & [= <- <-] & Hpick & Htoday & He & Hst) | (Hno & _)];
    [|now elim (Hno problem expiresAt)].
  rewrite Hst.
  eexists. exists today.
  split; [exact (putPending_supersedes _ _ _)|].
  cbn [newRow Verify.username Verify.problem_id Verify.problem_url Verify.problem_name
       Verify.expires_at Verify.started_at Verify.n_username Verify.n_problem_id
       Verify.n_problem_url Verify.n_problem_name Verify.n_expires_at].
  split; [exact Hpick|]. split; [reflexivity|]. split; [reflexivity|].
  split; [reflexivity|]. split; [reflexivity|]. split; [reflexivity|].
  unfold Time.getExpirationTime in He. cbv zeta in He.
  split; [lia|]. split; [lia|]. split; [exact Htoday | lia].
Qed.

Lemma link_session_content_witness :
  exists problem expiresAt w' s,
    Verify.handleLinkCodeforces (demoEnv [] noFailure) "tourist" "42" "7"
                                (demoWorld scenarioStart)
    = (Ok (Verify.Challenge problem expiresAt), w')
    /\ filter (Verify.hasKey "42" "7" "codeforces")
              (Verify.pending_verifications (Verify.store w')) = [s]
    /\ Verify.username s = "tourist"
    /\ Verify.expires_at s = expiresAt.
Proof.
  edestruct (link_session_content
               (demoEnv [] noFailure) "tourist" "42" "7" (demoWorld scenarioStart))
    as (s & today & Hs & _ & Hu & _ & _ & _ & He & _).
  - vm_compute. reflexivity.
  - do 3 eexists. exists s. split; [lazy; reflexivity|].
    split; [exact Hs|]. split; [exact Hu | exact He].
Defined.

(** X25. A link touches the sessions of its own key only: after a
    Codeforces link or a CodeChef link, however it ends, every pending session
    of another user, guild or platform is still in the table; so a user's
    Codeforces and CodeChef sessions live side by side. *)
Theorem link_keeps_other_sessions :
  forall (env : Verify.Env) (cc : Link.CodeChefEnv) (name userId guildId : string)
         (w : Verify.World) (other : Verify.PendingVerification),
    In other (Verify.pending_verifications (Verify.store w)) ->
    (Verify.hasKey userId guildId "codeforces" other = false ->
     In other (Verify.pending_verifications
                 (Verify.store
                    (snd (Verify.handleLinkCodeforces env name userId guildId w)))))
    /\ (Verify.hasKey userId guildId "codechef" other = false ->
        In other (Verify.pending_verifications
                    (Verify.store
                       (snd (Link.handleLinkCodechef env cc name userId guildId w))))).
Proof.
  intros env cc name userId guildId w other Hin. split; intros Hk.
  - destruct (Verify.handleLinkCodeforces env name userId guildId w) as [r w'] eqn:H.
    cbn [snd].
    destruct (handleLinkCodeforces_store env name userId guildId w w' r H)
      as [(problem & e & today & _ & _ & _ & _ & ->) | (_ & -> & _)]; [|exact Hin].
    apply putPending_keeps_others; [exact Hin | exact Hk].
  - destruct (Link.handleLinkCodechef env cc name userId guildId w) as [r w'] eqn:H.
    cbn [snd].
    destruct (handleLinkCodechef_store env cc name userId guildId w w' r H)
      as [(problem & e & today & _ & _ & _ & _ & ->) | (_ & ->)]; [|exact Hin].
    apply putPending_keeps_others; [exact Hin | exact Hk].
Qed.

Lemma link_keeps_other_sessions_witness :
  In neighbourPending
     (Verify.pending_verifications
        (Verify.store
           (snd (Verify.handleLinkCodeforces (demoEnv [] noFailure) "tourist" "42" "7"
                                             (sharedWorld scenarioStart))))).
Proof.
  apply (proj1 (link_keeps_other_sessions
                  (demoEnv [] noFailure) demoCodeChef "tourist" "42" "7"
                  (sharedWorld scenarioStart) neighbourPending
                  (or_intror (or_introl eq_refl)))).
  reflexivity.
Defined.



(** ** The rank as [/setup] displays it *)

Lemma upper_char_facts (c : ascii) :
  Js.lower_char (Js.upper_char c) = Js.lower_char c
  /\ Js.upper_char (Js.upper_char c) = Js.upper_char c
  /\ Ascii.eqb (Js.upper_char c) " " = Ascii.eqb c " ".
Proof.
  destruct c as [[] [] [] [] [] [] [] []]; vm_compute; repeat split.
Qed.

Lemma split_space_not_nil (s : string) : Setup.split_space s <> [].
Proof.
  destruct s as [|c s]; cbn; [discriminate|].
  destruct (Ascii.eqb c " "); [discriminate|].
  destruct (Setup.split_space s); discriminate.
Qed.

Lemma split_space_words (s : string) : forallb no_space (Setup.split_space s) = true.
Proof.
  induction s as [|c s IH]; [reflexivity|].
  cbn [Setup.split_space].
  destruct (Ascii.eqb c " ") eqn:Hc; [cbn; exact IH|].
  destruct (Setup.split_space s) as [|w ws]; [cbn; now rewrite Hc|].
  cbn in IH |- *. rewrite Hc. exact IH.
Qed.

Lemma join_split_space (s : string) : Setup.join_space (Setup.split_space s) = s.
Proof.
  induction s as [|c s IH]; [reflexivity|].
  cbn [Setup.split_space].
  destruct (Ascii.eqb c " ") eqn:Hc.
  - apply Ascii.eqb_eq in Hc. subst c.
    pose proof (split_space_not_nil s) as Hn.
    destruct (Setup.split_space s) as [|w ws]; [congruence|].
    change (Setup.join_space (EmptyString :: w :: ws))
      with (String " " (Setup.join_space (w :: ws))).
    now rewrite IH.
  - pose proof (split_space_not_nil s) as Hn.
    destruct (Setup.split_space s) as [|w ws]; [congruence|].
    rewrite <- IH. destruct ws; reflexivity.
Qed.

Lemma split_join_space (ws : list string) :
  ws <> [] -> forallb no_space ws = true ->
  Setup.split_space (Setup.join_space ws) = ws.
Proof.
  induction ws as [|w ws IH]; [congruence|]. intros _ Hall.
  cbn [forallb] in Hall. apply andb_prop in Hall as [Hw Hws].
  destruct ws as [|w' ws].
  - cbn [Setup.join_space]. clear IH Hws.
    induction w as [|c w IHw]; [reflexivity|].
    cbn [no_space] in Hw. apply andb_prop in Hw as [Hc Hw].
    cbn [Setup.split_space]. apply negb_true_iff in Hc. rewrite Hc.
    now rewrite (IHw Hw).
  - specialize (IH ltac:(discriminate) Hws).
    change (Setup.join_space (w :: w' :: ws))
      with (w ++ String " " (Setup.join_space (w' :: ws))).
    induction w as [|c w IHw].
    + cbn [append Setup.split_space]. change (Ascii.eqb " " " ") with true.
      cbv iota. now rewrite IH.
    + cbn [no_space] in Hw. apply andb_prop in Hw as [Hc Hw].
      cbn [append Setup.split_space]. apply negb_true_iff in Hc. rewrite Hc.
      now rewrite (IHw Hw).
Qed.

Lemma capitalize_words (ws : list string) :
  forallb no_space ws = true -> forallb no_space (map Setup.capitalize ws) = true.
Proof.
  induction ws as [|w ws IH]; [reflexivity|].
  cbn [forallb map]. intros H. apply andb_prop in H as [Hw Hws].
  rewrite (IH Hws), andb_true_r.
  destruct w as [|c w]; [reflexivity|].
  cbn [Setup.capitalize no_space] in Hw |- *.
  now rewrite (proj2 (proj2 (upper_char_facts c))).
Qed.

Lemma lower_app (a b : string) :
  Js.toLowerCase (a ++ b) = Js.toLowerCase a ++ Js.toLowerCase b.
Proof.
  unfold Js.toLowerCase. induction a as [|c a IH]; [reflexivity|].
  cbn. now rewrite IH.
Qed.

Lemma lower_capitalize (w : string) :
  Js.toLowerCase (Setup.capitalize w) = Js.toLowerCase w.
Proof.
  destruct w as [|c w]; [reflexivity|].
  unfold Js.toLowerCase. cbn. now rewrite (proj1 (upper_char_facts c)).
Qed.

Lemma lower_join (ws : list string) :
  Js.toLowerCase (Setup.join_space (map Setup.capitalize ws))
  = Js.toLowerCase (Setup.join_space ws).
Proof.
  induction ws as [|w ws IH]; [reflexivity|].
  destruct ws as [|w' ws]; [exact (lower_capitalize w)|].
  change (Setup.join_space (map Setup.capitalize (w :: w' :: ws)))
    with (Setup.capitalize w
          ++ String " " (Setup.join_space (map Setup.capitalize (w' :: ws)))).
  change (Setup.join_space (w :: w' :: ws))
    with (w ++ String " " (Setup.join_space (w' :: ws))).
  rewrite !lower_app, lower_capitalize. f_equal.
  unfold Js.toLowerCase in IH |- *. cbn [Js.map_string]. now rewrite IH.
Qed.

(** X27. The rank shown by [/setup rankrole] and [/setup view] differs from
    the stored rank by letter case only (same length, same text once both
    are put in lower case), its words are the words of the rank with the
    first character in upper case, spaces kept as they are, and displaying a
    displayed rank changes nothing.  Text is ASCII. *)
Theorem display_rank_changes_case_only :
  forall rank : string,
    Js.toLowerCase (Setup.displayRank rank) = Js.toLowerCase rank
    /\ String.length (Setup.displayRank rank) = String.length rank
    /\ Setup.split_space (Setup.displayRank rank)
       = map Setup.capitalize (Setup.split_space rank)
    /\ Setup.displayRank (Setup.displayRank rank) = Setup.displayRank rank.
Proof.
  intros rank. unfold Setup.displayRank.
  assert (Hsplit : Setup.split_space
                     (Setup.join_space (map Setup.capitalize (Setup.split_space rank)))
                   = map Setup.capitalize (Setup.split_space rank)).
  { apply split_join_space.
    - pose proof (split_space_not_nil rank).
      destruct (Setup.split_space rank); [congruence | discriminate].
    - apply capitalize_words, split_space_words. }
  assert (Hlow : Js.toLowerCase
                   (Setup.join_space (map Setup.capitalize (Setup.split_space rank)))
                 = Js.toLowerCase rank)
    by now rewrite lower_join, join_split_space.
  split; [exact Hlow|]. split.
  - apply (f_equal String.length) in Hlow.
    assert (Hlen : forall s, String.length (Js.toLowerCase s) = String.length s).
    { unfold Js.toLowerCase. induction s as [|c s IH]; cbn; congruence. }
    now rewrite !Hlen in Hlow.
  - split; [exact Hsplit|].
    rewrite Hsplit, map_map. f_equal. apply map_ext.
    intros [|c w]; [reflexivity|]. cbn [Setup.capitalize].
    now rewrite (proj1 (proj2 (upper_char_facts c))).
Qed.

(** ** Where the commands are deployed *)

Lemma indexOf_first (x : string) (pre rest : list string) :
  ~ In x pre -> Deploy.indexOf x (pre ++ x :: rest)%list = Some (List.length pre).
Proof.
  induction pre as [|a pre IH]; intros Hnot; cbn [app Deploy.indexOf List.length].
  - now rewrite String.eqb_refl.
  - destruct (String.eqb a x) eqn:Ha.
    + apply String.eqb_eq in Ha. elim Hnot. now left.
    + rewrite IH; [reflexivity|]. intros Hin. apply Hnot. now right.
Qed.

Lemma indexOf_split (x : string) (args : list string) (i : nat) :
  Deploy.indexOf x args = Some i ->
  exists pre rest, args = (pre ++ x :: rest)%list /\ ~ In x pre /\ List.length pre = i.
Proof.
  revert i. induction args as [|a args IH]; intros i H; [discriminate|].
  cbn [Deploy.indexOf] in H. destruct (String.eqb a x) eqn:Ha.
  - apply String.eqb_eq in Ha. subst a. injection H as <-.
    exists [], args. now repeat split.
  - destruct (Deploy.indexOf x args) as [j|]; [|discriminate]. injection H as <-.
    destruct (IH j eq_refl) as (pre & rest & -> & Hnot & Hlen).
    exists (a :: pre), rest. split; [reflexivity|]. split; [|cbn; congruence].
    intros [->|Hin]; [|auto]. now rewrite String.eqb_refl in Ha.
Qed.

Lemma guildId_after_flag (pre rest : list string) :
  ~ In "--guild" pre ->
  Deploy.guildId (pre ++ "--guild" :: rest)%list = nth_error rest 0.
Proof.
  intros Hnot. unfold Deploy.guildId. rewrite (indexOf_first _ _ rest Hnot).
  rewrite nth_error_app2 by lia.
  replace (List.length pre + 1 - List.length pre)%nat with 1%nat by lia.
  reflexivity.
Qed.

(** X28. The deployment goes to a guild exactly when a non-empty argument
    follows the first [--guild] on the command line, and then to that
    argument (even when it is itself [--guild]); in every other case, in
    particular when [--guild] is the last argument, is followed by an empty
    argument or is absent, the commands are deployed globally. *)
Theorem deploy_target_of_arguments :
  (forall args g,
      Deploy.target args = Deploy.Guild g
      <-> g <> EmptyString
          /\ exists pre post,
               args = (pre ++ "--guild" :: g :: post)%list /\ ~ In "--guild" pre)
  /\ (forall pre, ~ In "--guild" pre ->
                  Deploy.target (pre ++ ["--guild"])%list = Deploy.Global)
  /\ (forall pre post, ~ In "--guild" pre ->
                       Deploy.target (pre ++ "--guild" :: EmptyString :: post)%list
                       = Deploy.Global)
  /\ (forall args, ~ In "--guild" args -> Deploy.target args = Deploy.Global)
  /\ (forall pre post, ~ In "--guild" pre ->
                       Deploy.target (pre ++ "--guild" :: "--guild" :: post)%list
                       = Deploy.Guild "--guild").
Proof.
  split; [|split; [|split; [|split]]].
  - intros args g. split.
    + unfold Deploy.target, Deploy.guildId.
      destruct (Deploy.indexOf "--guild" args) as [i|] eqn:Hi; [|discriminate].
      destruct (indexOf_split _ _ _ Hi) as (pre & rest & -> & Hnot & <-).
      rewrite nth_error_app2 by lia.
      replace (List.length pre + 1 - List.length pre)%nat with 1%nat by lia.
      destruct rest as [|g' post]; [discriminate|]. cbn [nth_error].
      destruct g' as [|c g']; cbn [Js.truthy_string]; [discriminate|].
      intros [= <-]. split; [discriminate|]. now exists pre, post.
    + intros (Hg & pre & post & -> & Hnot).
      unfold Deploy.target. rewrite (guildId_after_flag _ _ Hnot). cbn [nth_error].
      destruct g; [congruence | reflexivity].
  - intros pre Hnot. unfold Deploy.target. now rewrite (guildId_after_flag _ _ Hnot).
  - intros pre post Hnot. unfold Deploy.target.
    now rewrite (guildId_after_flag _ _ Hnot).
  - intros args Hnot. unfold Deploy.target, Deploy.guildId.
    destruct (Deploy.indexOf "--guild" args) as [i|] eqn:Hi; [|reflexivity].
    destruct (indexOf_split _ _ _ Hi) as (pre & rest & -> & _ & _).
    elim Hnot. apply in_or_app. right. now left.
  - intros pre post Hnot. unfold Deploy.target.
    now rewrite (guildId_after_flag _ _ Hnot).
Qed.
